(** * Merge-and-compress request handlers of pdf-merge

    A shallow embedding of the two [POST] handlers of the repository:

    - [src/app/api/merge/route.ts]: merge with the PDF document model,
      compress in process (module [Route]);
    - the variant that shells out to Ghostscript and falls back to the
      in-process rewrite when the tool is missing (module [GsRoute]).

    The handlers are asynchronous JavaScript that talks to three
    collaborators: the [pdf-lib] document model, the file system and a
    child process.  They are embedded as programs of a small monad with
    state (disk, clock, a log of collaborator calls) and JavaScript
    exceptions; [try]/[catch]/[finally] are combinators of that monad. *)

From Stdlib Require Import List String Ascii ZArith Lia Bool Arith.
From Stdlib Require Import Strings.Byte.
From Stdlib Require Import Permutation.
Import ListNotations.

Local Open Scope string_scope.
Local Open Scope Z_scope.

Set Implicit Arguments.

(** ** JavaScript numbers and strings *)

(** The only numbers the handlers compute with are results of [parseInt]:
    an integer or [NaN].  Integers are kept exact.  A JavaScript number
    is a double: the model and JavaScript agree on the integers of
    magnitude up to 2^53 - 1 (the safe integers), and on every
    comparison with 0, 1 and 2, where rounding cannot change the
    answer.  Statements that depend on the value itself are made for
    safe integers. *)
Inductive JSNumber : Type :=
| NaN
| Num (z : Z).

(** [a < b] and [a > b]: every comparison with [NaN] is false. *)
Definition js_lt (a b : JSNumber) : bool :=
  match a, b with
  | Num x, Num y => x <? y
  | _, _ => false
  end.

Definition js_gt (a b : JSNumber) : bool := js_lt b a.

(** [a === b] on numbers: [NaN] equals nothing, itself included. *)
Definition js_eq (a b : JSNumber) : bool :=
  match a, b with
  | Num x, Num y => x =? y
  | _, _ => false
  end.

(** The numbers on which integers stand for IEEE doubles without loss
    in [parseInt] and [toString]: [NaN] and the safe integers. *)
Definition js_exact (x : JSNumber) : bool :=
  match x with
  | NaN => true
  | Num z => Z.abs z <=? 2 ^ 53 - 1
  end.

Definition dquote : string := String (ascii_of_nat 34) EmptyString.

(** Decimal rendering of a natural number ([Number.prototype.toString]
    on a non-negative integer; JavaScript writes all the digits up to
    1e21, beyond the safe integers). *)
Definition digit_char (n : nat) : ascii := ascii_of_nat (48 + n).

Fixpoint nat_to_string_aux (fuel n : nat) (acc : string) : string :=
  match fuel with
  | O => acc
  | S fuel' =>
      let acc' := String (digit_char (n mod 10)) acc in
      match (n / 10)%nat with
      | O => acc'
      | q => nat_to_string_aux fuel' q acc'
      end
  end.

Definition nat_to_string (n : nat) : string :=
  nat_to_string_aux (S n) n EmptyString.

Definition js_toString (x : JSNumber) : string :=
  match x with
  | NaN => "NaN"
  | Num z =>
      if z <? 0 then "-" ++ nat_to_string (Z.to_nat (- z))
      else nat_to_string (Z.to_nat z)
  end.

(** *** [parseInt] with no radix argument *)

(** White space skipped by [parseInt] (code units up to 255: TAB, LF, VT,
    FF, CR, SP and NBSP). *)
Definition is_js_space (c : ascii) : bool :=
  let n := nat_of_ascii c in
  ((9 <=? n) && (n <=? 13) || (n =? 32) || (n =? 160))%nat.

Fixpoint skip_space (s : string) : string :=
  match s with
  | String c r => if is_js_space c then skip_space r else s
  | EmptyString => s
  end.

(** Value of a digit in the given radix, if it is one. *)
Definition digit_value (radix : Z) (c : ascii) : option Z :=
  let n := Z.of_nat (nat_of_ascii c) in
  let v :=
    if (48 <=? n) && (n <=? 57) then Some (n - 48)
    else if (97 <=? n) && (n <=? 122) then Some (n - 87)
    else if (65 <=? n) && (n <=? 90) then Some (n - 55)
    else None in
  match v with
  | Some d => if d <? radix then Some d else None
  | None => None
  end.

(** Longest prefix of digits, read left to right; [None] when there is
    no digit at all. *)
Fixpoint read_digits (radix : Z) (s : string) (acc : option Z) : option Z :=
  match s with
  | String c r =>
      match digit_value radix c with
      | Some d =>
          read_digits radix r
            (Some (match acc with Some a => a * radix + d | None => d end))
      | None => acc
      end
  | EmptyString => acc
  end.

Definition strip_sign (s : string) : Z * string :=
  match s with
  | String "-" r => (-1, r)
  | String "+" r => (1, r)
  | _ => (1, s)
  end.

Definition strip_hex_prefix (s : string) : Z * string :=
  match s with
  | String "0" (String "x" r) => (16, r)
  | String "0" (String "X" r) => (16, r)
  | _ => (10, s)
  end.

Definition parseInt (s : string) : JSNumber :=
  let (sign, s1) := strip_sign (skip_space s) in
  let (radix, s2) := strip_hex_prefix s1 in
  match read_digits radix s2 None with
  | Some m => Num (sign * m)
  | None => NaN
  end.

(** [x || "0"] on a form field: [null] and the empty string are falsy. *)
Definition or_default (x : option string) (d : string) : string :=
  match x with
  | None => d
  | Some EmptyString => d
  | Some s => s
  end.

Local Close Scope Z_scope.

(** ** The monad of the handlers: state and JavaScript exceptions *)

Definition bytes : Type := list byte.

(** Options object of [PDFDocument.save]; a field the caller leaves out
    is [None]. *)
Record SaveOptions : Type := mkSaveOptions {
  useObjectStreams : option bool;
  addDefaultPage : option bool;
  objectsPerTick : option nat
}.

(** Calls to collaborators, logged in the order they happen.  The log is
    ghost state: no handler reads it. *)
Inductive Event : Type :=
| EvLoad (input : bytes)
| EvSave (options : SaveOptions)
| EvExec (command : string)
| EvMkdtemp (prefix : string)
| EvWriteFile (path : string)
| EvReadFile (path : string)
| EvRm (path : string)
| EvConsoleWarn (message : string)
| EvConsoleError (message : string).

Record Disk : Type := mkDisk {
  dirs : list string;
  files : list (string * bytes)
}.

(** [tempDir] is the mutable local of the Ghostscript handler that its
    [finally] block reads; the other handler never touches it. *)
Record State : Type := mkState {
  disk : Disk;
  ticks : nat;
  trace : list Event;
  tempDir : option string
}.

(** What the operating system answers during one request. *)
Record Env : Type := mkEnv {
  clock : nat -> Z;
  os_tmpdir : string;
  mkdtemp_outcome : string + string;
  writeFile_error : string -> option string;
  exec_outcome : string -> Disk -> Disk * option string;
  rm_error : string -> option string
}.

Inductive Outcome (A : Type) : Type :=
| Returned (a : A)
| Thrown (message : string).
Arguments Returned {A} a.
Arguments Thrown {A} message.

Definition M (A : Type) : Type := State -> Outcome A * State.

Definition ret {A} (a : A) : M A := fun s => (Returned a, s).

Definition bind {A B} (c : M A) (k : A -> M B) : M B :=
  fun s =>
    match c s with
    | (Returned a, s') => k a s'
    | (Thrown m, s') => (Thrown m, s')
    end.

Definition throw {A} (message : string) : M A := fun s => (Thrown message, s).

(** [try { c } catch (error) { h error.message }] *)
Definition try_catch {A} (c : M A) (h : string -> M A) : M A :=
  fun s =>
    match c s with
    | (Returned a, s') => (Returned a, s')
    | (Thrown m, s') => h m s'
    end.

(** [try { c } finally { f }]: [f] runs on both exits; an exception of
    [f] replaces the outcome of [c]. *)
Definition try_finally {A} (c : M A) (f : M unit) : M A :=
  fun s =>
    match c s with
    | (r, s') =>
        match f s' with
        | (Returned _, s'') => (r, s'')
        | (Thrown m, s'') => (Thrown m, s'')
        end
    end.

Declare Scope js_scope.
Delimit Scope js_scope with js.
Notation "x <- c ;; k" := (bind c (fun x => k))
  (at level 61, c at next level, right associativity) : js_scope.
Notation "c ;;; k" := (bind c (fun _ => k))
  (at level 61, right associativity) : js_scope.
Notation "' ( x , y ) <- c ;; k" := (bind c (fun p => let '(x, y) := p in k))
  (at level 61, c at next level, right associativity) : js_scope.
Local Open Scope js_scope.

Definition log (e : Event) : M unit :=
  fun s => (Returned tt,
            mkState (disk s) (ticks s) (trace s ++ [e]) (tempDir s)).

Definition set_tempDir (d : string) : M unit :=
  fun s => (Returned tt, mkState (disk s) (ticks s) (trace s) (Some d)).

Definition get_tempDir : M (option string) :=
  fun s => (Returned (tempDir s), s).

Definition get_disk : M Disk := fun s => (Returned (disk s), s).

Definition set_disk (d : Disk) : M unit :=
  fun s => (Returned tt, mkState d (ticks s) (trace s) (tempDir s)).

Section OperatingSystem.

Variable env : Env.

(** [new Date()] *)
Definition new_Date : M Z :=
  fun s => (Returned (clock env (ticks s)),
            mkState (disk s) (S (ticks s)) (trace s) (tempDir s)).

(** [path.join(a, b)] for a directory [a] and a plain name [b]. *)
Definition path_join (a b : string) : string := a ++ "/" ++ b.

(** [fs.mkdtemp(prefix)] *)
Definition fs_mkdtemp (prefix : string) : M string :=
  log (EvMkdtemp prefix) ;;;
  match mkdtemp_outcome env with
  | inl err => throw err
  | inr suffix =>
      let d := prefix ++ suffix in
      dk <- get_disk ;;
      set_disk (mkDisk (d :: dirs dk) (files dk)) ;;;
      ret d
  end.

Definition remove_file (p : string) (fs : list (string * bytes)) :=
  filter (fun e => negb (String.eqb (fst e) p)) fs.

(** [fs.writeFile(path, data)] *)
Definition fs_writeFile (p : string) (data : bytes) : M unit :=
  log (EvWriteFile p) ;;;
  match writeFile_error env p with
  | Some err => throw err
  | None =>
      dk <- get_disk ;;
      set_disk (mkDisk (dirs dk) ((p, data) :: remove_file p (files dk)))
  end.

Fixpoint lookup_file (p : string) (fs : list (string * bytes)) : option bytes :=
  match fs with
  | [] => None
  | (q, b) :: r => if String.eqb q p then Some b else lookup_file p r
  end.

(** [fs.readFile(path)] *)
Definition fs_readFile (p : string) : M bytes :=
  log (EvReadFile p) ;;;
  dk <- get_disk ;;
  match lookup_file p (files dk) with
  | Some b => ret b
  | None => throw ("ENOENT: no such file or directory, open '" ++ p ++ "'")
  end.

(** [fs.rm(dir, { recursive: true, force: true })]: on success the
    directory and everything below it are gone; on failure it throws. *)
Definition fs_rm_recursive (d : string) : M unit :=
  log (EvRm d) ;;;
  match rm_error env d with
  | Some err => throw err
  | None =>
      dk <- get_disk ;;
      set_disk
        (mkDisk
           (filter (fun x => negb (String.eqb x d)) (dirs dk))
           (filter (fun e => negb (String.prefix (d ++ "/") (fst e)))
              (files dk)))
  end.

(** [execAsync(command)]: rejects when the child exits with a nonzero
    status; whatever the child did to the disk stays done. *)
Definition execAsync (command : string) : M unit :=
  log (EvExec command) ;;;
  dk <- get_disk ;;
  let (dk', err) := exec_outcome env command dk in
  set_disk dk' ;;;
  match err with
  | Some e => throw e
  | None => ret tt
  end.

End OperatingSystem.

(** ** The document model ([pdf-lib]) *)

(** The part of a [PDFDocument] the handlers act on: its page sequence
    and the six metadata fields the High branch writes. *)
Record PDFDocument (Page : Type) : Type := mkPDFDocument {
  pages : list Page;
  title : option string;
  author : option string;
  subject : option string;
  keywords : option (list string);
  creationDate : option Z;
  modificationDate : option Z
}.
Arguments mkPDFDocument {Page}.

(** The library is a collaborator, not part of the repository: its page
    type, its parser and its writer are an interface.  [parsePdf]
    answers [inl message] where [PDFDocument.load] throws and the
    document as the bytes describe it otherwise;
    [writePdf useObjectStreams objectsPerTick doc] is the byte
    serialization of [doc]. *)
Class PdfLib (Page : Type) : Type := mkPdfLib {
  blankPage : Page;
  parsePdf : bytes -> string + PDFDocument Page;
  writePdf : bool -> nat -> PDFDocument Page -> bytes
}.

Section DocumentModel.

Context {Page : Type} {lib : PdfLib Page}.
Variable env : Env.

Definition set_pages (ps : list Page) (d : PDFDocument Page) :=
  mkPDFDocument ps (title d) (author d) (subject d) (keywords d)
    (creationDate d) (modificationDate d).

(** [PDFDocument.create()]: no page, no descriptive metadata, both
    dates stamped with the current time. *)
Definition PDFDocument_create : M (PDFDocument Page) :=
  now <- new_Date env ;;
  ret (mkPDFDocument [] None None None None (Some now) (Some now)).

(** What the library does to the dates of a document it has just
    parsed ([updateMetadata] is on by default): it reads the clock
    once, stamps the modification date and sets the creation date when
    there is none. *)
Definition updateInfoDict (now : Z) (d : PDFDocument Page)
  : PDFDocument Page :=
  mkPDFDocument (pages d) (title d) (author d) (subject d) (keywords d)
    (match creationDate d with Some c => Some c | None => Some now end)
    (Some now).

(** [PDFDocument.load(bytes)]: throws on bytes that do not parse; on
    success the clock is read for [updateInfoDict]. *)
Definition PDFDocument_load (input : bytes) : M (PDFDocument Page) :=
  log (EvLoad input) ;;;
  match parsePdf input with
  | inl err => throw err
  | inr d =>
      now <- new_Date env ;;
      ret (updateInfoDict now d)
  end.

(** [doc.getPageIndices()] *)
Definition getPageIndices (d : PDFDocument Page) : list nat :=
  seq 0 (List.length (pages d)).

(** [target.copyPages(src, indices)]: the pages of [src] at [indices],
    in the order of [indices]; an index past the end throws. *)
Fixpoint copyPages (src : PDFDocument Page) (indices : list nat)
  : M (list Page) :=
  match indices with
  | [] => ret []
  | i :: rest =>
      match nth_error (pages src) i with
      | None => throw "TypeError: Cannot read properties of undefined"
      | Some p =>
          ps <- copyPages src rest ;;
          ret (p :: ps)
      end
  end.

(** [doc.addPage(page)]: appends. *)
Definition addPage (d : PDFDocument Page) (p : Page) : PDFDocument Page :=
  set_pages (pages d ++ [p])%list d.

Definition option_default {A} (d : A) (o : option A) : A :=
  match o with Some a => a | None => d end.

(** What [save] does to the document before writing it.  pdf-lib's
    [SaveOptions.addDefaultPage] defaults to [true]; with it on, [save]
    runs [if (this.getPageCount() === 0) this.addPage()] first, so a
    document without pages gets one blank page.  route.ts turns this off
    at lines 42 and 50 by passing [addDefaultPage: false]; every other
    [save] of the two handlers leaves the default. *)
Definition prepareForSave (o : SaveOptions) (d : PDFDocument Page)
  : PDFDocument Page :=
  if option_default true (addDefaultPage o) && (List.length (pages d) =? 0)%nat
  then addPage d blankPage
  else d.

(** [doc.save(options)]: the document object is mutated by
    [prepareForSave], so the updated object is handed back with the
    bytes.  Defaults: object streams on, 50 objects per tick. *)
Definition PDFDocument_save (o : SaveOptions) (d : PDFDocument Page)
  : M (PDFDocument Page * bytes) :=
  log (EvSave o) ;;;
  let d' := prepareForSave o d in
  ret (d', writePdf (option_default true (useObjectStreams o))
             (option_default 50 (objectsPerTick o)) d').

Definition setTitle (t : string) (d : PDFDocument Page) :=
  mkPDFDocument (pages d) (Some t) (author d) (subject d) (keywords d)
    (creationDate d) (modificationDate d).
Definition setAuthor (a : string) (d : PDFDocument Page) :=
  mkPDFDocument (pages d) (title d) (Some a) (subject d) (keywords d)
    (creationDate d) (modificationDate d).
Definition setSubject (x : string) (d : PDFDocument Page) :=
  mkPDFDocument (pages d) (title d) (author d) (Some x) (keywords d)
    (creationDate d) (modificationDate d).
Definition setKeywords (k : list string) (d : PDFDocument Page) :=
  mkPDFDocument (pages d) (title d) (author d) (subject d) (Some k)
    (creationDate d) (modificationDate d).
Definition setCreationDate (t : Z) (d : PDFDocument Page) :=
  mkPDFDocument (pages d) (title d) (author d) (subject d) (keywords d)
    (Some t) (modificationDate d).
Definition setModificationDate (t : Z) (d : PDFDocument Page) :=
  mkPDFDocument (pages d) (title d) (author d) (subject d) (keywords d)
    (creationDate d) (Some t).

End DocumentModel.

(** ** Requests and responses *)

Record File : Type := mkFile {
  file_name : string;
  arrayBuffer : bytes
}.

(** The multipart form: [getAll("files")] and [get("compressionLevel")]. *)
Record Request : Type := mkRequest {
  form_files : list File;
  form_compressionLevel : option string
}.

Inductive Body : Type :=
| PdfBody (content : bytes)
| JsonBody (error : string) (details : option string).

Record Response : Type := mkResponse {
  status : nat;
  headers : list (string * string);
  body : Body
}.

(** [NextResponse.json(body, { status })] *)
Definition NextResponse_json (error : string) (details : option string)
  (st : nat) : Response :=
  mkResponse st [("content-type", "application/json")] (JsonBody error details).

Definition attachment (filename : string) : string :=
  "attachment; filename=" ++ dquote ++ filename ++ dquote.

Definition default_save : SaveOptions := mkSaveOptions None None None.

(** ** src/app/api/merge/route.ts *)

Module Route.
Section Handler.

Context {Page : Type} {lib : PdfLib Page}.
Variable env : Env.

(** Lines 24-29: the [for (const file of files)] loop. *)
Fixpoint merge_loop (files : list File) (mergedPdf : PDFDocument Page)
  : M (PDFDocument Page) :=
  match files with
  | [] => ret mergedPdf
  | file :: rest =>
      pdf <- PDFDocument_load env (arrayBuffer file) ;;
      copied <- copyPages pdf (getPageIndices pdf) ;;
      merge_loop rest (fold_left addPage copied mergedPdf)
  end.

(** Lines 32-67: the three compression strategies.  [else] catches
    every level that is neither [0] nor [1]. *)
Definition save_with_level (compressionLevel : JSNumber)
  (mergedPdf : PDFDocument Page) : M bytes :=
  if js_eq compressionLevel (Num 0) then
    '(_, mergedBytes) <- PDFDocument_save default_save mergedPdf ;;
    ret mergedBytes
  else if js_eq compressionLevel (Num 1) then
    '(_, mergedBytes) <-
      PDFDocument_save (mkSaveOptions (Some true) (Some false) (Some 50))
        mergedPdf ;;
    ret mergedBytes
  else
    '(_, mergedBytes) <-
      PDFDocument_save (mkSaveOptions (Some true) (Some false) (Some 20))
        mergedPdf ;;
    optimizedPdf <- PDFDocument_load env mergedBytes ;;
    let optimizedPdf := setTitle "Merged PDF" optimizedPdf in
    let optimizedPdf := setAuthor "PDF Merger" optimizedPdf in
    let optimizedPdf := setSubject "Merged Documents" optimizedPdf in
    let optimizedPdf := setKeywords ["merged"; "pdf"] optimizedPdf in
    created <- new_Date env ;;
    let optimizedPdf := setCreationDate created optimizedPdf in
    modified <- new_Date env ;;
    let optimizedPdf := setModificationDate modified optimizedPdf in
    '(_, mergedBytes) <-
      PDFDocument_save (mkSaveOptions (Some true) None (Some 10))
        optimizedPdf ;;
    ret mergedBytes.

Definition success (compressionLevel : JSNumber) (nodeBuffer : bytes)
  : Response :=
  mkResponse 200
    [("Content-Type", "application/pdf");
     ("Content-Disposition",
      attachment
        ("merged"
         ++ (if js_gt compressionLevel (Num 0) then "_compressed"
             else EmptyString)
         ++ ".pdf"));
     ("Content-Length", nat_to_string (List.length nodeBuffer));
     ("X-Compression-Level", js_toString compressionLevel)]
    (PdfBody nodeBuffer).

Definition POST (req : Request) : M Response :=
  try_catch
    (let files := form_files req in
     let compressionLevel :=
       parseInt (or_default (form_compressionLevel req) "0") in
     if (List.length files =? 0)%nat then
       ret (NextResponse_json "No PDF files uploaded." None 400)
     else if js_lt compressionLevel (Num 0) || js_gt compressionLevel (Num 2)
     then ret (NextResponse_json "Invalid compression level." None 400)
     else
       mergedPdf <- PDFDocument_create env ;;
       mergedPdf <- merge_loop files mergedPdf ;;
       mergedBytes <- save_with_level compressionLevel mergedPdf ;;
       ret (success compressionLevel mergedBytes))
    (fun message =>
       log (EvConsoleError ("PDF merge error: " ++ message)) ;;;
       ret (NextResponse_json "Failed to merge PDFs" (Some message) 500)).

End Handler.
End Route.

(** ** The Ghostscript variant of the handler *)

Module GsRoute.
Section Handler.

Context {Page : Type} {lib : PdfLib Page}.
Variable env : Env.

(** Lines 15-22. *)
Definition isGhostscriptAvailable : M bool :=
  try_catch (execAsync env "gs --version" ;;; ret true)
    (fun _ => ret false).

(** Lines 45-50: the [for (const file of files)] loop. *)
Fixpoint merge_loop (files : list File) (mergedPdf : PDFDocument Page)
  : M (PDFDocument Page) :=
  match files with
  | [] => ret mergedPdf
  | file :: rest =>
      pdf <- PDFDocument_load env (arrayBuffer file) ;;
      copied <- copyPages pdf (getPageIndices pdf) ;;
      merge_loop rest (fold_left addPage copied mergedPdf)
  end.

(** A backslash at the end of a line of the template literal joins the
    next line, whose ten blanks of indentation stay in the command. *)
Definition continuation : string := "          ".

Definition quoted (s : string) : string := dquote ++ s ++ dquote.

Definition gs_medium (tempOutputPath tempInputPath : string) : string :=
  "gs -sDEVICE=pdfwrite -dCompatibilityLevel=1.4 "
  ++ continuation ++ "-dPDFSETTINGS=/ebook "
  ++ continuation ++ "-dNOPAUSE -dQUIET -dBATCH "
  ++ continuation ++ "-sOutputFile=" ++ quoted tempOutputPath
  ++ " " ++ quoted tempInputPath.

Definition gs_high (tempOutputPath tempInputPath : string) : string :=
  "gs -sDEVICE=pdfwrite -dCompatibilityLevel=1.4 "
  ++ continuation ++ "-dPDFSETTINGS=/screen "
  ++ continuation
  ++ "-dEmbedAllFonts=true -dSubsetFonts=true -dConvertCMYKImagesToRGB=true "
  ++ continuation
  ++ "-dColorImageDownsampleType=/Bicubic -dColorImageResolution=150 "
  ++ continuation
  ++ "-dGrayImageDownsampleType=/Bicubic -dGrayImageResolution=150 "
  ++ continuation
  ++ "-dMonoImageDownsampleType=/Bicubic -dMonoImageResolution=150 "
  ++ continuation ++ "-dNOPAUSE -dQUIET -dBATCH "
  ++ continuation ++ "-sOutputFile=" ++ quoted tempOutputPath
  ++ " " ++ quoted tempInputPath.

(** Lines 98-117: [switch (compressionLevel)] with cases 1 and 2 and no
    default. *)
Definition gsCommand (compressionLevel : JSNumber)
  (tempOutputPath tempInputPath : string) : string :=
  if js_eq compressionLevel (Num 1) then gs_medium tempOutputPath tempInputPath
  else if js_eq compressionLevel (Num 2)
  then gs_high tempOutputPath tempInputPath
  else EmptyString.

Definition pdf_headers (filename : string) (len : nat)
  : list (string * string) :=
  [("Content-Type", "application/pdf");
   ("Content-Disposition", attachment filename);
   ("Content-Length", nat_to_string len)].

(** Lines 52-134: serialize the accumulator, then answer at once
    (level 0), fall back to the document model (no Ghostscript) or run
    Ghostscript. *)
Definition compress_and_respond (compressionLevel : JSNumber)
  (mergedPdf : PDFDocument Page) : M Response :=
  '(mergedPdf, mergedBytes) <- PDFDocument_save default_save mergedPdf ;;
  if js_eq compressionLevel (Num 0) then
    ret (mkResponse 200
           (pdf_headers "merged.pdf" (List.length mergedBytes))
           (PdfBody mergedBytes))
  else
    dir <- fs_mkdtemp env (path_join (os_tmpdir env) "pdf-compress-") ;;
    set_tempDir dir ;;;
    let tempInputPath := path_join dir "input.pdf" in
    let tempOutputPath := path_join dir "output.pdf" in
    fs_writeFile env tempInputPath mergedBytes ;;;
    gsAvailable <- isGhostscriptAvailable ;;
    if negb gsAvailable then
      log (EvConsoleWarn
             "Ghostscript not available, using basic compression") ;;;
      let saveOptions :=
        if js_eq compressionLevel (Num 1)
        then mkSaveOptions (Some true) None (Some 50)
        else mkSaveOptions (Some true) None (Some 20) in
      '(_, compressedBytes) <- PDFDocument_save saveOptions mergedPdf ;;
      ret (mkResponse 200
             (pdf_headers "merged_compressed.pdf"
                (List.length compressedBytes))
             (PdfBody compressedBytes))
    else
      execAsync env
        (gsCommand compressionLevel tempOutputPath tempInputPath) ;;;
      compressedBuffer <- fs_readFile tempOutputPath ;;
      ret (mkResponse 200
             (pdf_headers "merged_compressed.pdf"
                (List.length compressedBuffer)
              ++ [("X-Compression-Method", "ghostscript");
                  ("X-Compression-Level", js_toString compressionLevel)])
             (PdfBody compressedBuffer)).

(** Lines 30-134: the body of [try]. *)
Definition try_block (req : Request) : M Response :=
  let files := form_files req in
  let compressionLevel :=
    parseInt (or_default (form_compressionLevel req) "0") in
  if (List.length files =? 0)%nat then
    ret (NextResponse_json "No PDF files uploaded." None 400)
  else if js_lt compressionLevel (Num 0) || js_gt compressionLevel (Num 2)
  then ret (NextResponse_json "Invalid compression level." None 400)
  else
    mergedPdf <- PDFDocument_create env ;;
    mergedPdf <- merge_loop files mergedPdf ;;
    compress_and_respond compressionLevel mergedPdf.

(** Line 136-144: the [catch] block. *)
Definition catch_block (message : string) : M Response :=
  log (EvConsoleError ("PDF compression error: " ++ message)) ;;;
  ret (NextResponse_json "Failed to process PDFs" (Some message) 500).

(** Lines 145-154: the [finally] block. *)
Definition cleanup : M unit :=
  dir <- get_tempDir ;;
  match dir with
  | Some d =>
      try_catch (fs_rm_recursive env d)
        (fun message => log (EvConsoleWarn ("Cleanup error: " ++ message)))
  | None => ret tt
  end.

(** [let tempDir = null] at entry, then [try]/[catch]/[finally]. *)
Definition POST (req : Request) : M Response :=
  (fun s => (Returned tt, mkState (disk s) (ticks s) (trace s) None)) ;;;
  try_finally (try_catch (try_block req) catch_block) cleanup.

End Handler.
End GsRoute.

(** ** A small instance of the interfaces, for running the handlers *)

Module Fixture.

(** A toy container format: ["%"], then one byte per page, then
    optionally ["/"] and the title.  Pages are bytes other than ["/"]. *)
Fixpoint split_title (b : bytes) : bytes * option bytes :=
  match b with
  | [] => ([], None)
  | x :: r =>
      if Byte.eqb x "/"%byte then ([], Some r)
      else let (ps, t) := split_title r in (x :: ps, t)
  end.

Definition toy_parse (b : bytes) : string + PDFDocument byte :=
  match b with
  | x :: r =>
      if Byte.eqb x "%"%byte then
        let (ps, t) := split_title r in
        inr (mkPDFDocument ps (option_map string_of_list_byte t)
               None None None None None)
      else inl "Failed to parse PDF document"
  | [] => inl "Failed to parse PDF document"
  end.

Definition toy_write (_ : bool) (_ : nat) (d : PDFDocument byte) : bytes :=
  ("%"%byte :: pages d
   ++ match title d with
      | Some t => "/"%byte :: list_byte_of_string t
      | None => []
      end)%list.

#[export] Instance toy : PdfLib byte :=
  mkPdfLib " "%byte toy_parse toy_write.

Definition temp_dir : string := "/tmp/pdf-compress-Ab12Cd".

(** Ghostscript is not installed: every command fails. *)
Definition gs_missing (_ : string) (dk : Disk) : Disk * option string :=
  (dk, Some "Command failed: gs: not found").

(** Ghostscript answers the version probe and fails on real work. *)
Definition gs_broken (command : string) (dk : Disk) : Disk * option string :=
  if String.eqb command "gs --version" then (dk, None)
  else (dk, Some "Command failed: gs exited with code 1").

(** Ghostscript exits with status 0 and writes nothing. *)
Definition gs_silent (_ : string) (dk : Disk) : Disk * option string :=
  (dk, None).

(** Ghostscript copies the input file to the output file. *)
Definition gs_copies (command : string) (dk : Disk) : Disk * option string :=
  if String.eqb command "gs --version" then (dk, None)
  else
    match lookup_file (temp_dir ++ "/input.pdf") (files dk) with
    | Some b =>
        (mkDisk (dirs dk) ((temp_dir ++ "/output.pdf", b) :: files dk), None)
    | None => (dk, Some "Command failed: gs exited with code 1")
    end.

Definition os (exec : string -> Disk -> Disk * option string)
  (rm : string -> option string) : Env :=
  mkEnv (fun n => 1000 + Z.of_nat n)%Z "/tmp" (inr "Ab12Cd")
    (fun _ => None) exec rm.

Definition rm_works (_ : string) : option string := None.
Definition rm_fails (_ : string) : option string :=
  Some "EBUSY: resource busy or locked".

Definition idle : State := mkState (mkDisk [] []) 0 [] None.

(** Three uploads: two pages, no page, and something that is no PDF. *)
Definition two_pages : File := mkFile "a.pdf" ["%"; "a"; "b"]%byte.
Definition three_pages : File := mkFile "b.pdf" ["%"; "c"; "d"; "e"]%byte.
Definition no_page : File := mkFile "empty.pdf" ["%"]%byte.
Definition garbage : File := mkFile "notes.txt" ["h"; "i"]%byte.

End Fixture.

(** ** Vocabulary of the statements *)

Section Vocabulary.

Context {Page : Type} {lib : PdfLib Page}.

(** The compression level as both handlers compute it (line 11 of
    route.ts, line 32 of the variant). *)
Definition level_of (req : Request) : JSNumber :=
  parseInt (or_default (form_compressionLevel req) "0").

(** The range check of both handlers lets the level through. *)
Definition level_accepted (l : JSNumber) : bool :=
  negb (js_lt l (Num 0) || js_gt l (Num 2)).

Definition parses (f : File) (d : PDFDocument Page) : Prop :=
  parsePdf (arrayBuffer f) = inr d.

Definition all_pages (docs : list (PDFDocument Page)) : list Page :=
  List.concat (map (@pages Page) docs).

Definition page_count (d : PDFDocument Page) : nat := List.length (pages d).

(** The accumulator after the loop: created at time [now], holding
    pages [ps]. *)
Definition merged_document (now : Z) (ps : list Page) : PDFDocument Page :=
  mkPDFDocument ps None None None None (Some now) (Some now).

Definition loads (fs : list File) : list Event :=
  map (fun f => EvLoad (arrayBuffer f)) fs.

(** [s] with more events logged. *)
Definition add_events (evs : list Event) (s : State) : State :=
  mkState (disk s) (ticks s) (trace s ++ evs) (tempDir s).

Definition tick (s : State) : State :=
  mkState (disk s) (S (ticks s)) (trace s) (tempDir s).

(** [s] after [n] more readings of the clock. *)
Definition advance (n : nat) (s : State) : State :=
  mkState (disk s) (n + ticks s) (trace s) (tempDir s).

(** [s] once the accumulator is created and the inputs [fs] are all
    loaded: one reading of the clock for [create], one for each
    [load]. *)
Definition merged_state (fs : list File) (s : State) : State :=
  add_events (loads fs) (advance (List.length fs) (tick s)).

(** The pages of a document after a [save] that leaves
    [addDefaultPage] on. *)
Definition with_default_page (ps : list Page) : list Page :=
  match ps with
  | [] => [blankPage]
  | _ :: _ => ps
  end.

Definition is_exec (e : Event) : bool :=
  match e with EvExec _ => true | _ => false end.

Definition is_save (e : Event) : bool :=
  match e with EvSave _ => true | _ => false end.

Definition is_load (e : Event) : bool :=
  match e with EvLoad _ => true | _ => false end.

Definition is_rm (e : Event) : bool :=
  match e with EvRm _ => true | _ => false end.

(** No child process removes the directory [d]. *)
Definition exec_keeps (env : Env) (d : string) : Prop :=
  forall (command : string) (dk : Disk),
    In d (dirs dk) -> In d (dirs (fst (exec_outcome env command dk))).

(** Events logged from [s] on, up to [s']. *)
Definition events_since (s s' : State) : list Event :=
  skipn (List.length (trace s)) (trace s').

Definition header (name : string) (r : Response) : option string :=
  match find (fun h => String.eqb (fst h) name) (headers r) with
  | Some h => Some (snd h)
  | None => None
  end.

(** The document a PDF response carries, as the library reads it. *)
Definition output_document (r : Outcome Response)
  : option (PDFDocument Page) :=
  match r with
  | Returned resp =>
      match body resp with
      | PdfBody b =>
          match parsePdf b with inr d => Some d | inl _ => None end
      | JsonBody _ _ => None
      end
  | Thrown _ => None
  end.

(** The six fields the High branch of route.ts writes (lines 56-61). *)
Definition with_pipeline_metadata (created modified : Z)
  (d : PDFDocument Page) : PDFDocument Page :=
  mkPDFDocument (pages d) (Some "Merged PDF") (Some "PDF Merger")
    (Some "Merged Documents") (Some ["merged"; "pdf"])
    (Some created) (Some modified).

(** The state in which the Ghostscript handler enters [try]. *)
Definition entered (s : State) : State :=
  mkState (disk s) (ticks s) (trace s) None.

(** The directory [fs.mkdtemp] creates, given the suffix it picks. *)
Definition temp_dir (env : Env) (suffix : string) : string :=
  path_join (os_tmpdir env) "pdf-compress-" ++ suffix.

(** The disk once the temp directory exists and holds the input. *)
Definition disk_with_input (dk : Disk) (dir : string) (data : bytes)
  : Disk :=
  mkDisk (dir :: dirs dk)
    ((path_join dir "input.pdf", data)
     :: remove_file (path_join dir "input.pdf") (files dk)).

(** The options of the fallback [save] (lines 81-83). *)
Definition fallback_options (l : JSNumber) : SaveOptions :=
  if js_eq l (Num 1%Z) then mkSaveOptions (Some true) None (Some 50)
  else mkSaveOptions (Some true) None (Some 20).

(** The response is a 200 whose body is the serialization of a
    document with page sequence [ps]. *)
Definition carries (r : Outcome Response) (ps : list Page) : Prop :=
  exists resp uos n d,
    r = Returned resp /\ status resp = 200
    /\ body resp = PdfBody (writePdf uos n d) /\ pages d = ps.

(** The Ghostscript handler gets its temp directory and input file
    written (the input being [data]) and the version probe fails. *)
Definition falls_back (env : Env) (s : State) (data : bytes) : Prop :=
  exists suffix,
    mkdtemp_outcome env = inr suffix
    /\ writeFile_error env (path_join (temp_dir env suffix) "input.pdf")
       = None
    /\ snd (exec_outcome env "gs --version"
              (disk_with_input (disk s) (temp_dir env suffix) data))
       <> None.

Definition has_pages (d : PDFDocument Page) : bool :=
  negb (page_count d =? 0)%nat.

Definition response_body (r : Outcome Response) : option Body :=
  match r with Returned resp => Some (body resp) | Thrown _ => None end.

Definition response_status (r : Outcome Response) : option nat :=
  match r with Returned resp => Some (status resp) | Thrown _ => None end.

(** The same operating system with another answer to [fs.rm]. *)
Definition with_rm_error (env : Env) (rm : string -> option string) : Env :=
  mkEnv (clock env) (os_tmpdir env) (mkdtemp_outcome env)
    (writeFile_error env) (exec_outcome env) rm.

End Vocabulary.

(** ** The page that calls the handler *)

(** JavaScript arrays, as far as the page uses them. *)
Section JsArrays.

Variable A : Type.

(** [a[i] = x] for an index inside the array. *)
Fixpoint array_set (i : nat) (x : A) (l : list A) : list A :=
  match l, i with
  | [], _ => []
  | _ :: r, O => x :: r
  | y :: r, S i' => y :: array_set i' x r
  end.

(** [a.filter((_, i) => keep(i))], counting from [i]. *)
Fixpoint filter_index (keep : nat -> bool) (i : nat) (l : list A) : list A :=
  match l with
  | [] => []
  | x :: r =>
      if keep i then x :: filter_index keep (S i) r
      else filter_index keep (S i) r
  end.

(** Where [a.splice(start, ...)] starts: [NaN] counts as 0, a negative
    start counts from the end, and the result is clamped to the array. *)
Definition splice_start (start : JSNumber) (len : nat) : nat :=
  match start with
  | NaN => 0
  | Num z =>
      if (z <? 0)%Z then Z.to_nat (Z.max (Z.of_nat len + z) 0)
      else Z.to_nat (Z.min z (Z.of_nat len))
  end.

(** [a.splice(start, 1)]: the removed elements (one or none) and what
    is left of the array. *)
Definition splice_one (start : JSNumber) (l : list A) : list A * list A :=
  let at_ := splice_start start (List.length l) in
  (firstn 1 (skipn at_ l), (firstn at_ l ++ skipn (S at_) l)%list).

(** [a.splice(start, 0, x)] for an index [start] that is no less than 0. *)
Definition splice_in (start : nat) (x : A) (l : list A) : list A :=
  let at_ := Nat.min start (List.length l) in
  (firstn at_ l ++ x :: skipn at_ l)%list.

End JsArrays.

Arguments array_set {A}.
Arguments filter_index {A}.
Arguments splice_one {A}.
Arguments splice_in {A}.

(** [Headers.get(name)]: names compare without regard to case, and the
    values of a repeated header are joined. *)
Definition lower_ascii (c : ascii) : ascii :=
  let n := nat_of_ascii c in
  if ((65 <=? n) && (n <=? 90))%nat then ascii_of_nat (n + 32) else c.

Fixpoint lower (s : string) : string :=
  match s with
  | EmptyString => EmptyString
  | String c r => String (lower_ascii c) (lower r)
  end.

Definition headers_get (name : string) (hs : list (string * string))
  : option string :=
  match filter (fun h => String.eqb (lower (fst h)) (lower name)) hs with
  | [] => None
  | h :: more => Some (String.concat ", " (map snd (h :: more)))
  end.

(** What [fetch] gives the page: a rejection, or the handler's response. *)
Inductive FetchOutcome : Type :=
| Rejected (message : string)
| Resolved (res : Response).

(** [res.ok] *)
Definition res_ok (res : Response) : bool :=
  ((200 <=? status res) && (status res <=? 299))%nat.

(** The object [res.json()] yields for a body of the handlers, as its
    list of properties; a body that is no JSON makes it throw. *)
Definition res_json (syntax_error : string) (b : Body)
  : string + list (string * string) :=
  match b with
  | JsonBody error details =>
      inr (("error", error)
           :: match details with
              | Some d => [("details", d)]
              | None => []
              end)
  | PdfBody _ => inl syntax_error
  end.

Definition property (name : string) (object : list (string * string))
  : option string :=
  match find (fun p => String.eqb (fst p) name) object with
  | Some p => Some (snd p)
  | None => None
  end.

Module Home.

(** A [File] in the browser: its MIME type, and what the server gets
    when the form is posted. *)
Record BrowserFile : Type := mkBrowserFile {
  type : string;
  upload : File
}.

(** The state hooks of the component that its handlers read or write.
    The three size figures are left out: the effect that sets them
    computes in floating point. *)
Record Model : Type := mkModel {
  files : list BrowserFile;
  mergedUrl : option string;
  isMerging : bool;
  isDragging : bool;
  compressionLevel : JSNumber
}.

(** What a handler does besides changing the state. *)
Inductive Effect : Type :=
| Alert (message : string)
| Fetch (form : Request)
| SetCompressedSize (size : JSNumber)
| ConsoleError (message : string).

Definition set_files (fs : list BrowserFile) (m : Model) : Model :=
  mkModel fs (mergedUrl m) (isMerging m) (isDragging m) (compressionLevel m).

Definition set_mergedUrl (u : option string) (m : Model) : Model :=
  mkModel (files m) u (isMerging m) (isDragging m) (compressionLevel m).

Definition set_isMerging (b : bool) (m : Model) : Model :=
  mkModel (files m) (mergedUrl m) b (isDragging m) (compressionLevel m).

Definition set_isDragging (b : bool) (m : Model) : Model :=
  mkModel (files m) (mergedUrl m) (isMerging m) b (compressionLevel m).

(** Lines 64-78: files dropped on the page. *)
Definition handleDrop (dropped : list BrowserFile) (m : Model)
  : Model * list Effect :=
  let m := set_isDragging false m in
  let droppedFiles :=
    filter (fun file => String.eqb (type file) "application/pdf") dropped in
  if (0 <? List.length droppedFiles)%nat
  then (set_files (files m ++ droppedFiles) m, [])
  else (m, [Alert "Please drop only PDF files"]).

(** Lines 80-85: files chosen in the file dialog; [None] is a [null]
    [e.target.files]. *)
Definition handleFileChange (chosen : option (list BrowserFile)) (m : Model)
  : Model :=
  match chosen with
  | Some newFiles => set_files (files m ++ newFiles) m
  | None => m
  end.

(** Lines 87-92.  The length test reads the list as it was when the
    handler was made, before the removal. *)
Definition removeFile (index : Z) (m : Model) : Model :=
  let m' :=
    set_files
      (filter_index (fun i => negb (Z.of_nat i =? index)%Z) 0 (files m)) m in
  if (List.length (files m) =? 1)%nat then set_mergedUrl None m' else m'.

(** Lines 95-102.  Past the guard both indices are inside the array. *)
Definition moveFileUp (index : Z) (m : Model) : Model :=
  if ((index <=? 0) || (index >=? Z.of_nat (List.length (files m))))%Z then m
  else
    let i := Z.to_nat index in
    match nth_error (files m) (i - 1), nth_error (files m) i with
    | Some before, Some current =>
        set_mergedUrl None
          (set_files
             (array_set (i - 1) current (array_set i before (files m))) m)
    | _, _ => m
    end.

(** Lines 105-112. *)
Definition moveFileDown (index : Z) (m : Model) : Model :=
  if ((index <? 0) || (index >=? Z.of_nat (List.length (files m)) - 1))%Z
  then m
  else
    let i := Z.to_nat index in
    match nth_error (files m) (i + 1), nth_error (files m) i with
    | Some after, Some current =>
        set_mergedUrl None
          (set_files
             (array_set (i + 1) current (array_set i after (files m))) m)
    | _, _ => m
    end.

(** Lines 115-118: what [handleDragStart] stores for the drag. *)
Definition handleDragStart (index : nat) : string :=
  js_toString (Num (Z.of_nat index)).

(** Lines 129-143: the array handed to [setFiles] when a list item is
    dropped on the item at [dropIndex], or [None] when the handler
    returns early.  [data] is the text stored for the drag.  A slot of
    the array is a file or [undefined] ([None]): [undefined] is what is
    inserted when the first [splice] removed nothing. *)
Definition handleDropItem (data : string) (dropIndex : nat)
  (fs : list BrowserFile) : option (list (option BrowserFile)) :=
  let dragIndex := parseInt data in
  if js_eq dragIndex (Num (Z.of_nat dropIndex)) then None
  else
    let newFiles := map Some fs in
    let (removed, newFiles) := splice_one dragIndex newFiles in
    let draggedFile :=
      match removed with
      | x :: _ => x
      | [] => None
      end in
    Some (splice_in dropIndex draggedFile newFiles).

(** Lines 192-195. *)
Definition clearAllFiles (m : Model) : Model :=
  set_mergedUrl None (set_files [] m).

Section Merge.

(** [URL.createObjectURL] on the blob of a body, and the message of the
    [SyntaxError] of [res.json()]. *)
Variable createObjectURL : Body -> string.
Variable syntax_error : string.

(** [fetch("/api/merge", { method: "POST", body: form })] *)
Variable fetch : Request -> FetchOutcome.

Definition generic_failure : string :=
  "An error occurred while merging PDFs. Please try again.".

(** Lines 184-186: the [catch] block. *)
Definition catch_block (message : string) : list Effect :=
  [Alert (or_default (Some message) generic_failure); ConsoleError message].

(** Lines 152-190. *)
Definition handleMerge (m : Model) : Model * list Effect :=
  if (List.length (files m) =? 0)%nat
  then (m, [Alert "Please upload at least 1 PDF file"])
  else
    let form :=
      mkRequest (map upload (files m))
        (Some (js_toString (compressionLevel m))) in
    match fetch form with
    | Rejected message =>
        (set_isMerging false m, Fetch form :: catch_block message)
    | Resolved res =>
        if negb (res_ok res) then
          match res_json syntax_error (body res) with
          | inl message =>
              (set_isMerging false m, Fetch form :: catch_block message)
          | inr error =>
              (set_isMerging false m,
               Fetch form
               :: catch_block
                    (or_default (property "message" error)
                       "Failed to merge PDFs"))
          end
        else
          let url := createObjectURL (body res) in
          let contentLength := headers_get "content-length" (headers res) in
          (set_isMerging false (set_mergedUrl (Some url) m),
           Fetch form
           :: match contentLength with
              | Some (String c r) =>
                  [SetCompressedSize (parseInt (String c r))]
              | _ => []
              end)
    end.

End Merge.

End Home.

(** The page talking to a handler that runs in state [s]: what the
    handler returns is what [fetch] resolves to. *)
Definition served (POST : Request -> M Response) (s : State)
  (req : Request) : FetchOutcome :=
  match fst (POST req s) with
  | Returned res => Resolved res
  | Thrown message => Rejected message
  end.

(** ** Sample files in the browser *)

Module Desk.

Definition a_pdf : Home.BrowserFile :=
  Home.mkBrowserFile "application/pdf" Fixture.two_pages.
Definition b_pdf : Home.BrowserFile :=
  Home.mkBrowserFile "application/pdf" Fixture.three_pages.
Definition c_pdf : Home.BrowserFile :=
  Home.mkBrowserFile "application/pdf" Fixture.no_page.
Definition notes : Home.BrowserFile :=
  Home.mkBrowserFile "text/plain" Fixture.garbage.

(** Three files listed, an earlier result still shown, level 0. *)
Definition listed : Home.Model :=
  Home.mkModel [a_pdf; b_pdf; c_pdf] (Some "blob:previous") false false
    (Num 0%Z).

Definition object_url (b : Body) : string :=
  match b with
  | PdfBody _ => "blob:pdf"
  | JsonBody _ _ => "blob:json"
  end.

End Desk.

(** What the page reads of a response: a PDF response is [ok] and its
    length can be read from [content-length]; an error response is not
    [ok]. *)
Definition page_readable (r : Response) : Prop :=
  match body r with
  | PdfBody b =>
      res_ok r = true
      /\ headers_get "content-length" (headers r)
         = Some (nat_to_string (List.length b))
  | JsonBody _ _ => res_ok r = false
  end.

(** The form that [handleMerge] posts (lines 160-162). *)
Definition form_of (m : Home.Model) : Request :=
  mkRequest (map Home.upload (Home.files m))
    (Some (js_toString (Home.compressionLevel m))).

Definition is_fetch (e : Home.Effect) : bool :=
  match e with Home.Fetch _ => true | _ => false end.

(** ** Shape of a response *)

(** A PDF response has status 200, says it is a PDF and states the
    exact length of its body; a JSON response is an error with status
    400 or 500. *)
Definition well_formed (r : Response) : Prop :=
  match body r with
  | PdfBody b =>
      status r = 200
      /\ header "Content-Type" r = Some "application/pdf"
      /\ header "Content-Length" r = Some (nat_to_string (List.length b))
  | JsonBody _ _ => status r = 400 \/ status r = 500
  end.

(** ** Text after a numeral *)

(** Text that ends a decimal numeral for [parseInt]: nothing, or
    something that starts with neither a decimal digit nor the [x] of a
    hexadecimal prefix. *)
Definition ends_numeral (rest : string) : bool :=
  match rest with
  | EmptyString => true
  | String c _ =>
      match digit_value 10 c with
      | Some _ => false
      | None => negb (Ascii.eqb c "x" || Ascii.eqb c "X")
      end
  end.

Fixpoint all_space (s : string) : bool :=
  match s with
  | EmptyString => true
  | String c r => is_js_space c && all_space r
  end.

(** * Properties *)

Unset Implicit Arguments.

(** ** [parseInt] and [toString] on sample fields *)

Example parseInt_3 : parseInt "3" = Num 3%Z.
Proof. reflexivity. Qed.
Example parseInt_minus1 : parseInt "-1" = Num (-1)%Z.
Proof. reflexivity. Qed.
Example parseInt_abc : parseInt "abc" = NaN.
Proof. reflexivity. Qed.
Example parseInt_1_5 : parseInt "1.5" = Num 1%Z.
Proof. reflexivity. Qed.
Example parseInt_hex : parseInt " 0x2" = Num 2%Z.
Proof. reflexivity. Qed.
Example nat_to_string_1204 : nat_to_string 1204 = "1204".
Proof. reflexivity. Qed.
Example js_toString_neg : js_toString (Num (-12)%Z) = "-12".
Proof. reflexivity. Qed.
Example absent_field_is_level_0 : level_of (mkRequest [] None) = Num 0%Z.
Proof. reflexivity. Qed.

Example route_level0_two_files :
  fst (Route.POST (lib := Fixture.toy)
         (Fixture.os Fixture.gs_missing Fixture.rm_works)
         (mkRequest [Fixture.two_pages; Fixture.three_pages] (Some "0"))
         Fixture.idle)
  = Returned (Route.success (Num 0) ["%"; "a"; "b"; "c"; "d"; "e"]%byte).
Proof. reflexivity. Qed.

(** ** The monad and the document model *)

Lemma add_events_nil (s : State) : add_events [] s = s.
Proof. destruct s; unfold add_events; simpl. now rewrite app_nil_r. Qed.

Lemma add_events_app (l1 l2 : list Event) (s : State) :
  add_events l2 (add_events l1 s) = add_events (l1 ++ l2) s.
Proof. unfold add_events; simpl. now rewrite app_assoc. Qed.

Lemma events_since_add (evs : list Event) (s : State) :
  events_since s (add_events evs s) = evs.
Proof.
  unfold events_since, add_events; simpl.
  induction (trace s); simpl; auto.
Qed.

Section DocumentModelFacts.

Context {Page : Type} {lib : PdfLib Page}.

Lemma copyPages_suffix (d : PDFDocument Page) (s : State) :
  forall (back front : list Page),
    pages d = (front ++ back)%list ->
    copyPages d (seq (List.length front) (List.length back)) s
    = (Returned back, s).
Proof.
  induction back as [|p back IH]; intros front Hd; simpl.
  - reflexivity.
  - replace (nth_error (pages d) (List.length front)) with (Some p).
    + unfold bind. specialize (IH (front ++ [p])%list).
      rewrite length_app in IH. simpl in IH.
      rewrite Nat.add_1_r in IH. rewrite IH.
      * reflexivity.
      * rewrite Hd. now rewrite <- app_assoc.
    + rewrite Hd, nth_error_app2 by lia. now rewrite Nat.sub_diag.
Qed.

(** Copying the pages at [getPageIndices] yields every page, in the
    document's order. *)
Lemma copyPages_all (d : PDFDocument Page) (s : State) :
  copyPages d (getPageIndices d) s = (Returned (pages d), s).
Proof.
  unfold getPageIndices.
  exact (copyPages_suffix d s (pages d) [] eq_refl).
Qed.

Lemma addPage_all (ps : list Page) :
  forall d : PDFDocument Page,
    fold_left addPage ps d = set_pages (pages d ++ ps)%list d.
Proof.
  induction ps as [|p ps IH]; intros d; simpl.
  - rewrite app_nil_r. now destruct d.
  - rewrite IH. unfold addPage, set_pages; simpl.
    now rewrite <- app_assoc.
Qed.

Variable env : Env.

Lemma load_ok (input : bytes) (d : PDFDocument Page) (s : State) :
  parsePdf input = inr d ->
  PDFDocument_load env input s
  = (Returned (updateInfoDict (clock env (ticks s)) d),
     add_events [EvLoad input] (tick s)).
Proof.
  intros H. unfold PDFDocument_load, bind, log. now rewrite H.
Qed.

Lemma load_fail (input : bytes) (message : string) (s : State) :
  parsePdf input = inl message ->
  PDFDocument_load env input s
  = (Thrown message, add_events [EvLoad input] s).
Proof.
  intros H. unfold PDFDocument_load, bind, log. now rewrite H.
Qed.

Lemma add_events_advance (evs more : list Event) (n : nat) (s : State) :
  add_events more (advance n (add_events evs (tick s)))
  = add_events (evs ++ more) (advance (S n) s).
Proof.
  unfold add_events, advance, tick. simpl. f_equal.
  - lia.
  - now rewrite app_assoc.
Qed.

(** The loop over parseable inputs: the accumulator gains every page
    of every input, input after input; the clock is read once for each
    input. *)
Lemma merge_loop_ok (fs : list File) (docs : list (PDFDocument Page)) :
  Forall2 parses fs docs ->
  forall (m : PDFDocument Page) (s : State),
    Route.merge_loop env fs m s
    = (Returned (set_pages (pages m ++ all_pages docs)%list m),
       add_events (loads fs) (advance (List.length fs) s)).
Proof.
  induction 1 as [|f d fs docs Hf _ IH]; intros m s; simpl.
  - unfold ret, all_pages; simpl. rewrite app_nil_r.
    destruct m, s. unfold add_events, advance. simpl.
    now rewrite app_nil_r.
  - unfold bind at 1. red in Hf. rewrite (load_ok _ _ _ Hf).
    unfold bind at 1. rewrite copyPages_all.
    rewrite IH, addPage_all. rewrite add_events_advance.
    unfold all_pages; simpl. unfold set_pages; simpl.
    now rewrite app_assoc.
Qed.

(** The loop stops at the first input that does not parse and throws
    the parser's message. *)
Lemma merge_loop_fail (good : list File) (docs : list (PDFDocument Page))
  (bad : File) (rest : list File) (message : string) :
  Forall2 parses good docs ->
  parsePdf (arrayBuffer bad) = inl message ->
  forall (m : PDFDocument Page) (s : State),
    Route.merge_loop env (good ++ bad :: rest) m s
    = (Thrown message,
       add_events (loads (good ++ [bad])) (advance (List.length good) s)).
Proof.
  induction 1 as [|f d fs docs Hf _ IH]; intros Hbad m s; simpl.
  - unfold bind at 1. rewrite (load_fail _ _ _ Hbad).
    destruct s. reflexivity.
  - unfold bind at 1. red in Hf. rewrite (load_ok _ _ _ Hf).
    unfold bind at 1. rewrite copyPages_all.
    rewrite (IH Hbad). now rewrite add_events_advance.
Qed.

(** Both handlers run the same loop. *)
Lemma merge_loop_same :
  @GsRoute.merge_loop Page lib = @Route.merge_loop Page lib.
Proof. reflexivity. Qed.

End DocumentModelFacts.

(** ** src/app/api/merge/route.ts: what [POST] computes *)

Section RouteFacts.

Context {Page : Type} {lib : PdfLib Page}.
Variable env : Env.

Lemma level_accepted_cases (l : JSNumber) :
  level_accepted l = true ->
  l = NaN \/ l = Num 0%Z \/ l = Num 1%Z \/ l = Num 2%Z.
Proof.
  unfold level_accepted, js_gt, js_lt. destruct l as [|z]; auto.
  intros H. apply negb_true_iff, orb_false_iff in H. destruct H as [H1 H2].
  apply Z.ltb_ge in H1, H2. right.
  assert (z = 0 \/ z = 1 \/ z = 2)%Z as [->|[->| ->]] by lia; auto.
Qed.

(** Validation passed and every input parses: the response is decided
    by [save_with_level] on the accumulator that holds all pages. *)
Lemma Route_POST_merged (req : Request) (docs : list (PDFDocument Page))
  (s : State) :
  form_files req <> [] ->
  level_accepted (level_of req) = true ->
  Forall2 parses (form_files req) docs ->
  Route.POST env req s
  = match
      Route.save_with_level env (level_of req)
        (merged_document (clock env (ticks s)) (all_pages docs))
        (merged_state (form_files req) s)
    with
    | (Returned b, s') => (Returned (Route.success (level_of req) b), s')
    | (Thrown m, s') =>
        (Returned (NextResponse_json "Failed to merge PDFs" (Some m) 500),
         add_events [EvConsoleError ("PDF merge error: " ++ m)] s')
    end.
Proof.
  intros Hfiles Hlevel Hparse.
  unfold Route.POST, try_catch. fold (level_of req).
  destruct (form_files req) as [|f fs] eqn:Efiles; [congruence|].
  cbn [List.length Nat.eqb].
  unfold level_accepted in Hlevel. apply negb_true_iff in Hlevel.
  rewrite Hlevel.
  unfold bind at 1. unfold PDFDocument_create at 1.
  unfold bind at 1. unfold new_Date at 1. unfold ret at 1.
  unfold bind at 1. rewrite (merge_loop_ok env _ _ Hparse).
  unfold bind at 1.
  change (set_pages _ _)
    with (merged_document (clock env (ticks s)) (all_pages docs)).
  fold (tick s). fold (merged_state (f :: fs) s).
  destruct (Route.save_with_level _ _ _ _) as [[b|m] s']; reflexivity.
Qed.

Lemma Route_POST_no_files (req : Request) (s : State) :
  form_files req = [] ->
  Route.POST env req s
  = (Returned (NextResponse_json "No PDF files uploaded." None 400), s).
Proof. intros H. unfold Route.POST, try_catch. now rewrite H. Qed.

Lemma Route_POST_rejected (req : Request) (s : State) :
  form_files req <> [] ->
  level_accepted (level_of req) = false ->
  Route.POST env req s
  = (Returned (NextResponse_json "Invalid compression level." None 400), s).
Proof.
  intros Hfiles Hlevel. unfold Route.POST, try_catch. fold (level_of req).
  destruct (form_files req); [congruence|].
  unfold level_accepted in Hlevel. apply negb_false_iff in Hlevel.
  cbn [List.length Nat.eqb]. now rewrite Hlevel.
Qed.

(** Validation passed and some input does not parse: the loop throws,
    [catch] answers 500 with the parser's message. *)
Lemma Route_POST_unparseable (req : Request) (good : list File)
  (docs : list (PDFDocument Page)) (bad : File) (rest : list File)
  (message : string) (s : State) :
  form_files req = (good ++ bad :: rest)%list ->
  level_accepted (level_of req) = true ->
  Forall2 parses good docs ->
  parsePdf (arrayBuffer bad) = inl message ->
  Route.POST env req s
  = (Returned (NextResponse_json "Failed to merge PDFs" (Some message) 500),
     add_events
       (loads (good ++ [bad])
        ++ [EvConsoleError ("PDF merge error: " ++ message)])
       (advance (List.length good) (tick s))).
Proof.
  intros Hfiles Hlevel Hgood Hbad.
  unfold Route.POST, try_catch. fold (level_of req). rewrite Hfiles.
  replace (List.length (good ++ bad :: rest) =? 0)%nat with false
    by (symmetry; apply Nat.eqb_neq; rewrite length_app; simpl; lia).
  unfold level_accepted in Hlevel. apply negb_true_iff in Hlevel.
  rewrite Hlevel.
  unfold bind at 1. unfold PDFDocument_create at 1.
  unfold bind at 1. unfold new_Date at 1. unfold ret at 1.
  unfold bind at 1. rewrite (merge_loop_fail env _ _ bad rest _ Hgood Hbad).
  fold (tick s). unfold bind, log, ret. cbn [fst snd].
  f_equal. unfold add_events; simpl. now rewrite <- app_assoc.
Qed.

Lemma save_with_level_0 (m : PDFDocument Page) (s : State) :
  Route.save_with_level env (Num 0%Z) m s
  = (Returned (writePdf true 50 (prepareForSave default_save m)),
     add_events [EvSave default_save] s).
Proof. reflexivity. Qed.

Lemma save_with_level_1 (m : PDFDocument Page) (s : State) :
  Route.save_with_level env (Num 1%Z) m s
  = (Returned (writePdf true 50 m),
     add_events [EvSave (mkSaveOptions (Some true) (Some false) (Some 50))]
       s).
Proof. reflexivity. Qed.

(** The [else] branch: serialize without default page, parse the
    result again, write the six fields, serialize once more.  The clock
    is read three times: by [load], then by each [new Date()]. *)
Lemma save_with_level_else (l : JSNumber) (m : PDFDocument Page)
  (s : State) :
  js_eq l (Num 0%Z) = false ->
  js_eq l (Num 1%Z) = false ->
  let first := writePdf true 20 m in
  let o20 := mkSaveOptions (Some true) (Some false) (Some 20) in
  let o10 := mkSaveOptions (Some true) None (Some 10) in
  Route.save_with_level env l m s
  = match parsePdf first with
    | inl message => (Thrown message, add_events [EvSave o20; EvLoad first] s)
    | inr d =>
        (Returned
           (writePdf true 10
              (prepareForSave o10
                 (with_pipeline_metadata (clock env (S (ticks s)))
                    (clock env (S (S (ticks s)))) d))),
         add_events [EvSave o20; EvLoad first; EvSave o10] (advance 3 s))
    end.
Proof.
  intros H0 H1. unfold Route.save_with_level. rewrite H0, H1.
  cbv zeta. unfold bind at 1. unfold PDFDocument_save at 1.
  unfold bind at 1. unfold log at 1. unfold ret at 1.
  cbn [prepareForSave addDefaultPage option_default andb useObjectStreams
         objectsPerTick].
  unfold bind at 1. unfold PDFDocument_load at 1. unfold bind at 1.
  unfold log at 1. cbn [trace disk ticks tempDir].
  destruct (parsePdf (writePdf true 20 m)) as [message|d].
  - unfold throw, add_events; simpl. now rewrite <- app_assoc.
  - unfold ret, bind, new_Date, PDFDocument_save, log, ret, add_events,
      advance.
    simpl. repeat rewrite <- app_assoc. reflexivity.
Qed.

End RouteFacts.

(** ** The Ghostscript variant: what [POST] computes *)

Section GsRouteFacts.

Context {Page : Type} {lib : PdfLib Page}.
Variable env : Env.

(** Once saved with the default options a document has a page, and no
    later [save] adds another. *)
Lemma prepareForSave_again (o : SaveOptions) (m : PDFDocument Page) :
  prepareForSave o (prepareForSave default_save m)
  = prepareForSave default_save m.
Proof.
  unfold prepareForSave at 2. simpl.
  destruct (pages m) as [|p ps] eqn:E; simpl.
  - unfold prepareForSave. simpl. rewrite E. simpl.
    now rewrite andb_false_r.
  - unfold prepareForSave. rewrite E. simpl. now rewrite andb_false_r.
Qed.

Lemma prepareForSave_pages (o : SaveOptions) (m : PDFDocument Page) :
  pages m <> [] -> prepareForSave o m = m.
Proof.
  intros H. unfold prepareForSave. destruct (pages m); [congruence|].
  simpl. now rewrite andb_false_r.
Qed.

Lemma cleanup_none (s : State) :
  tempDir s = None -> GsRoute.cleanup env s = (Returned tt, s).
Proof.
  intros H. unfold GsRoute.cleanup, bind, get_tempDir. now rewrite H.
Qed.

Lemma cleanup_removed (s : State) (d : string) :
  tempDir s = Some d ->
  rm_error env d = None ->
  GsRoute.cleanup env s
  = (Returned tt,
     mkState
       (mkDisk (filter (fun x => negb (String.eqb x d)) (dirs (disk s)))
          (filter (fun e => negb (String.prefix (d ++ "/") (fst e)))
             (files (disk s))))
       (ticks s) (trace s ++ [EvRm d]) (Some d)).
Proof.
  intros H Hrm. unfold GsRoute.cleanup, bind, get_tempDir. rewrite H.
  unfold try_catch, fs_rm_recursive, bind, log. rewrite Hrm.
  unfold get_disk, set_disk. simpl. now rewrite H.
Qed.

Lemma cleanup_failed (s : State) (d message : string) :
  tempDir s = Some d ->
  rm_error env d = Some message ->
  GsRoute.cleanup env s
  = (Returned tt,
     add_events [EvRm d; EvConsoleWarn ("Cleanup error: " ++ message)] s).
Proof.
  intros H Hrm. unfold GsRoute.cleanup, bind, get_tempDir. rewrite H.
  unfold try_catch, fs_rm_recursive, bind, log. rewrite Hrm.
  unfold throw, add_events. simpl. now rewrite <- app_assoc.
Qed.

Lemma cleanup_returns (s : State) : fst (GsRoute.cleanup env s) = Returned tt.
Proof.
  destruct (tempDir s) as [d|] eqn:E.
  - destruct (rm_error env d) as [message|] eqn:Erm.
    + now rewrite (cleanup_failed _ _ _ E Erm).
    + now rewrite (cleanup_removed _ _ E Erm).
  - now rewrite (cleanup_none _ E).
Qed.

(** [POST] is the guarded [try] block followed by [cleanup], which
    changes the state and never the response. *)
Lemma GsRoute_POST_unfold (req : Request) (s : State) :
  GsRoute.POST env req s
  = (fst (try_catch (GsRoute.try_block env req) GsRoute.catch_block
            (entered s)),
     snd (GsRoute.cleanup env
            (snd (try_catch (GsRoute.try_block env req) GsRoute.catch_block
                    (entered s))))).
Proof.
  unfold GsRoute.POST. unfold bind at 1. fold (entered s).
  unfold try_finally.
  destruct (try_catch _ _ (entered s)) as [r s1]. cbn [fst snd].
  pose proof (cleanup_returns s1) as Hc.
  destruct (GsRoute.cleanup env s1) as [[[]|m] s2]; simpl in Hc.
  - reflexivity.
  - discriminate.
Qed.

Lemma try_block_no_files (req : Request) (s : State) :
  form_files req = [] ->
  GsRoute.try_block env req s
  = (Returned (NextResponse_json "No PDF files uploaded." None 400), s).
Proof. intros H. unfold GsRoute.try_block. now rewrite H. Qed.

Lemma try_block_rejected (req : Request) (s : State) :
  form_files req <> [] ->
  level_accepted (level_of req) = false ->
  GsRoute.try_block env req s
  = (Returned (NextResponse_json "Invalid compression level." None 400), s).
Proof.
  intros Hfiles Hlevel. unfold GsRoute.try_block. fold (level_of req).
  destruct (form_files req); [congruence|].
  unfold level_accepted in Hlevel. apply negb_false_iff in Hlevel.
  cbn [List.length Nat.eqb]. now rewrite Hlevel.
Qed.

Lemma try_block_merged (req : Request) (docs : list (PDFDocument Page))
  (s : State) :
  form_files req <> [] ->
  level_accepted (level_of req) = true ->
  Forall2 parses (form_files req) docs ->
  GsRoute.try_block env req s
  = GsRoute.compress_and_respond env (level_of req)
      (merged_document (clock env (ticks s)) (all_pages docs))
      (merged_state (form_files req) s).
Proof.
  intros Hfiles Hlevel Hparse.
  unfold GsRoute.try_block. fold (level_of req).
  destruct (form_files req) as [|f fs] eqn:Efiles; [congruence|].
  cbn [List.length Nat.eqb].
  unfold level_accepted in Hlevel. apply negb_true_iff in Hlevel.
  rewrite Hlevel.
  unfold bind at 1. unfold PDFDocument_create at 1.
  unfold bind at 1. unfold new_Date at 1. unfold ret at 1.
  unfold bind at 1. rewrite merge_loop_same, (merge_loop_ok env _ _ Hparse).
  reflexivity.
Qed.

Lemma try_block_unparseable (req : Request) (good : list File)
  (docs : list (PDFDocument Page)) (bad : File) (rest : list File)
  (message : string) (s : State) :
  form_files req = (good ++ bad :: rest)%list ->
  level_accepted (level_of req) = true ->
  Forall2 parses good docs ->
  parsePdf (arrayBuffer bad) = inl message ->
  GsRoute.try_block env req s
  = (Thrown message,
     add_events (loads (good ++ [bad])) (advance (List.length good) (tick s))).
Proof.
  intros Hfiles Hlevel Hgood Hbad.
  unfold GsRoute.try_block. fold (level_of req). rewrite Hfiles.
  replace (List.length (good ++ bad :: rest) =? 0)%nat with false
    by (symmetry; apply Nat.eqb_neq; rewrite length_app; simpl; lia).
  unfold level_accepted in Hlevel. apply negb_true_iff in Hlevel.
  rewrite Hlevel.
  unfold bind at 1. unfold PDFDocument_create at 1.
  unfold bind at 1. unfold new_Date at 1. unfold ret at 1.
  unfold bind at 1.
  rewrite merge_loop_same, (merge_loop_fail env _ _ bad rest _ Hgood Hbad).
  reflexivity.
Qed.

Lemma compress_and_respond_0 (m : PDFDocument Page) (s : State) :
  let b := writePdf true 50 (prepareForSave default_save m) in
  GsRoute.compress_and_respond env (Num 0%Z) m s
  = (Returned
       (mkResponse 200 (GsRoute.pdf_headers "merged.pdf" (List.length b))
          (PdfBody b)),
     add_events [EvSave default_save] s).
Proof. reflexivity. Qed.

(** Every run of the compression stage at a level other than 0, by
    what the operating system answers: [mkdtemp], [writeFile], the
    version probe, Ghostscript itself, the output file. *)
Lemma compress_and_respond_run (l : JSNumber) (m : PDFDocument Page)
  (s : State) :
  js_eq l (Num 0%Z) = false ->
  let m' := prepareForSave default_save m in
  let b := writePdf true 50 m' in
  let prefix := path_join (os_tmpdir env) "pdf-compress-" in
  GsRoute.compress_and_respond env l m s
  = match mkdtemp_outcome env with
    | inl err =>
        (Thrown err, add_events [EvSave default_save; EvMkdtemp prefix] s)
    | inr suffix =>
        let dir := temp_dir env suffix in
        let input := path_join dir "input.pdf" in
        let output := path_join dir "output.pdf" in
        let command := GsRoute.gsCommand l output input in
        let started :=
          [EvSave default_save; EvMkdtemp prefix; EvWriteFile input] in
        match writeFile_error env input with
        | Some err =>
            (Thrown err,
             mkState (mkDisk (dir :: dirs (disk s)) (files (disk s)))
               (ticks s) (trace s ++ started) (Some dir))
        | None =>
            match
              exec_outcome env "gs --version"
                (disk_with_input (disk s) dir b)
            with
            | (dk, Some _) =>
                let c :=
                  writePdf
                    (option_default true
                       (useObjectStreams (fallback_options l)))
                    (option_default 50
                       (objectsPerTick (fallback_options l))) m' in
                (Returned
                   (mkResponse 200
                      (GsRoute.pdf_headers "merged_compressed.pdf"
                         (List.length c))
                      (PdfBody c)),
                 mkState dk (ticks s)
                   (trace s ++ started
                    ++ [EvExec "gs --version";
                        EvConsoleWarn
                          "Ghostscript not available, using basic compression";
                        EvSave (fallback_options l)])
                   (Some dir))
            | (dk, None) =>
                match exec_outcome env command dk with
                | (dk', Some err) =>
                    (Thrown err,
                     mkState dk' (ticks s)
                       (trace s ++ started
                        ++ [EvExec "gs --version"; EvExec command])
                       (Some dir))
                | (dk', None) =>
                    let events :=
                      (started
                       ++ [EvExec "gs --version"; EvExec command;
                           EvReadFile output])%list in
                    match lookup_file output (files dk') with
                    | Some c =>
                        (Returned
                           (mkResponse 200
                              (GsRoute.pdf_headers "merged_compressed.pdf"
                                 (List.length c)
                               ++ [("X-Compression-Method", "ghostscript");
                                   ("X-Compression-Level", js_toString l)])
                              (PdfBody c)),
                         mkState dk' (ticks s) (trace s ++ events) (Some dir))
                    | None =>
                        (Thrown
                           ("ENOENT: no such file or directory, open '"
                            ++ output ++ "'"),
                         mkState dk' (ticks s) (trace s ++ events) (Some dir))
                    end
                end
            end
        end
    end.
Proof.
  intros H0. cbv zeta.
  unfold GsRoute.compress_and_respond.
  unfold bind at 1. unfold PDFDocument_save at 1. unfold bind at 1.
  unfold log at 1. unfold ret at 1. rewrite H0.
  cbn [option_default useObjectStreams objectsPerTick default_save].
  unfold bind at 1. unfold fs_mkdtemp at 1. unfold bind at 1.
  unfold log at 1.
  destruct (mkdtemp_outcome env) as [err|suffix].
  { unfold throw, add_events. cbn [trace disk ticks tempDir].
    now rewrite <- app_assoc. }
  unfold bind at 1. unfold get_disk at 1. unfold bind at 1.
  unfold set_disk at 1. unfold ret at 1.
  unfold bind at 1. unfold set_tempDir at 1.
  cbn [trace disk ticks tempDir].
  fold (temp_dir env suffix).
  unfold bind at 1. unfold fs_writeFile at 1. unfold bind at 1.
  unfold log at 1. cbn [trace disk ticks tempDir].
  destruct (writeFile_error env _) as [err|].
  { unfold throw. now rewrite <- !app_assoc. }
  unfold bind at 1. unfold get_disk at 1. unfold set_disk at 1.
  cbn [trace disk ticks tempDir dirs files].
  fold (disk_with_input (disk s) (temp_dir env suffix)
          (writePdf true 50 (prepareForSave default_save m))).
  unfold bind at 1. unfold GsRoute.isGhostscriptAvailable at 1.
  unfold try_catch at 1. unfold bind at 1. unfold execAsync at 1.
  unfold bind at 1. unfold log at 1. unfold bind at 1.
  unfold get_disk at 1. cbn [trace disk ticks tempDir].
  destruct (exec_outcome env "gs --version" _) as [dk [err|]].
  - unfold bind at 1. unfold set_disk at 1. unfold throw at 1.
    unfold ret at 1. cbn [negb trace disk ticks tempDir].
    unfold bind at 1. unfold log at 1. fold (fallback_options l).
    unfold bind at 1. unfold PDFDocument_save at 1. unfold bind at 1.
    unfold log at 1. unfold ret. cbn [trace disk ticks tempDir].
    rewrite prepareForSave_again. now rewrite <- !app_assoc.
  - unfold bind at 1. unfold set_disk at 1. unfold ret at 1.
    unfold bind at 1. unfold ret at 1. cbn [negb trace disk ticks tempDir].
    unfold bind at 1. unfold execAsync at 1. unfold bind at 1.
    unfold log at 1. unfold bind at 1. unfold get_disk at 1.
    cbn [trace disk ticks tempDir].
    destruct (exec_outcome env (GsRoute.gsCommand l _ _) dk) as [dk' [err|]].
    + unfold bind at 1. unfold set_disk at 1. unfold throw at 1.
      cbn [trace disk ticks tempDir]. now rewrite <- !app_assoc.
    + unfold bind at 1. unfold set_disk at 1. unfold ret at 1.
      unfold bind at 1. unfold fs_readFile at 1. unfold bind at 1.
      unfold log at 1. unfold bind at 1. unfold get_disk at 1.
      cbn [trace disk ticks tempDir].
      destruct (lookup_file _ (files dk')) as [c|].
      * unfold ret. now rewrite <- !app_assoc.
      * unfold throw. now rewrite <- !app_assoc.
Qed.

End GsRouteFacts.

(** ** Merge stage *)

Section MergeStage.

Context {Page : Type} {lib : PdfLib Page}.
Variable env : Env.

Lemma page_count_all_pages (docs : list (PDFDocument Page)) :
  List.length (all_pages docs) = list_sum (map page_count docs).
Proof.
  induction docs as [|d docs IH]; simpl; auto.
  unfold all_pages in *; simpl. rewrite length_app, IH. reflexivity.
Qed.

Lemma level_valid_accepted (l : JSNumber) :
  l = Num 0%Z \/ l = Num 1%Z \/ l = Num 2%Z -> level_accepted l = true.
Proof. intros [->|[->| ->]]; reflexivity. Qed.

(** The response of the Ghostscript handler is that of its guarded
    [try] block. *)
Lemma GsRoute_POST_response (req : Request) (s : State) :
  fst (GsRoute.POST env req s)
  = fst (try_catch (GsRoute.try_block env req) GsRoute.catch_block
           (entered s)).
Proof. now rewrite GsRoute_POST_unfold. Qed.

(** Fallback run of the compression stage. *)
Lemma compress_and_respond_fallback (l : JSNumber) (m : PDFDocument Page)
  (s : State) :
  js_eq l (Num 0%Z) = false ->
  falls_back env s (writePdf true 50 (prepareForSave default_save m)) ->
  let c :=
    writePdf true (option_default 50 (objectsPerTick (fallback_options l)))
      (prepareForSave default_save m) in
  fst (GsRoute.compress_and_respond env l m s)
  = Returned
      (mkResponse 200
         (GsRoute.pdf_headers "merged_compressed.pdf" (List.length c))
         (PdfBody c)).
Proof.
  intros H0 (suffix & Hmk & Hwr & Hprobe). cbv zeta.
  rewrite (compress_and_respond_run env l m s H0). cbv zeta.
  rewrite Hmk, Hwr.
  destruct (exec_outcome env "gs --version" _) as [dk [err|]];
    [|now simpl in Hprobe].
  cbn [fst]. unfold fallback_options.
  destruct (js_eq l (Num 1%Z)); reflexivity.
Qed.

Lemma with_default_page_pages (ps : list Page) :
  ps <> [] -> with_default_page ps = ps.
Proof. destruct ps; [congruence|reflexivity]. Qed.

(** A [save] that leaves [addDefaultPage] on writes the document's
    pages, or one blank page when it has none. *)
Lemma prepareForSave_default_page (o : SaveOptions) (d : PDFDocument Page) :
  option_default true (addDefaultPage o) = true ->
  pages (prepareForSave o d) = with_default_page (pages d).
Proof.
  intros H. unfold prepareForSave. rewrite H.
  destruct (pages d) as [|p ps] eqn:E; simpl.
  - now rewrite E.
  - exact E.
Qed.

Lemma js_eq_true (l : JSNumber) (z : Z) : js_eq l (Num z) = true -> l = Num z.
Proof.
  destruct l as [|x]; simpl; [discriminate|].
  intros H. apply Z.eqb_eq in H. now subst.
Qed.

Lemma js_eq_false (l : JSNumber) (z : Z) : l <> Num z -> js_eq l (Num z) = false.
Proof.
  intros H. destruct (js_eq l (Num z)) eqn:E; [|reflexivity].
  now apply js_eq_true in E.
Qed.

(** The run in which Ghostscript is installed, exits with status 0 and
    leaves an output file: the response is that file. *)
Lemma GsRoute_POST_ghostscript (req : Request)
  (docs : list (PDFDocument Page)) (s : State) (suffix : string)
  (dk dk' : Disk) (c : bytes) :
  let saved :=
    prepareForSave default_save
      (merged_document (clock env (ticks s)) (all_pages docs)) in
  let dir := temp_dir env suffix in
  let input := path_join dir "input.pdf" in
  let output := path_join dir "output.pdf" in
  form_files req <> [] ->
  level_accepted (level_of req) = true ->
  js_eq (level_of req) (Num 0%Z) = false ->
  Forall2 parses (form_files req) docs ->
  mkdtemp_outcome env = inr suffix ->
  writeFile_error env input = None ->
  exec_outcome env "gs --version"
    (disk_with_input (disk s) dir (writePdf true 50 saved))
  = (dk, None) ->
  exec_outcome env (GsRoute.gsCommand (level_of req) output input) dk
  = (dk', None) ->
  lookup_file output (files dk') = Some c ->
  fst (GsRoute.POST env req s)
  = Returned
      (mkResponse 200
         (GsRoute.pdf_headers "merged_compressed.pdf" (List.length c)
          ++ [("X-Compression-Method", "ghostscript");
              ("X-Compression-Level", js_toString (level_of req))])
         (PdfBody c)).
Proof.
  intros saved dir input output Hne Hacc H0 Hp Hmk Hwr Hprobe Hrun Hout.
  rewrite GsRoute_POST_response. unfold try_catch.
  rewrite (try_block_merged env req docs (entered s) Hne Hacc Hp).
  rewrite (compress_and_respond_run env (level_of req) _ _ H0). cbv zeta.
  rewrite Hmk.
  change (clock env (ticks (entered s))) with (clock env (ticks s)).
  fold saved. fold dir. fold input. fold output. rewrite Hwr.
  change (disk (merged_state (form_files req) (entered s))) with (disk s).
  now rewrite Hprobe, Hrun, Hout.
Qed.

(** What each path that serializes with the document model puts in
    its response, for a request that passes validation and whose inputs
    all parse. *)
Lemma merged_outputs (req : Request) (docs : list (PDFDocument Page))
  (s : State) :
  let merged := merged_document (clock env (ticks s)) (all_pages docs) in
  let saved := prepareForSave default_save merged in
  let out := with_default_page (all_pages docs) in
  form_files req <> [] ->
  level_accepted (level_of req) = true ->
  Forall2 parses (form_files req) docs ->
  (level_of req = Num 0%Z ->
   carries (fst (Route.POST env req s)) out
   /\ carries (fst (GsRoute.POST env req s)) out)
  /\ (level_of req = Num 1%Z ->
      carries (fst (Route.POST env req s)) (all_pages docs))
  /\ (level_of req <> Num 0%Z -> level_of req <> Num 1%Z ->
      forall d,
        parsePdf (writePdf true 20 merged) = inr d ->
        pages d = all_pages docs ->
        carries (fst (Route.POST env req s)) out)
  /\ (level_of req <> Num 0%Z ->
      falls_back env (entered s) (writePdf true 50 saved) ->
      carries (fst (GsRoute.POST env req s)) out).
Proof.
  intros merged saved out Hne Hacc Hp.
  assert (Hsaved : pages saved = out)
    by (apply prepareForSave_default_page; reflexivity).
  split; [|split; [|split]].
  - intros E. split.
    + rewrite (Route_POST_merged env req docs s Hne Hacc Hp), E.
      rewrite save_with_level_0. cbn [fst].
      exists (Route.success (Num 0%Z) (writePdf true 50 saved)),
        true, 50, saved. auto.
    + rewrite GsRoute_POST_response. unfold try_catch.
      rewrite (try_block_merged env req docs (entered s) Hne Hacc Hp), E.
      rewrite compress_and_respond_0. cbn [fst].
      eexists _, true, 50, saved. repeat split. exact Hsaved.
  - intros E.
    rewrite (Route_POST_merged env req docs s Hne Hacc Hp), E.
    rewrite save_with_level_1. cbn [fst].
    exists (Route.success (Num 1%Z) (writePdf true 50 merged)),
      true, 50, merged. auto.
  - intros N0 N1 d Hd Hdp.
    rewrite (Route_POST_merged env req docs s Hne Hacc Hp).
    rewrite save_with_level_else by (apply js_eq_false; assumption).
    cbv zeta. fold merged. rewrite Hd. cbn [fst].
    eexists _, true, 10, _. repeat split.
    rewrite prepareForSave_default_page by reflexivity.
    simpl. now rewrite Hdp.
  - intros N0 Hfb. apply js_eq_false in N0.
    rewrite GsRoute_POST_response. unfold try_catch.
    rewrite (try_block_merged env req docs (entered s) Hne Hacc Hp).
    change (clock env (ticks (entered s))) with (clock env (ticks s)).
    fold merged.
    pose proof (compress_and_respond_fallback (level_of req) merged
                  (merged_state (form_files req) (entered s)) N0 Hfb) as Hrun.
    cbv zeta in Hrun.
    destruct (GsRoute.compress_and_respond env (level_of req) merged _)
      as [r s']. cbn [fst] in Hrun. subst r. cbn [fst].
    eexists _, true, _, saved. repeat split. exact Hsaved.
Qed.

End MergeStage.

(** ** Inputs without pages *)

Section EmptyInputs.

Context {Page : Type} {lib : PdfLib Page}.

Lemma all_pages_filter (docs : list (PDFDocument Page)) :
  all_pages (filter has_pages docs) = all_pages docs.
Proof.
  induction docs as [|d docs IH]; simpl; auto.
  unfold has_pages at 1, page_count.
  destruct (pages d) as [|p ps] eqn:E; simpl.
  - unfold all_pages in *; simpl. now rewrite E.
  - unfold all_pages in *; simpl. now rewrite IH.
Qed.

Lemma all_pages_empty (docs : list (PDFDocument Page)) :
  (forall d, In d docs -> page_count d = 0) -> all_pages docs = [].
Proof.
  induction docs as [|d docs IH]; intros H; auto.
  unfold all_pages in *; simpl.
  rewrite IH by (intros; apply H; now right).
  specialize (H d (or_introl eq_refl)). unfold page_count in H.
  destruct (pages d); [reflexivity|discriminate].
Qed.

End EmptyInputs.

(** C1, as the code has it.  For a request that passes validation and
    whose inputs all parse, the accumulator holds exactly the
    concatenation of the inputs' page sequences, in input order, and
    its page count is the sum of the inputs' page counts.  route.ts at
    level 1 answers 200 with the serialization of exactly that page
    sequence, whether or not it is empty.  Every other path that
    serializes with the document model (route.ts at level 0 and, given
    that the intermediate serialization parses back with its pages, at
    level 2; the Ghostscript variant at level 0 and on its fallback)
    answers 200 with the serialization of that page sequence when it is
    not empty and of one blank page when it is: there a page is added.
    When Ghostscript runs and leaves an output file, the response is
    that file, and what Ghostscript was handed is the default
    serialization just described. *)
Theorem C1_merge_concatenates_pages :
  forall (Page : Type) (lib : PdfLib Page) (env : Env) (req : Request)
         (docs : list (PDFDocument Page)) (s : State),
    let merged := merged_document (clock env (ticks s)) (all_pages docs) in
    let saved := prepareForSave default_save merged in
    let out := with_default_page (all_pages docs) in
    form_files req <> [] ->
    level_of req = Num 0%Z \/ level_of req = Num 1%Z \/ level_of req = Num 2%Z ->
    Forall2 parses (form_files req) docs ->
    List.length (all_pages docs) = list_sum (map page_count docs)
    /\ pages merged = all_pages docs
    /\ pages saved = out
    /\ (all_pages docs <> [] -> out = all_pages docs)
    /\ (all_pages docs = [] -> out = [blankPage])
    /\ (level_of req = Num 1%Z ->
        carries (fst (Route.POST env req s)) (all_pages docs))
    /\ (level_of req = Num 0%Z ->
        carries (fst (Route.POST env req s)) out
        /\ carries (fst (GsRoute.POST env req s)) out)
    /\ (level_of req = Num 2%Z ->
        forall d,
          parsePdf (writePdf true 20 merged) = inr d ->
          pages d = all_pages docs ->
          carries (fst (Route.POST env req s)) out)
    /\ (level_of req <> Num 0%Z ->
        falls_back env (entered s) (writePdf true 50 saved) ->
        carries (fst (GsRoute.POST env req s)) out)
    /\ (level_of req <> Num 0%Z ->
        forall (suffix : string) (dk dk' : Disk) (c : bytes),
          let dir := temp_dir env suffix in
          let input := path_join dir "input.pdf" in
          let output := path_join dir "output.pdf" in
          mkdtemp_outcome env = inr suffix ->
          writeFile_error env input = None ->
          exec_outcome env "gs --version"
            (disk_with_input (disk s) dir (writePdf true 50 saved))
          = (dk, None) ->
          exec_outcome env (GsRoute.gsCommand (level_of req) output input) dk
          = (dk', None) ->
          lookup_file output (files dk') = Some c ->
          exists resp,
            fst (GsRoute.POST env req s) = Returned resp
            /\ status resp = 200
            /\ body resp = PdfBody c).
Proof.
  intros Page lib env req docs s merged saved out Hne Hlevel Hp.
  assert (Hacc := level_valid_accepted _ Hlevel).
  destruct (merged_outputs env req docs s Hne Hacc Hp)
    as (H0 & H1 & H2 & Hfb).
  split; [apply page_count_all_pages|].
  split; [reflexivity|].
  split; [apply prepareForSave_default_page; reflexivity|].
  split; [apply with_default_page_pages|].
  split; [intros E; subst out; now rewrite E|].
  split; [exact H1|]. split; [exact H0|].
  split; [intros E; apply H2; rewrite E; discriminate|].
  split; [exact Hfb|].
  intros N0 suffix dk dk' c dir input output Hmk Hwr Hprobe Hrun Hout.
  eexists. split; [|split].
  - exact (GsRoute_POST_ghostscript env req docs s suffix dk dk' c Hne Hacc
             (js_eq_false _ _ N0) Hp Hmk Hwr Hprobe Hrun Hout).
  - reflexivity.
  - reflexivity.
Qed.

(** C1 applied to three uploads, the second without pages, at level 2,
    and to one upload without pages at level 0, where both handlers
    answer with the blank page. *)
Lemma C1_merge_concatenates_pages_witness :
  let env := Fixture.os Fixture.gs_missing Fixture.rm_works in
  let req :=
    mkRequest [Fixture.two_pages; Fixture.no_page; Fixture.three_pages]
      (Some "2") in
  let empty := mkRequest [Fixture.no_page] (Some "0") in
  let ps := ["a"; "b"; "c"; "d"; "e"]%byte in
  (carries (lib := Fixture.toy)
     (fst (Route.POST (lib := Fixture.toy) env req Fixture.idle)) ps
   /\ carries (lib := Fixture.toy)
        (fst (GsRoute.POST (lib := Fixture.toy) env req Fixture.idle)) ps)
  /\ (carries (lib := Fixture.toy)
        (fst (Route.POST (lib := Fixture.toy) env empty Fixture.idle))
        [" "%byte]
      /\ carries (lib := Fixture.toy)
           (fst (GsRoute.POST (lib := Fixture.toy) env empty Fixture.idle))
           [" "%byte]).
Proof.
  intros env req empty ps.
  pose (docs :=
          [mkPDFDocument ["a"; "b"]%byte None None None None None None;
           mkPDFDocument [] None None None None None None;
           mkPDFDocument ["c"; "d"; "e"]%byte None None None None None None]).
  split.
  - destruct (C1_merge_concatenates_pages byte Fixture.toy env req docs
                Fixture.idle)
      as (_ & _ & _ & _ & _ & _ & _ & Hroute & Hgs & _).
    + discriminate.
    + right; right; reflexivity.
    + repeat constructor.
    + split.
      * exact (Hroute eq_refl _ eq_refl eq_refl).
      * apply Hgs; [discriminate|].
        exists "Ab12Cd". repeat split. discriminate.
  - destruct (C1_merge_concatenates_pages byte Fixture.toy env empty
                [mkPDFDocument [] None None None None None None]
                Fixture.idle)
      as (_ & _ & _ & _ & _ & _ & H0 & _).
    + discriminate.
    + left; reflexivity.
    + repeat constructor.
    + exact (H0 eq_refl).
Defined.

(** One upload without pages at level 0: the upload has no page and
    the output of either handler has one. *)
Example blank_page_from_empty_upload :
  let env := Fixture.os Fixture.gs_missing Fixture.rm_works in
  let req := mkRequest [Fixture.no_page] (Some "0") in
  parses (lib := Fixture.toy) Fixture.no_page
    (mkPDFDocument [] None None None None None None)
  /\ option_map page_count
       (output_document (lib := Fixture.toy)
          (fst (Route.POST (lib := Fixture.toy) env req Fixture.idle)))
     = Some 1
  /\ option_map page_count
       (output_document (lib := Fixture.toy)
          (fst (GsRoute.POST (lib := Fixture.toy) env req Fixture.idle)))
     = Some 1.
Proof. repeat split. Qed.

(** The same upload at level 1 of route.ts, where [save] is called
    with [addDefaultPage: false]: the output has no page. *)
Example no_blank_page_at_level_1 :
  let env := Fixture.os Fixture.gs_missing Fixture.rm_works in
  let req := mkRequest [Fixture.no_page] (Some "1") in
  option_map page_count
    (output_document (lib := Fixture.toy)
       (fst (Route.POST (lib := Fixture.toy) env req Fixture.idle)))
  = Some 0.
Proof. reflexivity. Qed.

(** C8, as the code has it.  An input without pages is not an error
    and adds nothing to the accumulator, which holds the pages of the
    inputs that have pages and nothing else.  route.ts at level 1
    answers 200 with the serialization of exactly those pages, none
    when every input is without pages.  Every other path that
    serializes with the document model (route.ts at level 0 and on its
    High branch, the Ghostscript variant at level 0 and on its fallback)
    answers 200 with those pages when there are any and with one blank
    page when every input is without pages; and that is also what
    Ghostscript is handed when it runs. *)
Theorem C8_empty_input_contributes_no_page :
  forall (Page : Type) (lib : PdfLib Page) (env : Env) (req : Request)
         (docs : list (PDFDocument Page)) (s : State),
    let kept := all_pages (filter has_pages docs) in
    let merged := merged_document (clock env (ticks s)) kept in
    let saved := prepareForSave default_save merged in
    let out := with_default_page kept in
    form_files req <> [] ->
    level_accepted (level_of req) = true ->
    Forall2 parses (form_files req) docs ->
    all_pages docs = kept
    /\ pages saved = out
    /\ (kept <> [] -> out = kept)
    /\ ((forall d, In d docs -> page_count d = 0) ->
        kept = [] /\ out = [blankPage])
    /\ (level_of req = Num 1%Z ->
        carries (fst (Route.POST env req s)) kept)
    /\ (level_of req = Num 0%Z ->
        carries (fst (Route.POST env req s)) out
        /\ carries (fst (GsRoute.POST env req s)) out)
    /\ (level_of req <> Num 0%Z -> level_of req <> Num 1%Z ->
        forall d,
          parsePdf (writePdf true 20 merged) = inr d ->
          pages d = kept ->
          carries (fst (Route.POST env req s)) out)
    /\ (level_of req <> Num 0%Z ->
        falls_back env (entered s) (writePdf true 50 saved) ->
        carries (fst (GsRoute.POST env req s)) out)
    /\ (level_of req <> Num 0%Z ->
        forall (suffix : string) (dk dk' : Disk) (c : bytes),
          let dir := temp_dir env suffix in
          let input := path_join dir "input.pdf" in
          let output := path_join dir "output.pdf" in
          mkdtemp_outcome env = inr suffix ->
          writeFile_error env input = None ->
          exec_outcome env "gs --version"
            (disk_with_input (disk s) dir (writePdf true 50 saved))
          = (dk, None) ->
          exec_outcome env (GsRoute.gsCommand (level_of req) output input) dk
          = (dk', None) ->
          lookup_file output (files dk') = Some c ->
          lookup_file input
            (files (disk_with_input (disk s) dir (writePdf true 50 saved)))
          = Some (writePdf true 50 saved)
          /\ response_status (fst (GsRoute.POST env req s)) = Some 200
          /\ response_body (fst (GsRoute.POST env req s)) = Some (PdfBody c)).
Proof.
  intros Page lib env req docs s kept merged saved out Hne Hacc Hp.
  subst out saved merged kept. rewrite all_pages_filter.
  destruct (merged_outputs env req docs s Hne Hacc Hp)
    as (H0 & H1 & H2 & Hfb).
  split; [reflexivity|].
  split; [apply prepareForSave_default_page; reflexivity|].
  split; [apply with_default_page_pages|].
  split.
  { intros Hempty. rewrite (all_pages_empty docs Hempty).
    split; reflexivity. }
  split; [exact H1|]. split; [exact H0|]. split; [exact H2|].
  split; [exact Hfb|].
  intros N0 suffix dk dk' c dir input output Hmk Hwr Hprobe Hrun Hout.
  split.
  - subst input. unfold disk_with_input. cbn [files lookup_file].
    now rewrite String.eqb_refl.
  - rewrite (GsRoute_POST_ghostscript env req docs s suffix dk dk' c Hne Hacc
               (js_eq_false _ _ N0) Hp Hmk Hwr Hprobe Hrun Hout).
    split; reflexivity.
Qed.

(** C8 applied to an upload without pages between two with pages, and
    to two uploads without pages: at level 1 route.ts answers with a
    document without pages, at level 0 with the blank page. *)
Lemma C8_empty_input_contributes_no_page_witness :
  let env := Fixture.os Fixture.gs_missing Fixture.rm_works in
  let req :=
    mkRequest [Fixture.two_pages; Fixture.no_page; Fixture.three_pages]
      (Some "0") in
  let empty := [Fixture.no_page; Fixture.no_page] in
  let ps := ["a"; "b"; "c"; "d"; "e"]%byte in
  (carries (lib := Fixture.toy)
     (fst (Route.POST (lib := Fixture.toy) env req Fixture.idle)) ps
   /\ carries (lib := Fixture.toy)
        (fst (GsRoute.POST (lib := Fixture.toy) env req Fixture.idle)) ps)
  /\ carries (lib := Fixture.toy)
       (fst (Route.POST (lib := Fixture.toy) env
               (mkRequest empty (Some "1")) Fixture.idle))
       []
  /\ carries (lib := Fixture.toy)
       (fst (Route.POST (lib := Fixture.toy) env
               (mkRequest empty (Some "0")) Fixture.idle))
       [" "%byte].
Proof.
  intros env req empty ps.
  pose (docs :=
          [mkPDFDocument ["a"; "b"]%byte None None None None None None;
           mkPDFDocument [] None None None None None None;
           mkPDFDocument ["c"; "d"; "e"]%byte None None None None None None]).
  pose (none :=
          [mkPDFDocument (Page := byte) [] None None None None None None;
           mkPDFDocument [] None None None None None None]).
  split; [|split].
  - destruct (C8_empty_input_contributes_no_page byte Fixture.toy env req docs
                Fixture.idle) as (_ & _ & _ & _ & _ & H0 & _).
    + discriminate.
    + reflexivity.
    + repeat constructor.
    + exact (H0 eq_refl).
  - destruct (C8_empty_input_contributes_no_page byte Fixture.toy env
                (mkRequest empty (Some "1")) none Fixture.idle)
      as (_ & _ & _ & _ & H1 & _).
    + discriminate.
    + reflexivity.
    + repeat constructor.
    + exact (H1 eq_refl).
  - destruct (C8_empty_input_contributes_no_page byte Fixture.toy env
                (mkRequest empty (Some "0")) none Fixture.idle)
      as (_ & _ & _ & _ & _ & H0 & _).
    + discriminate.
    + reflexivity.
    + repeat constructor.
    + exact (proj1 (H0 eq_refl)).
Defined.

(** Two uploads without pages: route.ts answers with a one-page
    document at level 0 and with a document without pages at level 1. *)
Example all_empty_uploads :
  let env := Fixture.os Fixture.gs_missing Fixture.rm_works in
  let files := [Fixture.no_page; Fixture.no_page] in
  option_map page_count
    (output_document (lib := Fixture.toy)
       (fst (Route.POST (lib := Fixture.toy) env (mkRequest files (Some "0"))
               Fixture.idle)))
  = Some 1
  /\ option_map page_count
       (output_document (lib := Fixture.toy)
          (fst (Route.POST (lib := Fixture.toy) env
                  (mkRequest files (Some "1")) Fixture.idle)))
     = Some 0.
Proof. split; reflexivity. Qed.

(** ** Level 0 *)

Section NoCompression.

Context {Page : Type} {lib : PdfLib Page}.
Variable env : Env.

Lemma events_since_from (s s' : State) (evs : list Event) :
  trace s' = (trace s ++ evs)%list -> events_since s s' = evs.
Proof.
  intros H. unfold events_since. rewrite H.
  rewrite skipn_app, skipn_all, Nat.sub_diag. reflexivity.
Qed.

Lemma events_since_added (s s0 : State) (evs : list Event) :
  trace s0 = trace s -> events_since s (add_events evs s0) = evs.
Proof.
  intros H. apply events_since_from. simpl. now rewrite H.
Qed.

(** Either every input parses, or there is a first one that does not. *)
Lemma parse_split (fs : list File) :
  (exists docs : list (PDFDocument Page), Forall2 parses fs docs)
  \/ (exists good docs bad rest message,
         fs = (good ++ bad :: rest)%list
         /\ Forall2 (parses (Page := Page)) good docs
         /\ parsePdf (arrayBuffer bad) = inl message).
Proof.
  induction fs as [|f fs IH].
  - left. exists []. constructor.
  - destruct (parsePdf (arrayBuffer f)) as [message|d] eqn:E.
    + right. exists [], [], f, fs, message. repeat split; auto.
    + destruct IH as [(docs & H)|(good & docs & bad & rest & message & H)].
      * left. exists (d :: docs). now constructor.
      * right. destruct H as (-> & Hgood & Hbad).
        exists (f :: good), (d :: docs), bad, rest, message.
        repeat split; auto.
Qed.

Lemma loads_not_exec (fs : list File) (e : Event) :
  In e (loads fs) -> is_exec e = false.
Proof.
  unfold loads. rewrite in_map_iff. now intros (f & <- & _).
Qed.

(** The guarded [try] block of the Ghostscript handler when an input
    does not parse. *)
Lemma guarded_unparseable (req : Request) (good : list File)
  (docs : list (PDFDocument Page)) (bad : File) (rest : list File)
  (message : string) (s : State) :
  form_files req = (good ++ bad :: rest)%list ->
  level_accepted (level_of req) = true ->
  Forall2 parses good docs ->
  parsePdf (arrayBuffer bad) = inl message ->
  try_catch (GsRoute.try_block env req) GsRoute.catch_block s
  = (Returned (NextResponse_json "Failed to process PDFs" (Some message) 500),
     add_events
       (loads (good ++ [bad])
        ++ [EvConsoleError ("PDF compression error: " ++ message)])
       (advance (List.length good) (tick s))).
Proof.
  intros Hfiles Hlevel Hgood Hbad. unfold try_catch.
  rewrite (try_block_unparseable env req good docs bad rest message s
             Hfiles Hlevel Hgood Hbad).
  unfold GsRoute.catch_block, bind, log, ret, add_events. simpl.
  now rewrite <- app_assoc.
Qed.

End NoCompression.

(** C2.  At compression level 0 neither handler runs a child process,
    whatever the request; and when the request has files that all parse,
    both handlers answer 200 with, as body, exactly the bytes that the
    default [save] of the merged document returns: the writer's output
    with object streams and 50 objects per tick.  On that path the log
    holds the loads and that one [save], nothing else. *)
Theorem C2_level_0_plain_save :
  forall (Page : Type) (lib : PdfLib Page) (env : Env) (req : Request)
         (s : State),
    level_of req = Num 0%Z ->
    (forall e, In e (events_since s (snd (Route.POST env req s))) ->
               is_exec e = false)
    /\ (forall e, In e (events_since s (snd (GsRoute.POST env req s))) ->
                  is_exec e = false)
    /\ (forall docs : list (PDFDocument Page),
           form_files req <> [] ->
           Forall2 parses (form_files req) docs ->
           let merged :=
             merged_document (clock env (ticks s)) (all_pages docs) in
           let plain := writePdf true 50 (prepareForSave default_save merged) in
           fst (PDFDocument_save default_save merged s)
           = Returned (prepareForSave default_save merged, plain)
           /\ fst (Route.POST env req s)
              = Returned (Route.success (Num 0%Z) plain)
           /\ response_status (fst (Route.POST env req s)) = Some 200
           /\ response_body (fst (Route.POST env req s))
              = Some (PdfBody plain)
           /\ events_since s (snd (Route.POST env req s))
              = (loads (form_files req) ++ [EvSave default_save])%list
           /\ fst (GsRoute.POST env req s)
              = Returned
                  (mkResponse 200
                     (GsRoute.pdf_headers "merged.pdf" (List.length plain))
                     (PdfBody plain))
           /\ response_status (fst (GsRoute.POST env req s)) = Some 200
           /\ response_body (fst (GsRoute.POST env req s))
              = Some (PdfBody plain)
           /\ events_since s (snd (GsRoute.POST env req s))
              = (loads (form_files req) ++ [EvSave default_save])%list).
Proof.
  intros Page lib env req s E.
  assert (Hacc : level_accepted (level_of req) = true) by now rewrite E.
  assert (Hroute : forall docs : list (PDFDocument Page),
             form_files req <> [] ->
             Forall2 parses (form_files req) docs ->
             Route.POST env req s
             = (Returned
                  (Route.success (Num 0%Z)
                     (writePdf true 50
                        (prepareForSave default_save
                           (merged_document (clock env (ticks s))
                              (all_pages docs))))),
                add_events (loads (form_files req) ++ [EvSave default_save])
                  (advance (List.length (form_files req)) (tick s)))).
  { intros docs Hne Hp.
    rewrite (Route_POST_merged env req docs s Hne Hacc Hp), E.
    rewrite save_with_level_0. unfold merged_state.
    now rewrite add_events_app. }
  assert (Hgs : forall docs : list (PDFDocument Page),
             form_files req <> [] ->
             Forall2 parses (form_files req) docs ->
             let plain :=
               writePdf true 50
                 (prepareForSave default_save
                    (merged_document (clock env (ticks s))
                       (all_pages docs))) in
             fst (GsRoute.POST env req s)
             = Returned
                 (mkResponse 200
                    (GsRoute.pdf_headers "merged.pdf" (List.length plain))
                    (PdfBody plain))
             /\ events_since s (snd (GsRoute.POST env req s))
                = (loads (form_files req) ++ [EvSave default_save])%list).
  { intros docs Hne Hp plain. rewrite GsRoute_POST_unfold.
    unfold try_catch.
    rewrite (try_block_merged env req docs (entered s) Hne Hacc Hp), E.
    rewrite compress_and_respond_0. cbn [fst snd]. split; [reflexivity|].
    unfold merged_state.
    rewrite add_events_app, cleanup_none by reflexivity. cbn [snd].
    now rewrite events_since_added. }
  assert (Hcase : form_files req = [] \/ form_files req <> [])
    by (destruct (form_files req); [now left|right; discriminate]).
  split; [|split].
  - intros e. destruct Hcase as [Efs|Hne].
    + rewrite (Route_POST_no_files env req s Efs). cbn [snd].
      rewrite (events_since_from s s []) by now rewrite app_nil_r.
      intros [].
    + destruct (parse_split (form_files req))
        as [(docs & Hp)|(good & docs & bad & rest & message & Hfs & Hg & Hb)].
      * rewrite (Hroute docs Hne Hp). cbn [snd].
        rewrite events_since_added by reflexivity.
        rewrite in_app_iff. intros [H|[<-|[]]]; [|reflexivity].
        exact (loads_not_exec _ _ H).
      * rewrite (Route_POST_unparseable env req good docs bad rest message s
                   Hfs Hacc Hg Hb).
        cbn [snd]. rewrite events_since_added by reflexivity.
        rewrite in_app_iff. intros [H|[<-|[]]]; [|reflexivity].
        exact (loads_not_exec _ _ H).
  - intros e. destruct Hcase as [Efs|Hne].
    + rewrite GsRoute_POST_unfold. cbn [snd]. unfold try_catch.
      rewrite (try_block_no_files env req (entered s) Efs). cbn [snd].
      rewrite cleanup_none by reflexivity. cbn [snd].
      rewrite (events_since_from s (entered s) [])
        by (simpl; now rewrite app_nil_r).
      intros [].
    + destruct (parse_split (form_files req))
        as [(docs & Hp)|(good & docs & bad & rest & message & Hfs & Hg & Hb)].
      * destruct (Hgs docs Hne Hp) as [_ ->].
        rewrite in_app_iff. intros [H|[<-|[]]]; [|reflexivity].
        exact (loads_not_exec _ _ H).
      * rewrite GsRoute_POST_unfold. cbn [snd].
        rewrite (guarded_unparseable env req good docs bad rest message
                   (entered s) Hfs Hacc Hg Hb).
        cbn [snd]. rewrite cleanup_none by reflexivity. cbn [snd].
        rewrite events_since_added by reflexivity.
        rewrite in_app_iff. intros [H|[<-|[]]]; [|reflexivity].
        exact (loads_not_exec _ _ H).
  - intros docs Hne Hp merged plain.
    destruct (Hgs docs Hne Hp) as [Hresp Hev]. fold merged in Hresp.
    fold plain in Hresp.
    rewrite (Hroute docs Hne Hp), Hresp, Hev. cbn [fst snd].
    repeat split. now rewrite events_since_added.
Qed.

(** C2 applied to two uploads with Ghostscript installed and working. *)
Lemma C2_level_0_plain_save_witness :
  let env := Fixture.os Fixture.gs_copies Fixture.rm_works in
  let req :=
    mkRequest [Fixture.two_pages; Fixture.three_pages] (Some "0") in
  let plain := ["%"; "a"; "b"; "c"; "d"; "e"]%byte in
  level_of req = Num 0%Z
  /\ forallb (fun e => negb (is_exec e))
       (events_since Fixture.idle
          (snd (Route.POST (lib := Fixture.toy) env req Fixture.idle)))
     = true
  /\ forallb (fun e => negb (is_exec e))
       (events_since Fixture.idle
          (snd (GsRoute.POST (lib := Fixture.toy) env req Fixture.idle)))
     = true
  /\ response_status
       (fst (Route.POST (lib := Fixture.toy) env req Fixture.idle))
     = Some 200
  /\ response_body
       (fst (Route.POST (lib := Fixture.toy) env req Fixture.idle))
     = Some (PdfBody plain)
  /\ response_status
       (fst (GsRoute.POST (lib := Fixture.toy) env req Fixture.idle))
     = Some 200
  /\ response_body
       (fst (GsRoute.POST (lib := Fixture.toy) env req Fixture.idle))
     = Some (PdfBody plain).
Proof.
  intros env req plain. split; [reflexivity|].
  destruct (C2_level_0_plain_save byte Fixture.toy env req Fixture.idle)
    as (Hroute & Hgs & Hbody).
  - reflexivity.
  - destruct (Hbody
                [mkPDFDocument ["a"; "b"]%byte None None None None None None;
                 mkPDFDocument ["c"; "d"; "e"]%byte None None None None None
                   None])
      as (_ & _ & Hs1 & Hb1 & _ & _ & Hs2 & Hb2 & _).
    + discriminate.
    + repeat constructor.
    + split; [|split; [|split; [|split; [|split]]]].
      * apply forallb_forall. intros e He. now rewrite (Hroute e He).
      * apply forallb_forall. intros e He. now rewrite (Hgs e He).
      * exact Hs1.
      * exact Hb1.
      * exact Hs2.
      * exact Hb2.
Defined.

(** C10, as the code has it.  At compression level 0, on the same
    request, operating system and clock, the two handlers answer with
    the same body whenever every uploaded file parses: the serialization
    of the merged document by the default [save] (or, with no file at
    all, the same validation error). *)
Theorem C10_handlers_agree_at_level_0 :
  forall (Page : Type) (lib : PdfLib Page) (env : Env) (req : Request)
         (docs : list (PDFDocument Page)) (s : State),
    level_of req = Num 0%Z ->
    Forall2 parses (form_files req) docs ->
    response_body (fst (Route.POST env req s))
    = response_body (fst (GsRoute.POST env req s))
    /\ (form_files req <> [] ->
        response_body (fst (Route.POST env req s))
        = Some (PdfBody
                  (writePdf true 50
                     (prepareForSave default_save
                        (merged_document (clock env (ticks s))
                           (all_pages docs)))))).
Proof.
  intros Page lib env req docs s E Hp.
  assert (Hacc : level_accepted (level_of req) = true) by now rewrite E.
  rewrite GsRoute_POST_response. unfold try_catch at 1.
  destruct (form_files req) as [|f fs] eqn:Efs.
  - rewrite (Route_POST_no_files env req s Efs).
    rewrite (try_block_no_files env req (entered s) Efs).
    split; [reflexivity|congruence].
  - assert (Hne : form_files req <> []) by (rewrite Efs; discriminate).
    rewrite <- Efs in Hp.
    rewrite (Route_POST_merged env req docs s Hne Hacc Hp).
    rewrite (try_block_merged env req docs (entered s) Hne Hacc Hp).
    rewrite E, save_with_level_0, compress_and_respond_0.
    split; reflexivity.
Qed.

(** C10 applied to two uploads. *)
Lemma C10_handlers_agree_at_level_0_witness :
  let env := Fixture.os Fixture.gs_copies Fixture.rm_works in
  let req :=
    mkRequest [Fixture.two_pages; Fixture.three_pages] (Some "0") in
  response_body (fst (Route.POST (lib := Fixture.toy) env req Fixture.idle))
  = response_body (fst (GsRoute.POST (lib := Fixture.toy) env req Fixture.idle)).
Proof.
  intros env req.
  pose (docs :=
          [mkPDFDocument ["a"; "b"]%byte None None None None None None;
           mkPDFDocument ["c"; "d"; "e"]%byte None None None None None None]).
  destruct (C10_handlers_agree_at_level_0 byte Fixture.toy env req docs
              Fixture.idle) as [H _].
  - reflexivity.
  - repeat constructor.
  - exact H.
Defined.

(** C10 as stated fails on an upload that is no PDF: the two error
    bodies differ in their [error] text. *)
Lemma C10_counterexample_error_text :
  let env := Fixture.os Fixture.gs_missing Fixture.rm_works in
  let req := mkRequest [Fixture.garbage] (Some "0") in
  response_body (fst (Route.POST (lib := Fixture.toy) env req Fixture.idle))
  = Some (JsonBody "Failed to merge PDFs" (Some "Failed to parse PDF document"))
  /\ response_body
       (fst (GsRoute.POST (lib := Fixture.toy) env req Fixture.idle))
     = Some (JsonBody "Failed to process PDFs"
               (Some "Failed to parse PDF document"))
  /\ response_body (fst (Route.POST (lib := Fixture.toy) env req Fixture.idle))
     <> response_body
          (fst (GsRoute.POST (lib := Fixture.toy) env req Fixture.idle)).
Proof. repeat split. discriminate. Qed.

(** ** Inputs that do not parse *)

(** C6, as the code has it.  When a request passes validation and one of
    its inputs does not parse, both handlers stop at that input: later
    inputs are not read, nothing is serialized, and the response is the
    JSON error of the [catch] block with status 500 and the parser's
    message as details. *)
Theorem C6_unparseable_input_aborts_with_500 :
  forall (Page : Type) (lib : PdfLib Page) (env : Env) (req : Request)
         (good : list File) (docs : list (PDFDocument Page)) (bad : File)
         (rest : list File) (message : string) (s : State),
    form_files req = (good ++ bad :: rest)%list ->
    level_accepted (level_of req) = true ->
    Forall2 parses good docs ->
    parsePdf (arrayBuffer bad) = inl message ->
    (fst (Route.POST env req s)
     = Returned (NextResponse_json "Failed to merge PDFs" (Some message) 500)
     /\ events_since s (snd (Route.POST env req s))
        = (loads (good ++ [bad])
           ++ [EvConsoleError ("PDF merge error: " ++ message)])%list)
    /\ (fst (GsRoute.POST env req s)
        = Returned
            (NextResponse_json "Failed to process PDFs" (Some message) 500)
        /\ events_since s (snd (GsRoute.POST env req s))
           = (loads (good ++ [bad])
              ++ [EvConsoleError ("PDF compression error: " ++ message)])%list)
    /\ (response_status (fst (Route.POST env req s)) = Some 500
        /\ response_body (fst (Route.POST env req s))
           = Some (JsonBody "Failed to merge PDFs" (Some message))
        /\ response_status (fst (GsRoute.POST env req s)) = Some 500
        /\ response_body (fst (GsRoute.POST env req s))
           = Some (JsonBody "Failed to process PDFs" (Some message))).
Proof.
  intros Page lib env req good docs bad rest message s Hfs Hacc Hg Hb.
  assert (Hroute := Route_POST_unparseable env req good docs bad rest message
                      s Hfs Hacc Hg Hb).
  assert (Hgs : fst (GsRoute.POST env req s)
                = Returned
                    (NextResponse_json "Failed to process PDFs"
                       (Some message) 500)).
  { rewrite GsRoute_POST_response.
    now rewrite (guarded_unparseable env req good docs bad rest message
                   (entered s) Hfs Hacc Hg Hb). }
  split; [|split].
  - rewrite Hroute. cbn [fst snd]. split; [reflexivity|].
    now rewrite events_since_added.
  - split; [exact Hgs|]. rewrite GsRoute_POST_unfold.
    rewrite (guarded_unparseable env req good docs bad rest message
               (entered s) Hfs Hacc Hg Hb).
    cbn [fst snd].
    rewrite cleanup_none by reflexivity. cbn [snd].
    now rewrite events_since_added.
  - rewrite Hroute, Hgs. repeat split.
Qed.

(** C6 applied to a good upload, a bad one and another good one. *)
Lemma C6_unparseable_input_aborts_with_500_witness :
  let env := Fixture.os Fixture.gs_copies Fixture.rm_works in
  let req :=
    mkRequest [Fixture.two_pages; Fixture.garbage; Fixture.three_pages]
      (Some "1") in
  fst (GsRoute.POST (lib := Fixture.toy) env req Fixture.idle)
  = Returned
      (NextResponse_json "Failed to process PDFs"
         (Some "Failed to parse PDF document") 500)
  /\ response_status
       (fst (Route.POST (lib := Fixture.toy) env req Fixture.idle))
     = Some 500
  /\ response_status
       (fst (GsRoute.POST (lib := Fixture.toy) env req Fixture.idle))
     = Some 500.
Proof.
  intros env req.
  destruct (C6_unparseable_input_aborts_with_500 byte Fixture.toy env req
              [Fixture.two_pages]
              [mkPDFDocument ["a"; "b"]%byte None None None None None None]
              Fixture.garbage [Fixture.three_pages]
              "Failed to parse PDF document" Fixture.idle)
    as (_ & (H & _) & (Hr & _ & Hg & _)).
  - reflexivity.
  - reflexivity.
  - repeat constructor.
  - reflexivity.
  - split; [exact H|]. split; [exact Hr|exact Hg].
Defined.

(** C6 as stated fails: the status of the error response is 500. *)
Lemma C6_counterexample_status_500 :
  let env := Fixture.os Fixture.gs_missing Fixture.rm_works in
  let req := mkRequest [Fixture.garbage] (Some "0") in
  response_status (fst (Route.POST (lib := Fixture.toy) env req Fixture.idle))
  = Some 500
  /\ response_status
       (fst (GsRoute.POST (lib := Fixture.toy) env req Fixture.idle))
     = Some 500.
Proof. split; reflexivity. Qed.

(** ** Validation of the compression level *)

Section Validation.

Context {Page : Type} {lib : PdfLib Page}.
Variable env : Env.

Lemma cleanup_extends (s : State) :
  exists evs, trace (snd (GsRoute.cleanup env s)) = (trace s ++ evs)%list.
Proof.
  destruct (tempDir s) as [d|] eqn:E.
  - destruct (rm_error env d) as [message|] eqn:Erm.
    + rewrite (cleanup_failed env _ _ _ E Erm). eexists. reflexivity.
    + rewrite (cleanup_removed env _ _ E Erm). eexists. reflexivity.
  - rewrite (cleanup_none env _ E). exists []. simpl. now rewrite app_nil_r.
Qed.

(** Past level 0 the guarded compression stage answers 200 or 500 and
    only adds to the log. *)
Lemma guarded_compress_outcome (l : JSNumber) (m : PDFDocument Page)
  (s : State) :
  js_eq l (Num 0%Z) = false ->
  exists resp evs,
    try_catch (GsRoute.compress_and_respond env l m) GsRoute.catch_block s
    = (Returned resp,
       snd (try_catch (GsRoute.compress_and_respond env l m)
              GsRoute.catch_block s))
    /\ (status resp = 200 \/ status resp = 500)
    /\ trace (snd (try_catch (GsRoute.compress_and_respond env l m)
                     GsRoute.catch_block s))
       = (trace s ++ evs)%list.
Proof.
  intros H0. unfold try_catch.
  rewrite (compress_and_respond_run env l m s H0). cbv zeta.
  unfold GsRoute.catch_block, bind, log, ret.
  destruct (mkdtemp_outcome env) as [err|suffix].
  { do 2 eexists. cbn [fst snd trace add_events]. split; [reflexivity|].
    split; [now right|]. rewrite <- app_assoc. reflexivity. }
  destruct (writeFile_error env _) as [err|].
  { do 2 eexists. cbn [fst snd trace]. split; [reflexivity|].
    split; [now right|]. rewrite <- app_assoc. reflexivity. }
  destruct (exec_outcome env "gs --version" _) as [dk [err|]].
  { do 2 eexists. cbn [fst snd trace]. split; [reflexivity|].
    split; [now left|]. reflexivity. }
  destruct (exec_outcome env _ dk) as [dk' [err|]].
  { do 2 eexists. cbn [fst snd trace]. split; [reflexivity|].
    split; [now right|]. rewrite <- !app_assoc. reflexivity. }
  destruct (lookup_file _ (files dk')) as [c|].
  - do 2 eexists. cbn [fst snd trace]. split; [reflexivity|].
    split; [now left|]. reflexivity.
  - do 2 eexists. cbn [fst snd trace]. split; [reflexivity|].
    split; [now right|]. rewrite <- !app_assoc. reflexivity.
Qed.

(** Validation passed and every input parses: the guarded [try] block
    is the guarded compression stage on the merged document. *)
Lemma guarded_merged (req : Request) (docs : list (PDFDocument Page))
  (s : State) :
  form_files req <> [] ->
  level_accepted (level_of req) = true ->
  Forall2 parses (form_files req) docs ->
  try_catch (GsRoute.try_block env req) GsRoute.catch_block s
  = try_catch
      (GsRoute.compress_and_respond env (level_of req)
         (merged_document (clock env (ticks s)) (all_pages docs)))
      GsRoute.catch_block
      (merged_state (form_files req) s).
Proof.
  intros Hne Hacc Hp. unfold try_catch.
  now rewrite (try_block_merged env req docs s Hne Hacc Hp).
Qed.

End Validation.

(** A numeric level outside 0..2 is rejected by both handlers with
    status 400 before any input is read. *)
Lemma out_of_range_level_rejected :
  forall (Page : Type) (lib : PdfLib Page) (env : Env) (req : Request)
         (z : Z) (s : State),
    form_files req <> [] ->
    level_of req = Num z ->
    (z < 0 \/ 2 < z)%Z ->
    Route.POST env req s
    = (Returned (NextResponse_json "Invalid compression level." None 400), s)
    /\ fst (GsRoute.POST env req s)
       = Returned (NextResponse_json "Invalid compression level." None 400)
    /\ events_since s (snd (GsRoute.POST env req s)) = [].
Proof.
  intros Page lib env req z s Hne E Hz.
  assert (Hrej : level_accepted (level_of req) = false).
  { rewrite E. unfold level_accepted, js_gt, js_lt.
    apply negb_false_iff, orb_true_iff.
    destruct Hz; [left; now apply Z.ltb_lt|right; now apply Z.ltb_lt]. }
  split; [exact (Route_POST_rejected env req s Hne Hrej)|].
  rewrite GsRoute_POST_unfold. unfold try_catch.
  rewrite (try_block_rejected env req (entered s) Hne Hrej). cbn [fst snd].
  split; [reflexivity|].
  rewrite cleanup_none by reflexivity. cbn [snd].
  apply events_since_from. simpl. now rewrite app_nil_r.
Qed.

Example level_3_rejected :
  fst (Route.POST (lib := Fixture.toy)
         (Fixture.os Fixture.gs_missing Fixture.rm_works)
         (mkRequest [Fixture.two_pages] (Some "3")) Fixture.idle)
  = Returned (NextResponse_json "Invalid compression level." None 400).
Proof. reflexivity. Qed.

(** C5 on the code: a field that [parseInt] reads as [NaN] passes the
    range check of both handlers, since both comparisons with [NaN] are
    false.  Every input is then loaded and the response is a 200 or a
    500, never the 400 of the validation. *)
Theorem C5_nan_level_passes_validation :
  forall (Page : Type) (lib : PdfLib Page) (env : Env) (req : Request)
         (docs : list (PDFDocument Page)) (s : State),
    form_files req <> [] ->
    level_of req = NaN ->
    Forall2 parses (form_files req) docs ->
    (exists resp more,
        fst (Route.POST env req s) = Returned resp
        /\ (status resp = 200 \/ status resp = 500)
        /\ events_since s (snd (Route.POST env req s))
           = (loads (form_files req) ++ more)%list)
    /\ (exists resp more,
           fst (GsRoute.POST env req s) = Returned resp
           /\ (status resp = 200 \/ status resp = 500)
           /\ events_since s (snd (GsRoute.POST env req s))
              = (loads (form_files req) ++ more)%list).
Proof.
  intros Page lib env req docs s Hne E Hp.
  assert (Hacc : level_accepted (level_of req) = true) by now rewrite E.
  split.
  - rewrite (Route_POST_merged env req docs s Hne Hacc Hp), E.
    rewrite save_with_level_else by reflexivity. cbv zeta.
    destruct (parsePdf _) as [message|d].
    + do 2 eexists. cbn [fst snd]. split; [reflexivity|].
      split; [now right|]. apply events_since_from. simpl.
      rewrite <- !app_assoc. reflexivity.
    + do 2 eexists. cbn [fst snd]. split; [reflexivity|].
      split; [now left|]. apply events_since_from. simpl.
      rewrite <- app_assoc. reflexivity.
  - rewrite GsRoute_POST_unfold. cbn [fst snd].
    rewrite (guarded_merged env req docs (entered s) Hne Hacc Hp).
    rewrite E.
    destruct (guarded_compress_outcome env NaN
                (merged_document (clock env (ticks (entered s)))
                   (all_pages docs))
                (merged_state (form_files req) (entered s))
                eq_refl) as (resp & evs & Hrun & Hstatus & Htrace).
    destruct (cleanup_extends env
                (snd (try_catch
                        (GsRoute.compress_and_respond env NaN
                           (merged_document (clock env (ticks (entered s)))
                              (all_pages docs)))
                        GsRoute.catch_block
                        (merged_state (form_files req) (entered s)))))
      as (evs' & Hclean).
    exists resp, (evs ++ evs')%list. rewrite Hrun at 1. cbn [fst].
    split; [reflexivity|]. split; [exact Hstatus|].
    apply events_since_from. rewrite Hclean, Htrace. simpl.
    now rewrite <- !app_assoc.
Qed.

(** C5 on the field ["abc"]: route.ts answers 200 through its High
    branch and reports the level as [NaN]. *)
Lemma C5_nan_level_passes_validation_witness :
  let env := Fixture.os Fixture.gs_missing Fixture.rm_works in
  let req := mkRequest [Fixture.two_pages] (Some "abc") in
  level_of req = NaN
  /\ response_status
       (fst (Route.POST (lib := Fixture.toy) env req Fixture.idle))
     = Some 200
  /\ exists resp more,
       fst (Route.POST (lib := Fixture.toy) env req Fixture.idle)
       = Returned resp
       /\ (status resp = 200 \/ status resp = 500)
       /\ events_since Fixture.idle
            (snd (Route.POST (lib := Fixture.toy) env req Fixture.idle))
          = (loads (form_files req) ++ more)%list.
Proof.
  intros env req. split; [reflexivity|]. split; [reflexivity|].
  destruct (C5_nan_level_passes_validation byte Fixture.toy env req
              [mkPDFDocument ["a"; "b"]%byte None None None None None None]
              Fixture.idle) as [H _].
  - discriminate.
  - reflexivity.
  - repeat constructor.
  - exact H.
Defined.

(** ** Compression stage of the Ghostscript variant *)

(** C3 on the code.  At level 1 or 2, when the temp directory and the
    input file are written and the version probe fails, the handler
    answers 200 with the bytes of the in-process [save] (50 objects per
    tick at level 1, 20 at level 2) and with three headers only.  No
    header of that response names the method that ran; only the
    Ghostscript response carries [X-Compression-Method]. *)
Theorem C3_fallback_names_no_method :
  forall (Page : Type) (lib : PdfLib Page) (env : Env) (req : Request)
         (docs : list (PDFDocument Page)) (s : State),
    let merged :=
      prepareForSave default_save
        (merged_document (clock env (ticks s)) (all_pages docs)) in
    let rewritten :=
      writePdf true (if js_eq (level_of req) (Num 1%Z) then 50 else 20)
        merged in
    form_files req <> [] ->
    level_of req = Num 1%Z \/ level_of req = Num 2%Z ->
    Forall2 parses (form_files req) docs ->
    falls_back env s (writePdf true 50 merged) ->
    exists resp,
      fst (GsRoute.POST env req s) = Returned resp
      /\ status resp = 200
      /\ body resp = PdfBody rewritten
      /\ headers resp
         = GsRoute.pdf_headers "merged_compressed.pdf" (List.length rewritten)
      /\ header "X-Compression-Method" resp = None.
Proof.
  intros Page lib env req docs s merged rewritten Hne Hlevel Hp Hfb.
  assert (Hacc : level_accepted (level_of req) = true)
    by (destruct Hlevel as [-> | ->]; reflexivity).
  assert (H0 : js_eq (level_of req) (Num 0%Z) = false)
    by (destruct Hlevel as [-> | ->]; reflexivity).
  rewrite GsRoute_POST_response. unfold try_catch.
  rewrite (try_block_merged env req docs (entered s) Hne Hacc Hp).
  pose proof (compress_and_respond_fallback env (level_of req)
                (merged_document (clock env (ticks s)) (all_pages docs))
                (merged_state (form_files req) (entered s))
                H0 Hfb) as Hrun.
  cbv zeta in Hrun.
  change (clock env (ticks (entered s))) with (clock env (ticks s)).
  destruct (GsRoute.compress_and_respond env (level_of req) _ _) as [r s'].
  cbn [fst] in Hrun. subst r. cbn [fst].
  eexists. split; [reflexivity|]. cbn [status body headers].
  subst rewritten merged. unfold fallback_options.
  destruct (js_eq (level_of req) (Num 1%Z)); repeat split; reflexivity.
Qed.

(** C3 at level 1 without Ghostscript: status 200 and no method header. *)
Lemma C3_fallback_names_no_method_witness :
  let env := Fixture.os Fixture.gs_missing Fixture.rm_works in
  let req := mkRequest [Fixture.two_pages] (Some "1") in
  exists resp,
    fst (GsRoute.POST (lib := Fixture.toy) env req Fixture.idle)
    = Returned resp
    /\ status resp = 200
    /\ header "X-Compression-Method" resp = None.
Proof.
  intros env req.
  destruct (C3_fallback_names_no_method byte Fixture.toy env req
              [mkPDFDocument ["a"; "b"]%byte None None None None None None]
              Fixture.idle) as (resp & H1 & H2 & _ & _ & H5).
  - discriminate.
  - left; reflexivity.
  - repeat constructor.
  - exists "Ab12Cd". repeat split. discriminate.
  - exists resp. auto.
Defined.

(** The sibling path: the response built from Ghostscript's output does
    name the method. *)
Example ghostscript_response_names_method :
  let env := Fixture.os Fixture.gs_copies Fixture.rm_works in
  let req := mkRequest [Fixture.two_pages] (Some "1") in
  exists resp,
    fst (GsRoute.POST (lib := Fixture.toy) env req Fixture.idle)
    = Returned resp
    /\ header "X-Compression-Method" resp = Some "ghostscript"
    /\ header "X-Compression-Level" resp = Some "1".
Proof. eexists. repeat split. Qed.

(** C4.  At level 1 or 2, once the version probe has succeeded and
    Ghostscript has been run, a nonzero exit or a missing output file
    ends the request: the response has status 500 and the JSON body
    with error "Failed to process PDFs" and the failure as details, and
    nothing is serialized after the Ghostscript command. *)
Theorem C4_compressor_failure_is_terminal :
  forall (Page : Type) (lib : PdfLib Page) (env : Env) (req : Request)
         (docs : list (PDFDocument Page)) (s : State)
         (suffix : string) (dk dk' : Disk) (failure : string),
    let merged :=
      prepareForSave default_save
        (merged_document (clock env (ticks s)) (all_pages docs)) in
    let dir := temp_dir env suffix in
    let input := path_join dir "input.pdf" in
    let output := path_join dir "output.pdf" in
    let command := GsRoute.gsCommand (level_of req) output input in
    form_files req <> [] ->
    level_of req = Num 1%Z \/ level_of req = Num 2%Z ->
    Forall2 parses (form_files req) docs ->
    mkdtemp_outcome env = inr suffix ->
    writeFile_error env input = None ->
    exec_outcome env "gs --version"
      (disk_with_input (disk s) dir (writePdf true 50 merged))
    = (dk, None) ->
    exec_outcome env command dk = (dk', Some failure)
    \/ (exec_outcome env command dk = (dk', None)
        /\ lookup_file output (files dk') = None
        /\ failure
           = "ENOENT: no such file or directory, open '" ++ output ++ "'") ->
    fst (GsRoute.POST env req s)
    = Returned (NextResponse_json "Failed to process PDFs" (Some failure) 500)
    /\ response_status (fst (GsRoute.POST env req s)) = Some 500
    /\ response_body (fst (GsRoute.POST env req s))
       = Some (JsonBody "Failed to process PDFs" (Some failure))
    /\ exists before after,
         events_since s (snd (GsRoute.POST env req s))
         = (before ++ EvExec command :: after)%list
         /\ forall e, In e after -> is_save e = false.
Proof.
  intros Page lib env req docs s suffix dk dk' failure merged dir input
    output command Hne Hlevel Hp Hmk Hwr Hprobe Hrun.
  assert (Hacc : level_accepted (level_of req) = true)
    by (destruct Hlevel as [-> | ->]; reflexivity).
  assert (H0 : js_eq (level_of req) (Num 0%Z) = false)
    by (destruct Hlevel as [-> | ->]; reflexivity).
  rewrite GsRoute_POST_unfold.
  rewrite (guarded_merged env req docs (entered s) Hne Hacc Hp).
  unfold try_catch.
  rewrite (compress_and_respond_run env (level_of req) _ _ H0). cbv zeta.
  rewrite Hmk.
  change (clock env (ticks (entered s))) with (clock env (ticks s)).
  fold merged. fold dir. fold input. fold output. fold command.
  rewrite Hwr.
  change (disk (merged_state (form_files req) (entered s)))
    with (disk s).
  rewrite Hprobe.
  assert (Hclean : forall (st : State) (evs : list Event),
             tempDir st = Some dir ->
             trace st = (trace s ++ evs)%list ->
             exists more,
               events_since s (snd (GsRoute.cleanup env st))
               = (evs ++ more)%list
               /\ forall e, In e more -> is_save e = false).
  { intros st evs Htd Htr.
    destruct (rm_error env dir) as [message|] eqn:Erm.
    - rewrite (cleanup_failed env st dir message Htd Erm). cbn [snd].
      eexists. split.
      + apply events_since_from. simpl. rewrite Htr, <- app_assoc.
        reflexivity.
      + intros e [<-|[<-|[]]]; reflexivity.
    - rewrite (cleanup_removed env st dir Htd Erm). cbn [snd].
      eexists. split.
      + apply events_since_from. simpl. rewrite Htr, <- app_assoc.
        reflexivity.
      + intros e [<-|[]]; reflexivity. }
  destruct Hrun as [Hrun|(Hrun & Hout & ->)]; rewrite Hrun.
  - unfold GsRoute.catch_block, bind, log, ret. cbn [fst snd].
    split; [reflexivity|]. split; [reflexivity|]. split; [reflexivity|].
    edestruct Hclean as (more & Hev & Hmore);
      [| |rewrite Hev]; [reflexivity|simpl; rewrite <- !app_assoc; reflexivity|].
    exists (loads (form_files req)
            ++ [EvSave default_save;
                EvMkdtemp (path_join (os_tmpdir env) "pdf-compress-");
                EvWriteFile input; EvExec "gs --version"])%list.
    eexists. split.
    + rewrite <- !app_assoc. simpl. reflexivity.
    + intros e [<-|H]; [reflexivity|]. now apply Hmore.
  - rewrite Hout.
    unfold GsRoute.catch_block, bind, log, ret. cbn [fst snd].
    split; [reflexivity|]. split; [reflexivity|]. split; [reflexivity|].
    edestruct Hclean as (more & Hev & Hmore);
      [| |rewrite Hev]; [reflexivity|simpl; rewrite <- !app_assoc; reflexivity|].
    exists (loads (form_files req)
            ++ [EvSave default_save;
                EvMkdtemp (path_join (os_tmpdir env) "pdf-compress-");
                EvWriteFile input; EvExec "gs --version"])%list.
    eexists. split.
    + rewrite <- !app_assoc. simpl. reflexivity.
    + intros e [<-|[<-|H]]; [reflexivity|reflexivity|]. now apply Hmore.
Qed.

(** C4 with a Ghostscript that answers the probe and then exits with
    status 1, at level 2. *)
Lemma C4_compressor_failure_is_terminal_witness :
  let env := Fixture.os Fixture.gs_broken Fixture.rm_works in
  let req := mkRequest [Fixture.two_pages] (Some "2") in
  response_status
    (fst (GsRoute.POST (lib := Fixture.toy) env req Fixture.idle))
  = Some 500
  /\ response_body
       (fst (GsRoute.POST (lib := Fixture.toy) env req Fixture.idle))
     = Some (JsonBody "Failed to process PDFs"
               (Some "Command failed: gs exited with code 1"))
  /\ forallb (fun e => negb (is_save e))
       (skipn 6
          (events_since Fixture.idle
             (snd (GsRoute.POST (lib := Fixture.toy) env req Fixture.idle))))
     = true.
Proof.
  intros env req.
  edestruct (C4_compressor_failure_is_terminal byte Fixture.toy env req
               [mkPDFDocument ["a"; "b"]%byte None None None None None None]
               Fixture.idle "Ab12Cd") as (_ & Hstatus & Hbody & _).
  - discriminate.
  - right; reflexivity.
  - repeat constructor.
  - reflexivity.
  - reflexivity.
  - reflexivity.
  - left. reflexivity.
  - split; [exact Hstatus|]. split; [exact Hbody|]. vm_compute. reflexivity.
Defined.

(** Ghostscript exits with status 0 and leaves no output file: same
    ending, with the error of [fs.readFile] as details. *)
Example ghostscript_without_output :
  let env := Fixture.os Fixture.gs_silent Fixture.rm_works in
  let req := mkRequest [Fixture.two_pages] (Some "1") in
  fst (GsRoute.POST (lib := Fixture.toy) env req Fixture.idle)
  = Returned
      (NextResponse_json "Failed to process PDFs"
         (Some
            "ENOENT: no such file or directory, open '/tmp/pdf-compress-Ab12Cd/output.pdf'")
         500).
Proof. reflexivity. Qed.

(** ** Metadata *)

Section Metadata.

Context {Page : Type} {lib : PdfLib Page}.

(** [save] may add a page; it leaves the six fields alone. *)
Lemma prepareForSave_metadata (o : SaveOptions) (d : PDFDocument Page) :
  title (prepareForSave o d) = title d
  /\ author (prepareForSave o d) = author d
  /\ subject (prepareForSave o d) = subject d
  /\ keywords (prepareForSave o d) = keywords d
  /\ creationDate (prepareForSave o d) = creationDate d
  /\ modificationDate (prepareForSave o d) = modificationDate d.
Proof.
  unfold prepareForSave.
  destruct (option_default true (addDefaultPage o)
            && (List.length (pages d) =? 0)%nat);
    repeat split; reflexivity.
Qed.

End Metadata.

(** C7, as the code has it.  route.ts at level 2, when its intermediate
    serialization parses back: the response has status 200 and its body
    is the serialization, 10 objects per tick, of a document with title
    "Merged PDF", author "PDF Merger", subject "Merged Documents",
    keywords "merged" and "pdf", and creation and modification dates
    read from the clock during the request, after the readings of
    [create] and of every [load]: for N inputs they are readings N + 2
    and N + 3, counted from the reading of [create] as 0.  The
    Ghostscript variant has no such step: on its fallback at level 2 it
    writes the merged document with the metadata it was created with
    (no title, author, subject or keywords, both dates the reading of
    [create]). *)
Theorem C7_high_branch_of_route_writes_metadata :
  forall (Page : Type) (lib : PdfLib Page) (env : Env) (req : Request)
         (docs : list (PDFDocument Page)) (s : State),
    let merged := merged_document (clock env (ticks s)) (all_pages docs) in
    let n := List.length (form_files req) in
    form_files req <> [] ->
    level_of req = Num 2%Z ->
    Forall2 parses (form_files req) docs ->
    (forall reloaded : PDFDocument Page,
        parsePdf (writePdf true 20 merged) = inr reloaded ->
        exists out,
          fst (Route.POST env req s)
          = Returned (Route.success (Num 2%Z) (writePdf true 10 out))
          /\ response_status (fst (Route.POST env req s)) = Some 200
          /\ response_body (fst (Route.POST env req s))
             = Some (PdfBody (writePdf true 10 out))
          /\ pages out = with_default_page (pages reloaded)
          /\ title out = Some "Merged PDF"
          /\ author out = Some "PDF Merger"
          /\ subject out = Some "Merged Documents"
          /\ keywords out = Some ["merged"; "pdf"]
          /\ creationDate out = Some (clock env (ticks s + n + 2))
          /\ modificationDate out = Some (clock env (ticks s + n + 3)))
    /\ (falls_back env s (writePdf true 50 (prepareForSave default_save merged)) ->
        exists out,
          response_status (fst (GsRoute.POST env req s)) = Some 200
          /\ response_body (fst (GsRoute.POST env req s))
             = Some (PdfBody (writePdf true 20 out))
          /\ pages out = with_default_page (all_pages docs)
          /\ title out = None /\ author out = None /\ subject out = None
          /\ keywords out = None
          /\ creationDate out = Some (clock env (ticks s))
          /\ modificationDate out = Some (clock env (ticks s))).
Proof.
  intros Page lib env req docs s merged n Hne E Hp.
  assert (Hacc : level_accepted (level_of req) = true) by now rewrite E.
  split.
  - intros reloaded Hre.
    rewrite (Route_POST_merged env req docs s Hne Hacc Hp), E.
    rewrite save_with_level_else by reflexivity. cbv zeta.
    fold merged. rewrite Hre. cbn [fst].
    eexists. split; [reflexivity|]. split; [reflexivity|].
    split; [reflexivity|].
    split; [now rewrite prepareForSave_default_page|].
    match goal with
    | |- context [prepareForSave ?o ?d] =>
        destruct (prepareForSave_metadata o d)
          as (H1 & H2 & H3 & H4 & H5 & H6)
    end.
    rewrite H1, H2, H3, H4, H5, H6.
    cbn [title author subject keywords creationDate modificationDate
           with_pipeline_metadata].
    repeat split; do 2 f_equal; unfold merged_state; simpl; subst n; lia.
  - intros Hfb. rewrite GsRoute_POST_response. unfold try_catch.
    rewrite (try_block_merged env req docs (entered s) Hne Hacc Hp).
    change (clock env (ticks (entered s))) with (clock env (ticks s)).
    fold merged. rewrite E.
    pose proof (compress_and_respond_fallback env (Num 2%Z) merged
                  (merged_state (form_files req) (entered s))
                  eq_refl Hfb) as Hrun.
    cbv zeta in Hrun.
    destruct (GsRoute.compress_and_respond env (Num 2%Z) merged _) as [r s'].
    cbn [fst] in Hrun. subst r.
    cbn [fst response_body response_status body status].
    exists (prepareForSave default_save merged). split; [reflexivity|].
    split; [reflexivity|].
    split; [apply prepareForSave_default_page; reflexivity|].
    destruct (prepareForSave_metadata default_save merged)
      as (H1 & H2 & H3 & H4 & H5 & H6).
    rewrite H1, H2, H3, H4, H5, H6. repeat split; reflexivity.
Qed.

(** C7 applied to route.ts at level 2 with one upload: the dates are
    readings 3 and 4 of the clock. *)
Lemma C7_high_branch_of_route_writes_metadata_witness :
  let env := Fixture.os Fixture.gs_missing Fixture.rm_works in
  let req := mkRequest [Fixture.two_pages] (Some "2") in
  exists out,
    response_status
      (fst (Route.POST (lib := Fixture.toy) env req Fixture.idle))
    = Some 200
    /\ response_body
         (fst (Route.POST (lib := Fixture.toy) env req Fixture.idle))
       = Some (PdfBody (writePdf (PdfLib := Fixture.toy) true 10 out))
    /\ title out = Some "Merged PDF"
    /\ creationDate out = Some (clock env 3)
    /\ modificationDate out = Some (clock env 4).
Proof.
  intros env req.
  destruct (C7_high_branch_of_route_writes_metadata byte Fixture.toy env req
              [mkPDFDocument ["a"; "b"]%byte None None None None None None]
              Fixture.idle) as [H _].
  - discriminate.
  - reflexivity.
  - repeat constructor.
  - destruct (H (mkPDFDocument ["a"; "b"]%byte None None None None None None)
                eq_refl)
      as (out & _ & Hs & Hb & _ & Ht & _ & _ & _ & Hc & Hm).
    exists out. repeat split; assumption.
Defined.

(** C7 as stated fails on the Ghostscript variant: at level 2 without
    Ghostscript the output document has no title, where route.ts writes
    "Merged PDF" for the same request. *)
Lemma C7_counterexample_variant_keeps_metadata :
  let env := Fixture.os Fixture.gs_missing Fixture.rm_works in
  let req := mkRequest [Fixture.two_pages] (Some "2") in
  option_map (@title byte)
    (output_document (lib := Fixture.toy)
       (fst (GsRoute.POST (lib := Fixture.toy) env req Fixture.idle)))
  = Some None
  /\ option_map (@title byte)
       (output_document (lib := Fixture.toy)
          (fst (Route.POST (lib := Fixture.toy) env req Fixture.idle)))
     = Some (Some "Merged PDF").
Proof. split; reflexivity. Qed.

(** ** Temp directory *)

Section TempDirectory.

Context {Page : Type} {lib : PdfLib Page}.
Variable env : Env.

(** What the guarded compression stage leaves behind: a longer log,
    and either an untouched disk and [tempDir], or a recorded temp
    directory. *)
Lemma guarded_compress_frame (l : JSNumber) (m : PDFDocument Page)
  (s : State) :
  let st :=
    snd (try_catch (GsRoute.compress_and_respond env l m)
           GsRoute.catch_block s) in
  (exists evs, trace st = (trace s ++ evs)%list)
  /\ ((tempDir st = tempDir s /\ disk st = disk s)
      \/ exists d, tempDir st = Some d).
Proof.
  cbv zeta. destruct (js_eq l (Num 0%Z)) eqn:H0.
  { apply js_eq_true in H0. subst l. unfold try_catch.
    rewrite compress_and_respond_0. cbn [snd].
    split; [eexists; reflexivity|]. left. split; reflexivity. }
  unfold try_catch.
  rewrite (compress_and_respond_run env l m s H0). cbv zeta.
  unfold GsRoute.catch_block, bind, log, ret.
  destruct (mkdtemp_outcome env) as [err|suffix].
  { cbn [snd]. split.
    - eexists. simpl. rewrite <- app_assoc. reflexivity.
    - left. split; reflexivity. }
  destruct (writeFile_error env _) as [err|].
  { cbn [snd]. split.
    - eexists. simpl. rewrite <- app_assoc. reflexivity.
    - right. eexists. reflexivity. }
  destruct (exec_outcome env "gs --version" _) as [dk [err|]].
  { cbn [snd]. split.
    - eexists. reflexivity.
    - right. eexists. reflexivity. }
  destruct (exec_outcome env _ dk) as [dk' [err|]].
  { cbn [snd]. split.
    - eexists. simpl. rewrite <- app_assoc. reflexivity.
    - right. eexists. reflexivity. }
  destruct (lookup_file _ (files dk')) as [c|]; cbn [snd]; split.
  - eexists. reflexivity.
  - right. eexists. reflexivity.
  - eexists. simpl. rewrite <- app_assoc. reflexivity.
  - right. eexists. reflexivity.
Qed.

(** The same for the guarded [try] block, on every request. *)
Lemma guarded_frame (req : Request) (s : State) :
  let st :=
    snd (try_catch (GsRoute.try_block env req) GsRoute.catch_block s) in
  (exists evs, trace st = (trace s ++ evs)%list)
  /\ ((tempDir st = tempDir s /\ disk st = disk s)
      \/ exists d, tempDir st = Some d).
Proof.
  cbv zeta.
  assert (Hsame : forall st : State,
             st = s ->
             (exists evs, trace st = (trace s ++ evs)%list)
             /\ ((tempDir st = tempDir s /\ disk st = disk s)
                 \/ exists d, tempDir st = Some d)).
  { intros st ->. split.
    - exists []. now rewrite app_nil_r.
    - left. split; reflexivity. }
  destruct (form_files req) as [|f fs] eqn:Efs.
  { apply Hsame. unfold try_catch.
    now rewrite (try_block_no_files env req s Efs). }
  assert (Hne : form_files req <> []) by (rewrite Efs; discriminate).
  destruct (level_accepted (level_of req)) eqn:Hacc.
  2:{ apply Hsame. unfold try_catch.
      now rewrite (try_block_rejected env req s Hne Hacc). }
  destruct (parse_split (form_files req))
    as [(docs & Hp)|(good & docs & bad & rest & message & Hfs & Hg & Hb)].
  - rewrite (guarded_merged env req docs s Hne Hacc Hp).
    destruct (guarded_compress_frame (level_of req)
                (merged_document (clock env (ticks s)) (all_pages docs))
                (merged_state (form_files req) s))
      as [(evs & Htr) Hrest].
    split.
    + eexists. rewrite Htr. simpl. rewrite <- app_assoc. reflexivity.
    + exact Hrest.
  - rewrite (guarded_unparseable env req good docs bad rest message s
               Hfs Hacc Hg Hb).
    cbn [snd]. split.
    + eexists. reflexivity.
    + left. split; reflexivity.
Qed.

Lemma cleanup_keeps_tempDir (s : State) :
  tempDir (snd (GsRoute.cleanup env s)) = tempDir s.
Proof.
  destruct (tempDir s) as [d|] eqn:E.
  - destruct (rm_error env d) as [message|] eqn:Erm.
    + now rewrite (cleanup_failed env _ _ _ E Erm).
    + now rewrite (cleanup_removed env _ _ E Erm).
  - now rewrite (cleanup_none env _ E).
Qed.

(** The [try] block never asks [fs.rm] anything. *)
Lemma try_block_ignores_rm (rm : string -> option string) (req : Request) :
  GsRoute.try_block (with_rm_error env rm) req = GsRoute.try_block env req.
Proof. destruct env. reflexivity. Qed.

Lemma loads_only_load (fs : list File) (e : Event) :
  In e (loads fs) -> is_load e = true.
Proof.
  unfold loads. rewrite in_map_iff. now intros (f & <- & _).
Qed.

(** Past level 0 the guarded compression stage calls [fs.mkdtemp]
    right after the first [save].  When that call fails, no directory
    is recorded and the disk is untouched; when it succeeds, the
    directory it created is the one recorded in [tempDir], whatever
    happens next, and [fs.rm] has not been called. *)
Lemma guarded_compress_temp (l : JSNumber) (m : PDFDocument Page)
  (s : State) :
  tempDir s = None ->
  js_eq l (Num 0%Z) = false ->
  let st :=
    snd (try_catch (GsRoute.compress_and_respond env l m)
           GsRoute.catch_block s) in
  let prefix := path_join (os_tmpdir env) "pdf-compress-" in
  exists evs,
    trace st
    = (trace s ++ EvSave default_save :: EvMkdtemp prefix :: evs)%list
    /\ (forall e, In e evs -> is_rm e = false)
    /\ match mkdtemp_outcome env with
       | inl _ => tempDir st = None /\ disk st = disk s
       | inr suffix =>
           tempDir st = Some (temp_dir env suffix)
           /\ (exec_keeps env (temp_dir env suffix) ->
               In (temp_dir env suffix) (dirs (disk st)))
       end.
Proof.
  intros Htd H0. cbv zeta. unfold try_catch.
  rewrite (compress_and_respond_run env l m s H0). cbv zeta.
  unfold GsRoute.catch_block, bind, log, ret.
  assert (Hlist : forall evs : list Event,
             forallb (fun e => negb (is_rm e)) evs = true ->
             forall e, In e evs -> is_rm e = false).
  { intros evs H e He. rewrite forallb_forall in H.
    now apply negb_true_iff, H. }
  destruct (mkdtemp_outcome env) as [err|suffix] eqn:Hmk.
  { eexists. cbn [fst snd trace add_events tempDir disk].
    split; [rewrite <- app_assoc; reflexivity|].
    split; [apply Hlist; reflexivity|]. split; [exact Htd|reflexivity]. }
  set (dir := temp_dir env suffix).
  destruct (writeFile_error env _) as [err|].
  { eexists. cbn [fst snd trace tempDir disk dirs].
    split; [rewrite <- app_assoc; reflexivity|].
    split; [apply Hlist; reflexivity|]. split; [reflexivity|].
    intros _. now left. }
  match goal with
  | |- context [exec_outcome env "gs --version" ?d0] =>
      assert (Hprobe : exec_keeps env dir ->
                       In dir (dirs (fst (exec_outcome env "gs --version"
                                            d0))))
        by (intros Hk; apply Hk; now left);
      destruct (exec_outcome env "gs --version" d0) as [dk [err|]]
  end; cbn [fst] in Hprobe.
  { eexists. cbn [fst snd trace tempDir disk].
    split; [reflexivity|].
    split; [apply Hlist; reflexivity|]. split; [reflexivity|exact Hprobe]. }
  match goal with
  | |- context [exec_outcome env ?c dk] =>
      assert (Hrun : exec_keeps env dir ->
                     In dir (dirs (fst (exec_outcome env c dk))))
        by (intros Hk; apply Hk, Hprobe, Hk);
      destruct (exec_outcome env c dk) as [dk' [err|]]
  end; cbn [fst] in Hrun.
  { eexists. cbn [fst snd trace tempDir disk].
    split; [rewrite <- !app_assoc; reflexivity|].
    split; [apply Hlist; reflexivity|]. split; [reflexivity|exact Hrun]. }
  destruct (lookup_file _ (files dk')) as [c|].
  - eexists. cbn [fst snd trace tempDir disk].
    split; [reflexivity|].
    split; [apply Hlist; reflexivity|]. split; [reflexivity|exact Hrun].
  - eexists. cbn [fst snd trace tempDir disk].
    split; [rewrite <- !app_assoc; reflexivity|].
    split; [apply Hlist; reflexivity|]. split; [reflexivity|exact Hrun].
Qed.

(** The same for the guarded [try] block, on every request: either
    [fs.mkdtemp] is not called, and the disk and [tempDir] are as they
    were, or it is called once. *)
Lemma guarded_temp (req : Request) (s : State) :
  tempDir s = None ->
  let st :=
    snd (try_catch (GsRoute.try_block env req) GsRoute.catch_block s) in
  let prefix := path_join (os_tmpdir env) "pdf-compress-" in
  exists evs,
    trace st = (trace s ++ evs)%list
    /\ (forall e, In e evs -> is_rm e = false)
    /\ ((~ In (EvMkdtemp prefix) evs /\ tempDir st = None /\ disk st = disk s)
        \/ (In (EvMkdtemp prefix) evs
            /\ match mkdtemp_outcome env with
               | inl _ => tempDir st = None /\ disk st = disk s
               | inr suffix =>
                   tempDir st = Some (temp_dir env suffix)
                   /\ (exec_keeps env (temp_dir env suffix) ->
                       In (temp_dir env suffix) (dirs (disk st)))
               end)).
Proof.
  intros Htd. cbv zeta.
  set (prefix := path_join (os_tmpdir env) "pdf-compress-").
  assert (Hsame : forall st : State,
             st = s ->
             exists evs,
               trace st = (trace s ++ evs)%list
               /\ (forall e, In e evs -> is_rm e = false)
               /\ ((~ In (EvMkdtemp prefix) evs
                    /\ tempDir st = None /\ disk st = disk s)
                   \/ (In (EvMkdtemp prefix) evs
                       /\ match mkdtemp_outcome env with
                          | inl _ => tempDir st = None /\ disk st = disk s
                          | inr suffix =>
                              tempDir st = Some (temp_dir env suffix)
                              /\ (exec_keeps env (temp_dir env suffix) ->
                                  In (temp_dir env suffix) (dirs (disk st)))
                          end))).
  { intros st ->. exists []. split; [now rewrite app_nil_r|].
    split; [intros e []|]. left. split; [intros []|]. now split. }
  destruct (form_files req) as [|f fs] eqn:Efs.
  { apply Hsame. unfold try_catch.
    now rewrite (try_block_no_files env req s Efs). }
  assert (Hne : form_files req <> []) by (rewrite Efs; discriminate).
  destruct (level_accepted (level_of req)) eqn:Hacc.
  2:{ apply Hsame. unfold try_catch.
      now rewrite (try_block_rejected env req s Hne Hacc). }
  destruct (parse_split (form_files req))
    as [(docs & Hp)|(good & docs & bad & rest & message & Hfs & Hg & Hb)].
  - rewrite (guarded_merged env req docs s Hne Hacc Hp).
    destruct (js_eq (level_of req) (Num 0%Z)) eqn:H0.
    + apply js_eq_true in H0. rewrite H0. unfold try_catch.
      rewrite compress_and_respond_0. cbn [snd].
      exists (loads (form_files req) ++ [EvSave default_save])%list.
      split; [simpl; now rewrite <- app_assoc|]. split.
      * intros e He. apply in_app_iff in He. destruct He as [He|[<-|[]]].
        -- apply loads_only_load in He. now destruct e.
        -- reflexivity.
      * left. split; [|split; [exact Htd|reflexivity]].
        intros He. apply in_app_iff in He. destruct He as [He|[He|[]]].
        -- apply loads_only_load in He. discriminate.
        -- discriminate.
    + destruct (guarded_compress_temp (level_of req)
                  (merged_document (clock env (ticks s)) (all_pages docs))
                  (merged_state (form_files req) s) Htd H0)
        as (evs & Htr & Hrm & Hcase).
      fold prefix in Htr.
      exists (loads (form_files req)
              ++ EvSave default_save :: EvMkdtemp prefix :: evs)%list.
      split; [rewrite Htr; simpl; now rewrite <- app_assoc|]. split.
      * intros e He. apply in_app_iff in He.
        destruct He as [He|[<-|[<-|He]]].
        -- apply loads_only_load in He. now destruct e.
        -- reflexivity.
        -- reflexivity.
        -- now apply Hrm.
      * right. split; [apply in_app_iff; right; right; now left|].
        exact Hcase.
  - rewrite (guarded_unparseable env req good docs bad rest message s
               Hfs Hacc Hg Hb).
    cbn [snd]. eexists. split; [reflexivity|]. split.
    + intros e He. apply in_app_iff in He. destruct He as [He|[<-|[]]].
      * apply loads_only_load in He. now destruct e.
      * reflexivity.
    + left. split; [|split; [exact Htd|reflexivity]].
      intros He. apply in_app_iff in He. destruct He as [He|[He|[]]].
      * apply loads_only_load in He. discriminate.
      * discriminate.
Qed.

End TempDirectory.

(** C9, as the code has it.  On every request and every outcome of the
    Ghostscript handler.  When [fs.mkdtemp] was not called or failed, no
    temp directory was created: the disk is as it was and [fs.rm] is not
    called.  When [fs.mkdtemp] created a directory, that directory is
    the one recorded in [tempDir], and the last thing the handler does
    is to call [fs.rm] on it, once.  If the call succeeds, neither the
    directory nor any file below it is left.  If the call fails, the
    failure is logged with [console.warn] and nothing else happens: the
    directory is still on the disk (as long as no child process removed
    it).  The response does not depend on what [fs.rm] does. *)
Theorem C9_cleanup_attempted_never_surfaced :
  forall (Page : Type) (lib : PdfLib Page) (env : Env) (req : Request)
         (s : State),
    let final := snd (GsRoute.POST env req s) in
    let prefix := path_join (os_tmpdir env) "pdf-compress-" in
    let events := events_since s final in
    ((~ In (EvMkdtemp prefix) events
      \/ exists err, mkdtemp_outcome env = inl err) ->
     tempDir final = None
     /\ disk final = disk s
     /\ forall e, In e events -> is_rm e = false)
    /\ (forall suffix : string,
           let dir := temp_dir env suffix in
           mkdtemp_outcome env = inr suffix ->
           In (EvMkdtemp prefix) events ->
           tempDir final = Some dir
           /\ (exists before,
                  (forall e, In e before -> is_rm e = false)
                  /\ events
                     = (before
                        ++ EvRm dir
                           :: match rm_error env dir with
                              | Some message =>
                                  [EvConsoleWarn
                                     ("Cleanup error: " ++ message)]
                              | None => []
                              end)%list)
           /\ (rm_error env dir = None ->
               ~ In dir (dirs (disk final))
               /\ forall p b,
                    In (p, b) (files (disk final)) ->
                    String.prefix (dir ++ "/") p = false)
           /\ (rm_error env dir <> None ->
               exec_keeps env dir ->
               In dir (dirs (disk final))))
    /\ (forall rm : string -> option string,
           fst (GsRoute.POST (with_rm_error env rm) req s)
           = fst (GsRoute.POST env req s)).
Proof.
  intros Page lib env req s final prefix events.
  assert (Hfinal : final
                   = snd (GsRoute.cleanup env
                            (snd (try_catch (GsRoute.try_block env req)
                                    GsRoute.catch_block (entered s)))))
    by (subst final; now rewrite GsRoute_POST_unfold).
  destruct (guarded_temp env req (entered s) eq_refl)
    as (evs & Htr & Hrm & Hcase).
  cbv zeta in Htr, Hcase. fold prefix in Hcase.
  remember (snd (try_catch (GsRoute.try_block env req)
                   GsRoute.catch_block (entered s))) as st eqn:Est.
  clear Est.
  assert (Hnone : tempDir st = None -> disk st = disk s ->
                  final = st /\ events = evs).
  { intros Htd Hdk.
    assert (final = st) as Hst
        by (rewrite Hfinal, (cleanup_none env st Htd); reflexivity).
    split; [exact Hst|]. subst events. rewrite Hst.
    now apply events_since_from. }
  assert (Hsome : forall dir : string,
             tempDir st = Some dir ->
             events
             = (evs
                ++ EvRm dir
                   :: match rm_error env dir with
                      | Some message =>
                          [EvConsoleWarn ("Cleanup error: " ++ message)]
                      | None => []
                      end)%list).
  { intros dir Htd. subst events. rewrite Hfinal.
    destruct (rm_error env dir) as [message|] eqn:Erm.
    - rewrite (cleanup_failed env st dir message Htd Erm). cbn [snd].
      apply events_since_from. simpl. now rewrite Htr, <- app_assoc.
    - rewrite (cleanup_removed env st dir Htd Erm). cbn [snd].
      apply events_since_from. simpl. now rewrite Htr, <- app_assoc. }
  split; [|split].
  - intros Hno.
    assert (Hstill : tempDir st = None /\ disk st = disk s).
    { destruct Hcase as [(_ & Htd & Hdk)|(Hin & Hmatch)]; [now split|].
      destruct (mkdtemp_outcome env) as [err|suffix] eqn:Hmk;
        [exact Hmatch|].
      destruct Hmatch as [Htd _]. destruct Hno as [Hno|(err & Herr)];
        [|discriminate].
      exfalso. apply Hno. rewrite (Hsome _ Htd).
      apply in_app_iff. now left. }
    destruct Hstill as [Htd Hdk].
    destruct (Hnone Htd Hdk) as [-> ->].
    split; [exact Htd|]. split; [exact Hdk|exact Hrm].
  - intros suffix dir Hmk Hin.
    assert (Htd : tempDir st = Some dir
                  /\ (exec_keeps env dir -> In dir (dirs (disk st)))).
    { destruct Hcase as [(Hnot & Htd & Hdk)|(_ & Hmatch)].
      - exfalso. apply Hnot. destruct (Hnone Htd Hdk) as [_ <-].
        exact Hin.
      - now rewrite Hmk in Hmatch. }
    destruct Htd as [Htd Hkeeps].
    split; [rewrite Hfinal, cleanup_keeps_tempDir; exact Htd|].
    split; [exists evs; split; [exact Hrm|exact (Hsome dir Htd)]|].
    split.
    + intros Erm. rewrite Hfinal.
      rewrite (cleanup_removed env st dir Htd Erm). cbn [snd disk dirs files].
      split.
      * intros Hd. apply filter_In in Hd. destruct Hd as [_ Hd].
        now rewrite String.eqb_refl in Hd.
      * intros p b Hpb. apply filter_In in Hpb.
        destruct Hpb as [_ Hpb]. cbn [fst] in Hpb.
        now apply negb_true_iff in Hpb.
    + intros Erm Hk. rewrite Hfinal.
      destruct (rm_error env dir) as [message|] eqn:Erm'; [|congruence].
      rewrite (cleanup_failed env st dir message Htd Erm'). cbn [snd].
      exact (Hkeeps Hk).
  - intros rm. rewrite !GsRoute_POST_response.
    now rewrite try_block_ignores_rm.
Qed.

(** C9 applied to a request at level 1 with Ghostscript installed and a
    failing [fs.rm]: the directory made by [fs.mkdtemp] is the one
    [fs.rm] is called on, the failure is logged, and the directory is
    still there. *)
Lemma C9_cleanup_attempted_never_surfaced_witness :
  let env := Fixture.os Fixture.gs_copies Fixture.rm_fails in
  let req := mkRequest [Fixture.two_pages] (Some "1") in
  let final := snd (GsRoute.POST (lib := Fixture.toy) env req Fixture.idle) in
  tempDir final = Some Fixture.temp_dir
  /\ (exists before,
         events_since Fixture.idle final
         = (before
            ++ [EvRm Fixture.temp_dir;
                EvConsoleWarn
                  "Cleanup error: EBUSY: resource busy or locked"])%list)
  /\ In Fixture.temp_dir (dirs (disk final)).
Proof.
  intros env req final.
  destruct (C9_cleanup_attempted_never_surfaced byte Fixture.toy env req
              Fixture.idle) as (_ & H & _).
  destruct (H "Ab12Cd" eq_refl) as (Htd & (before & _ & Hev) & _ & Hstay).
  - vm_compute. do 2 right. left. reflexivity.
  - split; [exact Htd|]. split; [exists before; exact Hev|].
    apply Hstay; [discriminate|].
    intros command dk Hin. unfold env, Fixture.os, Fixture.gs_copies.
    cbn [exec_outcome].
    destruct (String.eqb command "gs --version"); [exact Hin|].
    destruct (lookup_file _ (files dk)); exact Hin.
Defined.

(** C9 as stated fails when [fs.rm] fails: the request completes with
    its 200 response and the temp directory is still on the disk. *)
Lemma C9_counterexample_failed_cleanup :
  let env := Fixture.os Fixture.gs_copies Fixture.rm_fails in
  let req := mkRequest [Fixture.two_pages] (Some "1") in
  response_status
    (fst (GsRoute.POST (lib := Fixture.toy) env req Fixture.idle))
  = Some 200
  /\ In Fixture.temp_dir
       (dirs (disk (snd (GsRoute.POST (lib := Fixture.toy) env req
                           Fixture.idle)))).
Proof. split; [vm_compute; reflexivity|]. vm_compute. left. reflexivity. Qed.

(** With a working [fs.rm] the same request leaves an empty disk. *)
Example cleanup_leaves_nothing :
  let env := Fixture.os Fixture.gs_copies Fixture.rm_works in
  let req := mkRequest [Fixture.two_pages] (Some "1") in
  disk (snd (GsRoute.POST (lib := Fixture.toy) env req Fixture.idle))
  = mkDisk [] [].
Proof. vm_compute. reflexivity. Qed.


(** * Further properties of the handlers *)

(** ** Every request gets a well-formed response *)

Section ResponseShape.

Context {Page : Type} {lib : PdfLib Page}.
Variable env : Env.

Lemma success_well_formed (l : JSNumber) (b : bytes) :
  well_formed (Route.success l b).
Proof. unfold well_formed. simpl. repeat split. Qed.

Lemma json_well_formed (e : string) (d : option string) (st : nat) :
  st = 400 \/ st = 500 -> well_formed (NextResponse_json e d st).
Proof. intros H. exact H. Qed.

(** route.ts answers with [success] or with one of its three JSON
    errors. *)
Lemma Route_POST_shape (req : Request) (s : State) :
  exists resp, fst (Route.POST env req s) = Returned resp /\ well_formed resp.
Proof.
  destruct (form_files req) as [|f fs] eqn:Efs.
  { rewrite (Route_POST_no_files env req s Efs). eexists. split; [reflexivity|].
    apply json_well_formed. now left. }
  assert (Hne : form_files req <> []) by (rewrite Efs; discriminate).
  destruct (level_accepted (level_of req)) eqn:Hacc.
  2:{ rewrite (Route_POST_rejected env req s Hne Hacc). eexists.
      split; [reflexivity|]. apply json_well_formed. now left. }
  destruct (parse_split (form_files req))
    as [(docs & Hp)|(good & docs & bad & rest & message & Hfs & Hg & Hb)].
  - rewrite (Route_POST_merged env req docs s Hne Hacc Hp).
    destruct (Route.save_with_level env (level_of req) _ _) as [[b|m] s'].
    + eexists. split; [reflexivity|]. apply success_well_formed.
    + eexists. split; [reflexivity|]. apply json_well_formed. now right.
  - rewrite (Route_POST_unparseable env req good docs bad rest message s
               Hfs Hacc Hg Hb).
    eexists. split; [reflexivity|]. apply json_well_formed. now right.
Qed.

Lemma pdf_headers_well_formed (name : string) (b : bytes)
  (more : list (string * string)) :
  well_formed
    (mkResponse 200 (GsRoute.pdf_headers name (List.length b) ++ more)
       (PdfBody b)).
Proof. unfold well_formed. simpl. repeat split. Qed.

(** The guarded compression stage of the Ghostscript variant. *)
Lemma guarded_compress_shape (l : JSNumber) (m : PDFDocument Page)
  (s : State) :
  exists resp,
    fst (try_catch (GsRoute.compress_and_respond env l m)
           GsRoute.catch_block s)
    = Returned resp
    /\ well_formed resp.
Proof.
  unfold try_catch. destruct (js_eq l (Num 0%Z)) eqn:H0.
  { apply js_eq_true in H0. subst l. rewrite compress_and_respond_0.
    eexists. split; [reflexivity|].
    apply (pdf_headers_well_formed "merged.pdf" _ []). }
  rewrite (compress_and_respond_run env l m s H0). cbv zeta.
  unfold GsRoute.catch_block, bind, log, ret.
  destruct (mkdtemp_outcome env) as [err|suffix].
  { eexists. split; [reflexivity|]. now right. }
  destruct (writeFile_error env _) as [err|].
  { eexists. split; [reflexivity|]. now right. }
  destruct (exec_outcome env "gs --version" _) as [dk [err|]].
  { eexists. split; [reflexivity|].
    apply (pdf_headers_well_formed "merged_compressed.pdf" _ []). }
  destruct (exec_outcome env _ dk) as [dk' [err|]].
  { eexists. split; [reflexivity|]. now right. }
  destruct (lookup_file _ (files dk')) as [c|].
  - eexists. split; [reflexivity|].
    apply (pdf_headers_well_formed "merged_compressed.pdf").
  - eexists. split; [reflexivity|]. now right.
Qed.

Lemma GsRoute_POST_shape (req : Request) (s : State) :
  exists resp, fst (GsRoute.POST env req s) = Returned resp /\ well_formed resp.
Proof.
  rewrite GsRoute_POST_response.
  destruct (form_files req) as [|f fs] eqn:Efs.
  { unfold try_catch. rewrite (try_block_no_files env req (entered s) Efs).
    eexists. split; [reflexivity|]. now left. }
  assert (Hne : form_files req <> []) by (rewrite Efs; discriminate).
  destruct (level_accepted (level_of req)) eqn:Hacc.
  2:{ unfold try_catch.
      rewrite (try_block_rejected env req (entered s) Hne Hacc).
      eexists. split; [reflexivity|]. now left. }
  destruct (parse_split (form_files req))
    as [(docs & Hp)|(good & docs & bad & rest & message & Hfs & Hg & Hb)].
  - rewrite (guarded_merged env req docs (entered s) Hne Hacc Hp).
    apply guarded_compress_shape.
  - rewrite (guarded_unparseable env req good docs bad rest message
               (entered s) Hfs Hacc Hg Hb).
    eexists. split; [reflexivity|]. now right.
Qed.

End ResponseShape.

(** X1.  Both handlers answer every request: no exception leaves
    [POST], the status is 200, 400 or 500, and the body is PDF bytes
    exactly when the status is 200 (otherwise it is the JSON error
    object). *)
Theorem handlers_always_answer :
  forall (Page : Type) (lib : PdfLib Page) (env : Env) (req : Request)
         (s : State) (POST : Request -> M Response),
    POST = Route.POST env \/ POST = GsRoute.POST env ->
    exists resp,
      fst (POST req s) = Returned resp
      /\ (status resp = 200 \/ status resp = 400 \/ status resp = 500)
      /\ (status resp = 200 <-> exists b, body resp = PdfBody b).
Proof.
  intros Page lib env req s POST HPOST.
  assert (exists resp, fst (POST req s) = Returned resp /\ well_formed resp)
    as (resp & Hr & Hwf).
  { destruct HPOST as [-> | ->];
      [apply Route_POST_shape|apply GsRoute_POST_shape]. }
  exists resp. split; [exact Hr|]. unfold well_formed in Hwf.
  destruct (body resp) as [b|e d].
  - destruct Hwf as (Hst & _). split; [now left|].
    split; [intros _; now exists b|intros _; exact Hst].
  - split; [destruct Hwf; auto|]. split.
    + intros H200. destruct Hwf as [H|H]; rewrite H in H200; discriminate.
    + intros (b & Hb). discriminate.
Qed.

(** X1 on the Ghostscript variant with a failing Ghostscript. *)
Lemma handlers_always_answer_witness :
  let env := Fixture.os Fixture.gs_broken Fixture.rm_fails in
  let req := mkRequest [Fixture.two_pages] (Some "2") in
  exists resp,
    fst (GsRoute.POST (lib := Fixture.toy) env req Fixture.idle)
    = Returned resp
    /\ (status resp = 200 \/ status resp = 400 \/ status resp = 500)
    /\ (status resp = 200 <-> exists b, body resp = PdfBody b).
Proof.
  intros env req.
  apply (handlers_always_answer byte Fixture.toy env req Fixture.idle
           (GsRoute.POST (lib := Fixture.toy) env)).
  right. reflexivity.
Defined.

(** X2.  Whenever a handler answers with PDF bytes, the response says
    [Content-Type: application/pdf] and its [Content-Length] header is
    the decimal byte length of the body. *)
Theorem content_length_is_body_length :
  forall (Page : Type) (lib : PdfLib Page) (env : Env) (req : Request)
         (s : State) (POST : Request -> M Response) (resp : Response)
         (b : bytes),
    POST = Route.POST env \/ POST = GsRoute.POST env ->
    fst (POST req s) = Returned resp ->
    body resp = PdfBody b ->
    header "Content-Type" resp = Some "application/pdf"
    /\ header "Content-Length" resp = Some (nat_to_string (List.length b)).
Proof.
  intros Page lib env req s POST resp b HPOST Hr Hb.
  assert (exists r, fst (POST req s) = Returned r /\ well_formed r)
    as (r & Hr' & Hwf).
  { destruct HPOST as [-> | ->];
      [apply Route_POST_shape|apply GsRoute_POST_shape]. }
  rewrite Hr in Hr'. injection Hr' as <-.
  unfold well_formed in Hwf. rewrite Hb in Hwf. tauto.
Qed.

(** X2 on route.ts at level 1: five bytes, [Content-Length: 5]. *)
Lemma content_length_is_body_length_witness :
  let env := Fixture.os Fixture.gs_missing Fixture.rm_works in
  let req := mkRequest [Fixture.two_pages; Fixture.two_pages] (Some "1") in
  header "Content-Type"
    (Route.success (Num 1%Z) ["%"; "a"; "b"; "a"; "b"]%byte)
  = Some "application/pdf"
  /\ header "Content-Length"
       (Route.success (Num 1%Z) ["%"; "a"; "b"; "a"; "b"]%byte)
     = Some "5".
Proof.
  intros env req.
  apply (content_length_is_body_length byte Fixture.toy env req Fixture.idle
           (Route.POST (lib := Fixture.toy) env)
           (Route.success (Num 1%Z) ["%"; "a"; "b"; "a"; "b"]%byte)
           ["%"; "a"; "b"; "a"; "b"]%byte).
  - left. reflexivity.
  - reflexivity.
  - reflexivity.
Defined.


(** ** A 400 means nothing was done *)

Section Rejection.

Context {Page : Type} {lib : PdfLib Page}.
Variable env : Env.

Lemma guarded_compress_status (l : JSNumber) (m : PDFDocument Page)
  (s : State) (resp : Response) :
  fst (try_catch (GsRoute.compress_and_respond env l m)
         GsRoute.catch_block s)
  = Returned resp ->
  status resp = 200 \/ status resp = 500.
Proof.
  destruct (js_eq l (Num 0%Z)) eqn:H0.
  - apply js_eq_true in H0. subst l. unfold try_catch.
    rewrite compress_and_respond_0. cbn [fst]. intros [= <-]. now left.
  - destruct (guarded_compress_outcome env l m s H0)
      as (r & evs & Hrun & Hst & _).
    rewrite Hrun. cbn [fst]. now intros [= <-].
Qed.

End Rejection.

(** X3.  A response with status 400 means the request was turned away
    before anything happened: no input was parsed, nothing was
    serialized, no process was run, no temp directory was made, and the
    disk is as it was.  This holds for both handlers and every
    request. *)
Theorem status_400_means_untouched :
  forall (Page : Type) (lib : PdfLib Page) (env : Env) (req : Request)
         (s : State) (POST : Request -> M Response) (resp : Response),
    POST = Route.POST env \/ POST = GsRoute.POST env ->
    fst (POST req s) = Returned resp ->
    status resp = 400 ->
    events_since s (snd (POST req s)) = []
    /\ disk (snd (POST req s)) = disk s
    /\ (form_files req = [] \/ level_accepted (level_of req) = false).
Proof.
  intros Page lib env req s POST resp HPOST Hr H400.
  assert (Hnil : forall st, trace st = trace s -> events_since s st = []).
  { intros st Ht. apply events_since_from. now rewrite app_nil_r. }
  destruct HPOST as [-> | ->].
  - destruct (form_files req) as [|f fs] eqn:Efs.
    { rewrite (Route_POST_no_files env req s Efs). cbn [snd].
      repeat split; auto. }
    assert (Hne : form_files req <> []) by (rewrite Efs; discriminate).
    destruct (level_accepted (level_of req)) eqn:Hacc.
    2:{ rewrite (Route_POST_rejected env req s Hne Hacc). cbn [snd].
        repeat split; auto. }
    exfalso.
    destruct (parse_split (form_files req))
      as [(docs & Hp)|(good & docs & bad & rest & message & Hfs & Hg & Hb)].
    + rewrite (Route_POST_merged env req docs s Hne Hacc Hp) in Hr.
      destruct (Route.save_with_level env (level_of req) _ _) as [[b|m] s'];
        cbn [fst] in Hr; injection Hr as <-; discriminate.
    + rewrite (Route_POST_unparseable env req good docs bad rest message s
                 Hfs Hacc Hg Hb) in Hr.
      cbn [fst] in Hr. injection Hr as <-. discriminate.
  - rewrite GsRoute_POST_unfold in *. cbn [fst snd] in *.
    destruct (form_files req) as [|f fs] eqn:Efs.
    { unfold try_catch.
      rewrite (try_block_no_files env req (entered s) Efs). cbn [snd].
      rewrite cleanup_none by reflexivity. cbn [snd].
      repeat split; auto. }
    assert (Hne : form_files req <> []) by (rewrite Efs; discriminate).
    destruct (level_accepted (level_of req)) eqn:Hacc.
    2:{ unfold try_catch.
        rewrite (try_block_rejected env req (entered s) Hne Hacc). cbn [snd].
        rewrite cleanup_none by reflexivity. cbn [snd].
        repeat split; auto. }
    exfalso.
    destruct (parse_split (form_files req))
      as [(docs & Hp)|(good & docs & bad & rest & message & Hfs & Hg & Hb)].
    + rewrite (guarded_merged env req docs (entered s) Hne Hacc Hp) in Hr.
      apply guarded_compress_status in Hr.
      destruct Hr as [H|H]; rewrite H in H400; discriminate.
    + rewrite (guarded_unparseable env req good docs bad rest message
                 (entered s) Hfs Hacc Hg Hb) in Hr.
      cbn [fst] in Hr. injection Hr as <-. discriminate.
Qed.

(** X3 on a request without files and with a level that is no number. *)
Lemma status_400_means_untouched_witness :
  let env := Fixture.os Fixture.gs_copies Fixture.rm_works in
  let req := mkRequest [] (Some "abc") in
  events_since Fixture.idle
    (snd (GsRoute.POST (lib := Fixture.toy) env req Fixture.idle))
  = []
  /\ disk (snd (GsRoute.POST (lib := Fixture.toy) env req Fixture.idle))
     = disk Fixture.idle.
Proof.
  intros env req.
  destruct (status_400_means_untouched byte Fixture.toy env req Fixture.idle
              (GsRoute.POST (lib := Fixture.toy) env)
              (NextResponse_json "No PDF files uploaded." None 400))
    as (H1 & H2 & _).
  - right. reflexivity.
  - reflexivity.
  - reflexivity.
  - split; assumption.
Defined.

(** ** The Ghostscript path *)



(** X5.  At level 1 or 2, when the temp directory cannot be created or
    the input file cannot be written, the request ends with status 500
    and the operating system's message as details.  Ghostscript is
    neither probed nor run and the document model does not serialize a
    second time.  In the second case the directory exists, so [fs.rm] is
    called on it. *)
Theorem temp_failure_is_500 :
  forall (Page : Type) (lib : PdfLib Page) (env : Env) (req : Request)
         (docs : list (PDFDocument Page)) (s : State),
    let prefix := path_join (os_tmpdir env) "pdf-compress-" in
    form_files req <> [] ->
    level_of req = Num 1%Z \/ level_of req = Num 2%Z ->
    Forall2 parses (form_files req) docs ->
    (forall err,
        mkdtemp_outcome env = inl err ->
        GsRoute.POST env req s
        = (Returned (NextResponse_json "Failed to process PDFs" (Some err) 500),
           add_events
             (loads (form_files req)
              ++ [EvSave default_save; EvMkdtemp prefix;
                  EvConsoleError ("PDF compression error: " ++ err)])
             (advance (List.length (form_files req)) (tick (entered s))))
        /\ response_status (fst (GsRoute.POST env req s)) = Some 500
        /\ response_body (fst (GsRoute.POST env req s))
           = Some (JsonBody "Failed to process PDFs" (Some err)))
    /\ (forall suffix err,
           mkdtemp_outcome env = inr suffix ->
           writeFile_error env (path_join (temp_dir env suffix) "input.pdf")
           = Some err ->
           fst (GsRoute.POST env req s)
           = Returned
               (NextResponse_json "Failed to process PDFs" (Some err) 500)
           /\ response_status (fst (GsRoute.POST env req s)) = Some 500
           /\ response_body (fst (GsRoute.POST env req s))
              = Some (JsonBody "Failed to process PDFs" (Some err))
           /\ exists tail,
                events_since s (snd (GsRoute.POST env req s))
                = (loads (form_files req)
                   ++ [EvSave default_save; EvMkdtemp prefix;
                       EvWriteFile
                         (path_join (temp_dir env suffix) "input.pdf");
                       EvConsoleError ("PDF compression error: " ++ err);
                       EvRm (temp_dir env suffix)]
                   ++ tail)%list
                /\ forall e, In e tail -> is_exec e = false /\ is_save e = false).
Proof.
  intros Page lib env req docs s prefix Hne Hlevel Hp.
  assert (Hacc : level_accepted (level_of req) = true)
    by (destruct Hlevel as [-> | ->]; reflexivity).
  assert (H0 : js_eq (level_of req) (Num 0%Z) = false)
    by (destruct Hlevel as [-> | ->]; reflexivity).
  split.
  - intros err Hmk. rewrite GsRoute_POST_unfold.
    rewrite (guarded_merged env req docs (entered s) Hne Hacc Hp).
    unfold try_catch.
    rewrite (compress_and_respond_run env (level_of req) _ _ H0). cbv zeta.
    rewrite Hmk. unfold GsRoute.catch_block, bind, log, ret. cbn [fst snd].
    rewrite cleanup_none by reflexivity. cbn [snd].
    split; [|split; reflexivity].
    f_equal. unfold add_events, merged_state, advance, tick, entered. simpl.
    now rewrite <- !app_assoc.
  - intros suffix err Hmk Hwr. rewrite GsRoute_POST_unfold.
    rewrite (guarded_merged env req docs (entered s) Hne Hacc Hp).
    unfold try_catch.
    rewrite (compress_and_respond_run env (level_of req) _ _ H0). cbv zeta.
    rewrite Hmk, Hwr. unfold GsRoute.catch_block, bind, log, ret.
    cbn [fst snd]. split; [reflexivity|]. split; [reflexivity|].
    split; [reflexivity|].
    destruct (rm_error env (temp_dir env suffix)) as [message|] eqn:Erm.
    + match goal with
      | |- context [GsRoute.cleanup env ?st] =>
          rewrite (cleanup_failed env st _ message eq_refl Erm)
      end. cbn [snd].
      exists [EvConsoleWarn ("Cleanup error: " ++ message)]. split.
      * apply events_since_from. simpl. rewrite <- !app_assoc. reflexivity.
      * intros e [<-|[]]. split; reflexivity.
    + match goal with
      | |- context [GsRoute.cleanup env ?st] =>
          rewrite (cleanup_removed env st _ eq_refl Erm)
      end. cbn [snd].
      exists []. split.
      * apply events_since_from. simpl. rewrite <- !app_assoc. reflexivity.
      * intros e [].
Qed.

(** X5 with a full disk: [fs.mkdtemp] fails. *)
Lemma temp_failure_is_500_witness :
  let env :=
    mkEnv (fun n => Z.of_nat n) "/tmp"
      (inl "ENOSPC: no space left on device") (fun _ => None)
      Fixture.gs_copies Fixture.rm_works in
  let req := mkRequest [Fixture.two_pages] (Some "2") in
  fst (GsRoute.POST (lib := Fixture.toy) env req Fixture.idle)
  = Returned
      (NextResponse_json "Failed to process PDFs"
         (Some "ENOSPC: no space left on device") 500)
  /\ response_status
       (fst (GsRoute.POST (lib := Fixture.toy) env req Fixture.idle))
     = Some 500
  /\ response_body
       (fst (GsRoute.POST (lib := Fixture.toy) env req Fixture.idle))
     = Some (JsonBody "Failed to process PDFs"
               (Some "ENOSPC: no space left on device")).
Proof.
  intros env req.
  destruct (temp_failure_is_500 byte Fixture.toy env req
              [mkPDFDocument ["a"; "b"]%byte None None None None None None]
              Fixture.idle) as [H _].
  - discriminate.
  - right; reflexivity.
  - repeat constructor.
  - destruct (H "ENOSPC: no space left on device" eq_refl)
      as (Hrun & Hstatus & Hbody).
    split; [now rewrite Hrun|]. split; assumption.
Defined.

(** ** Headers of the download *)

Section DownloadName.

Context {Page : Type} {lib : PdfLib Page}.
Variable env : Env.

Lemma guarded_compress_disposition (l : JSNumber) (m : PDFDocument Page)
  (s : State) (resp : Response) (b : bytes) :
  fst (try_catch (GsRoute.compress_and_respond env l m)
         GsRoute.catch_block s)
  = Returned resp ->
  body resp = PdfBody b ->
  header "Content-Disposition" resp
  = Some (attachment
            (if js_eq l (Num 0%Z) then "merged.pdf"
             else "merged_compressed.pdf")).
Proof.
  unfold try_catch. destruct (js_eq l (Num 0%Z)) eqn:H0.
  { apply js_eq_true in H0. subst l. rewrite compress_and_respond_0.
    cbn [fst]. intros [= <-] _. reflexivity. }
  rewrite (compress_and_respond_run env l m s H0). cbv zeta.
  unfold GsRoute.catch_block, bind, log, ret.
  destruct (mkdtemp_outcome env) as [err|suffix].
  { cbn [fst]. intros [= <-]. discriminate. }
  destruct (writeFile_error env _) as [err|].
  { cbn [fst]. intros [= <-]. discriminate. }
  destruct (exec_outcome env "gs --version" _) as [dk [err|]].
  { cbn [fst]. intros [= <-] _. reflexivity. }
  destruct (exec_outcome env _ dk) as [dk' [err|]].
  { cbn [fst]. intros [= <-]. discriminate. }
  destruct (lookup_file _ (files dk')) as [c|]; cbn [fst]; intros [= <-].
  - intros _. reflexivity.
  - discriminate.
Qed.

End DownloadName.

(** X6.  For a level of 0, 1 or 2, every PDF response of either handler
    is offered for download as [merged.pdf] at level 0 and as
    [merged_compressed.pdf] at levels 1 and 2; route.ts also echoes the
    level in [X-Compression-Level]. *)
Theorem download_name_follows_level :
  forall (Page : Type) (lib : PdfLib Page) (env : Env) (req : Request)
         (s : State) (resp : Response) (b : bytes),
    level_of req = Num 0%Z \/ level_of req = Num 1%Z \/ level_of req = Num 2%Z ->
    body resp = PdfBody b ->
    let name :=
      if js_eq (level_of req) (Num 0%Z) then "merged.pdf"
      else "merged_compressed.pdf" in
    (fst (Route.POST env req s) = Returned resp ->
     header "Content-Disposition" resp = Some (attachment name)
     /\ header "X-Compression-Level" resp = Some (js_toString (level_of req)))
    /\ (fst (GsRoute.POST env req s) = Returned resp ->
        header "Content-Disposition" resp = Some (attachment name)).
Proof.
  intros Page lib env req s resp b Hlevel Hb name.
  assert (Hacc := level_valid_accepted _ Hlevel).
  split.
  - intros Hr. destruct (form_files req) as [|f fs] eqn:Efs.
    { rewrite (Route_POST_no_files env req s Efs) in Hr. cbn [fst] in Hr.
      injection Hr as <-. discriminate. }
    assert (Hne : form_files req <> []) by (rewrite Efs; discriminate).
    destruct (parse_split (form_files req))
      as [(docs & Hp)|(good & docs & bad & rest & message & Hfs & Hg & Hbad)].
    + rewrite (Route_POST_merged env req docs s Hne Hacc Hp) in Hr.
      destruct (Route.save_with_level env (level_of req) _ _) as [[c|m] s'];
        cbn [fst] in Hr; injection Hr as <-; [|discriminate].
      subst name. destruct Hlevel as [-> |[-> | ->]]; split; reflexivity.
    + rewrite (Route_POST_unparseable env req good docs bad rest message s
                 Hfs Hacc Hg Hbad) in Hr.
      cbn [fst] in Hr. injection Hr as <-. discriminate.
  - rewrite GsRoute_POST_response. intros Hr.
    destruct (form_files req) as [|f fs] eqn:Efs.
    { unfold try_catch in Hr.
      rewrite (try_block_no_files env req (entered s) Efs) in Hr.
      cbn [fst] in Hr. injection Hr as <-. discriminate. }
    assert (Hne : form_files req <> []) by (rewrite Efs; discriminate).
    destruct (parse_split (form_files req))
      as [(docs & Hp)|(good & docs & bad & rest & message & Hfs & Hg & Hbad)].
    + rewrite (guarded_merged env req docs (entered s) Hne Hacc Hp) in Hr.
      exact (guarded_compress_disposition env _ _ _ resp b Hr Hb).
    + rewrite (guarded_unparseable env req good docs bad rest message
                 (entered s) Hfs Hacc Hg Hbad) in Hr.
      cbn [fst] in Hr. injection Hr as <-. discriminate.
Qed.

(** X6 on route.ts at level 2. *)
Lemma download_name_follows_level_witness :
  let env := Fixture.os Fixture.gs_missing Fixture.rm_works in
  let req := mkRequest [Fixture.two_pages] (Some "2") in
  exists resp,
    fst (Route.POST (lib := Fixture.toy) env req Fixture.idle) = Returned resp
    /\ header "Content-Disposition" resp
       = Some (attachment "merged_compressed.pdf")
    /\ header "X-Compression-Level" resp = Some "2".
Proof.
  intros env req.
  pose (out :=
          Fixture.toy_write true 10
            (mkPDFDocument ["a"; "b"]%byte (Some "Merged PDF") None None None
               None None)).
  exists (Route.success (Num 2%Z) out). split; [reflexivity|].
  destruct (download_name_follows_level byte Fixture.toy env req Fixture.idle
              (Route.success (Num 2%Z) out) out
              (or_intror (or_intror eq_refl)) eq_refl) as [H _].
  exact (H eq_refl).
Defined.

(** ** Medium compression in process *)

(** X7.  In process, Medium writes what no compression writes.  The
    level-1 [save] of route.ts passes object streams on and 50 objects
    per tick, which are the writer's defaults, so when the inputs hold
    at least one page its body is byte for byte the level-0 body; the
    same holds for the level-1 fallback of the Ghostscript variant
    against its level-0 answer, whatever the inputs. *)
Theorem medium_in_process_equals_none :
  forall (Page : Type) (lib : PdfLib Page) (env : Env)
         (req0 req1 : Request) (docs : list (PDFDocument Page)) (s : State),
    form_files req0 = form_files req1 ->
    form_files req0 <> [] ->
    level_of req0 = Num 0%Z ->
    level_of req1 = Num 1%Z ->
    Forall2 parses (form_files req0) docs ->
    (all_pages docs <> [] ->
     response_body (fst (Route.POST env req1 s))
     = response_body (fst (Route.POST env req0 s)))
    /\ (falls_back env s
          (writePdf true 50
             (prepareForSave default_save
                (merged_document (clock env (ticks s)) (all_pages docs)))) ->
        response_body (fst (GsRoute.POST env req1 s))
        = response_body (fst (GsRoute.POST env req0 s))).
Proof.
  intros Page lib env req0 req1 docs s Hfs Hne E0 E1 Hp.
  assert (Hacc0 : level_accepted (level_of req0) = true) by now rewrite E0.
  assert (Hacc1 : level_accepted (level_of req1) = true) by now rewrite E1.
  assert (Hne1 : form_files req1 <> []) by now rewrite <- Hfs.
  assert (Hp1 : Forall2 parses (form_files req1) docs) by now rewrite <- Hfs.
  split.
  - intros Hpages.
    rewrite (Route_POST_merged env req0 docs s Hne Hacc0 Hp), E0.
    rewrite (Route_POST_merged env req1 docs s Hne1 Hacc1 Hp1), E1.
    rewrite save_with_level_0, save_with_level_1. cbn [fst response_body body].
    now rewrite prepareForSave_pages by exact Hpages.
  - intros Hfb. rewrite !GsRoute_POST_response. unfold try_catch.
    rewrite (try_block_merged env req0 docs (entered s) Hne Hacc0 Hp), E0.
    rewrite (try_block_merged env req1 docs (entered s) Hne1 Hacc1 Hp1), E1.
    rewrite compress_and_respond_0.
    pose proof (compress_and_respond_fallback env (Num 1%Z)
                  (merged_document (clock env (ticks (entered s)))
                     (all_pages docs))
                  (merged_state (form_files req1) (entered s))
                  eq_refl Hfb) as Hrun.
    cbv zeta in Hrun.
    destruct (GsRoute.compress_and_respond env (Num 1%Z) _ _) as [r s'].
    cbn [fst] in Hrun. subst r. reflexivity.
Qed.

(** X7 on two uploads. *)
Lemma medium_in_process_equals_none_witness :
  let env := Fixture.os Fixture.gs_missing Fixture.rm_works in
  let files := [Fixture.two_pages; Fixture.three_pages] in
  response_body
    (fst (Route.POST (lib := Fixture.toy) env (mkRequest files (Some "1"))
            Fixture.idle))
  = response_body
      (fst (Route.POST (lib := Fixture.toy) env (mkRequest files None)
              Fixture.idle)).
Proof.
  intros env files.
  destruct (medium_in_process_equals_none byte Fixture.toy env
              (mkRequest files None) (mkRequest files (Some "1"))
              [mkPDFDocument ["a"; "b"]%byte None None None None None None;
               mkPDFDocument ["c"; "d"; "e"]%byte None None None None None None]
              Fixture.idle) as [H _].
  - reflexivity.
  - discriminate.
  - reflexivity.
  - reflexivity.
  - repeat constructor.
  - apply H. discriminate.
Defined.


(** ** [parseInt] reads back what [toString] writes *)

Section Numerals.

Local Open Scope Z_scope.

Ltac digit_cases k :=
  do 10 (destruct k as [|k]; [simpl; auto|]); try lia.

Lemma digit_value_digit_char (k : nat) :
  (k < 10)%nat -> digit_value 10 (digit_char k) = Some (Z.of_nat k).
Proof. intros H. digit_cases k. Qed.

Lemma string_app_assoc (a b c : string) : (a ++ b) ++ c = a ++ (b ++ c).
Proof. induction a as [|x a IH]; simpl; [reflexivity|now rewrite IH]. Qed.

Lemma string_app_nil_r (a : string) : a ++ EmptyString = a.
Proof. induction a as [|x a IH]; simpl; [reflexivity|now rewrite IH]. Qed.

Lemma nat_to_string_aux_S (fuel n : nat) (acc : string) :
  nat_to_string_aux (S fuel) n acc
  = match (n / 10)%nat with
    | O => String (digit_char (n mod 10)) acc
    | S q =>
        nat_to_string_aux fuel (S q) (String (digit_char (n mod 10)) acc)
    end.
Proof. reflexivity. Qed.

Lemma nat_to_string_aux_app (fuel : nat) :
  forall (n : nat) (acc : string),
    nat_to_string_aux fuel n acc
    = nat_to_string_aux fuel n EmptyString ++ acc.
Proof.
  induction fuel as [|fuel IH]; intros n acc; [reflexivity|].
  rewrite !nat_to_string_aux_S.
  destruct (n / 10)%nat as [|q] eqn:E; [reflexivity|].
  rewrite IH.
  rewrite (IH (S q) (String (digit_char (n mod 10)) EmptyString)).
  rewrite string_app_assoc. reflexivity.
Qed.

Lemma read_digits_digit (k : nat) (r : string) (o : option Z) :
  (k < 10)%nat ->
  read_digits 10 (String (digit_char k) r) o
  = read_digits 10 r
      (Some (match o with Some a => a * 10 + Z.of_nat k | None => Z.of_nat k end)).
Proof.
  intros Hk. cbn [read_digits]. now rewrite (digit_value_digit_char _ Hk).
Qed.

(** Reading the digits of [n] from the start gives [n]. *)
Lemma read_digits_numeral (fuel : nat) :
  forall (n : nat) (acc : string),
    (n < fuel)%nat ->
    read_digits 10 (nat_to_string_aux fuel n acc) None
    = read_digits 10 acc (Some (Z.of_nat n)).
Proof.
  induction fuel as [|fuel IH]; intros n acc Hn; [lia|].
  rewrite nat_to_string_aux_S.
  assert (Hmod : (n mod 10 < 10)%nat) by (apply Nat.mod_upper_bound; lia).
  pose proof (Nat.div_mod_eq n 10) as Hdm.
  destruct (n / 10)%nat as [|q] eqn:E.
  - rewrite (read_digits_digit _ _ _ Hmod). do 2 f_equal. lia.
  - rewrite IH by lia. rewrite (read_digits_digit _ _ _ Hmod).
    do 2 f_equal. lia.
Qed.

(** The first character of a numeral is a digit, and so is the second
    unless the numeral ends there. *)
Lemma numeral_head (fuel : nat) :
  forall (n : nat) (acc : string),
    exists k r,
      (k < 10)%nat
      /\ nat_to_string_aux (S fuel) n acc = String (digit_char k) r
      /\ (r = acc
          \/ exists k' r', (k' < 10)%nat /\ r = String (digit_char k') r').
Proof.
  induction fuel as [|fuel IH]; intros n acc.
  - assert (Hmod : (n mod 10 < 10)%nat) by (apply Nat.mod_upper_bound; lia).
    exists (n mod 10)%nat, acc. rewrite nat_to_string_aux_S.
    destruct (n / 10)%nat; auto.
  - assert (Hmod : (n mod 10 < 10)%nat) by (apply Nat.mod_upper_bound; lia).
    rewrite nat_to_string_aux_S.
    destruct (n / 10)%nat as [|q].
    + exists (n mod 10)%nat, acc. auto.
    + destruct (IH (S q) (String (digit_char (n mod 10)) acc))
        as (k & r & Hk & Hs & Hr).
      exists k, r. split; [exact Hk|]. split; [exact Hs|]. right.
      destruct Hr as [-> |Hr]; [|exact Hr].
      exists (n mod 10)%nat, acc. auto.
Qed.

Lemma ends_numeral_reads (rest : string) (a : Z) :
  ends_numeral rest = true -> read_digits 10 rest (Some a) = Some a.
Proof.
  destruct rest as [|c r]; simpl; [reflexivity|].
  destruct (digit_value 10 c); [discriminate|reflexivity].
Qed.

Lemma strip_hex_prefix_digit (k : nat) (r : string) :
  (k < 10)%nat ->
  (r = EmptyString
   \/ (exists k' r', (k' < 10)%nat /\ r = String (digit_char k') r')
   \/ exists c r', r = String c r'
                   /\ (Ascii.eqb c "x" || Ascii.eqb c "X")%bool = false) ->
  strip_hex_prefix (String (digit_char k) r) = (10, String (digit_char k) r).
Proof.
  intros Hk Hr.
  destruct k as [|k]; [|digit_cases k].
  destruct Hr as [-> |[(k' & r' & Hk' & ->)|(c & r' & -> & Hc)]].
  - reflexivity.
  - digit_cases k'.
  - destruct c as [[] [] [] [] [] [] [] []]; try reflexivity; discriminate.
Qed.

(** A decimal numeral followed by text that ends it: how each stage of
    [parseInt] sees it. *)
Lemma numeral_stages (n : nat) (rest : string) :
  ends_numeral rest = true ->
  let s := nat_to_string n ++ rest in
  skip_space s = s
  /\ strip_sign s = (1, s)
  /\ strip_hex_prefix s = (10, s)
  /\ read_digits 10 s None = Some (Z.of_nat n).
Proof.
  intros Hrest s. subst s. unfold nat_to_string.
  rewrite <- nat_to_string_aux_app.
  destruct (numeral_head n n rest) as (k & r & Hk & Hs & Hr).
  split; [|split; [|split]].
  - rewrite Hs. clear Hs. digit_cases k.
  - rewrite Hs. clear Hs. digit_cases k.
  - rewrite Hs. apply strip_hex_prefix_digit; [exact Hk|].
    destruct Hr as [-> |Hr]; [|now right; left].
    destruct rest as [|c r']; [now left|]. right; right.
    exists c, r'. split; [reflexivity|]. simpl in Hrest.
    destruct (digit_value 10 c); [discriminate|].
    now apply negb_true_iff in Hrest.
  - rewrite read_digits_numeral by lia. now apply ends_numeral_reads.
Qed.

Lemma skip_space_prefix (ws s : string) :
  all_space ws = true -> skip_space (ws ++ s) = skip_space s.
Proof.
  induction ws as [|c ws IH]; simpl; [reflexivity|].
  intros H. apply andb_true_iff in H. destruct H as [Hc Hws].
  rewrite Hc. auto.
Qed.

End Numerals.

Lemma parseInt_nat_to_string (n : nat) :
  parseInt (nat_to_string n) = Num (Z.of_nat n).
Proof.
  destruct (numeral_stages n EmptyString eq_refl)
    as (Hsp & Hsign & Hhex & Hread).
  rewrite string_app_nil_r in *.
  unfold parseInt. rewrite Hsp, Hsign, Hhex, Hread. f_equal. lia.
Qed.

Lemma parseInt_js_toString (x : JSNumber) : parseInt (js_toString x) = x.
Proof.
  destruct x as [|z]; [reflexivity|]. unfold js_toString.
  destruct (z <? 0)%Z eqn:Hz.
  - apply Z.ltb_lt in Hz.
    destruct (numeral_stages (Z.to_nat (- z)) EmptyString eq_refl)
      as (Hsp & Hsign & Hhex & Hread).
    rewrite string_app_nil_r in *.
    unfold parseInt. change ("-" ++ ?s) with (String "-" s).
    change (skip_space (String "-" ?s)) with (String "-" s).
    cbn [strip_sign]. rewrite Hhex, Hread. f_equal. lia.
  - apply Z.ltb_ge in Hz. rewrite parseInt_nat_to_string. f_equal. lia.
Qed.

(** * The page *)

(** ** Reordering and removing files *)


Section ArrayFacts.

Context {A : Type}.

Lemma nth_error_at (pre : list A) (x : A) (post : list A) :
  nth_error (pre ++ x :: post) (List.length pre) = Some x.
Proof. induction pre as [|y pre IH]; simpl; auto. Qed.

Lemma array_set_at (pre : list A) (x y : A) (post : list A) :
  array_set (List.length pre) y (pre ++ x :: post) = (pre ++ y :: post)%list.
Proof. induction pre as [|z pre IH]; simpl; [reflexivity|now rewrite IH]. Qed.

(** An index inside a list splits it around the element it names. *)
Lemma split_at (l : list A) (i : nat) :
  i < List.length l ->
  exists pre x post,
    l = (pre ++ x :: post)%list /\ List.length pre = i.
Proof.
  revert i. induction l as [|y l IH]; intros i Hi; simpl in Hi; [lia|].
  destruct i as [|i].
  - exists [], y, l. auto.
  - destruct (IH i) as (pre & x & post & -> & Hlen); [lia|].
    exists (y :: pre), x, post. simpl. auto.
Qed.

Lemma filter_index_above (keep : nat -> bool) (l : list A) :
  forall i, (forall k, i <= k -> keep k = true) -> filter_index keep i l = l.
Proof.
  induction l as [|x l IH]; intros i H; simpl; [reflexivity|].
  rewrite (H i) by lia. rewrite IH; [reflexivity|].
  intros k Hk. apply H. lia.
Qed.

(** Dropping the one index [i + length pre] from a list counted from [i]. *)
Lemma filter_index_drop (target : Z) (pre : list A) (x : A) (post : list A) :
  forall i,
    target = Z.of_nat (i + List.length pre) ->
    filter_index (fun k => negb (Z.of_nat k =? target)%Z) i (pre ++ x :: post)
    = (pre ++ post)%list.
Proof.
  induction pre as [|y pre IH]; intros i Ht; simpl.
  - replace (Z.of_nat i =? target)%Z with true
      by (symmetry; apply Z.eqb_eq; simpl in Ht; lia).
    simpl. apply filter_index_above. intros k Hk.
    apply negb_true_iff, Z.eqb_neq. simpl in Ht. lia.
  - replace (Z.of_nat i =? target)%Z with false
      by (symmetry; apply Z.eqb_neq; simpl in Ht; lia).
    simpl. rewrite (IH (S i)); [reflexivity|]. simpl in Ht. lia.
Qed.

Lemma filter_index_outside (target : Z) (l : list A) :
  forall i,
    (target < Z.of_nat i \/ Z.of_nat (i + List.length l) <= target)%Z ->
    filter_index (fun k => negb (Z.of_nat k =? target)%Z) i l = l.
Proof.
  induction l as [|x l IH]; intros i H; simpl; [reflexivity|].
  simpl in H.
  replace (Z.of_nat i =? target)%Z with false
    by (symmetry; apply Z.eqb_neq; lia).
  simpl. rewrite IH; [reflexivity|]. lia.
Qed.

End ArrayFacts.

Section Reordering.

Import Home.

Lemma moveFileUp_at (m : Model) (pre : list BrowserFile) (a b : BrowserFile)
  (post : list BrowserFile) :
  files m = (pre ++ a :: b :: post)%list ->
  moveFileUp (Z.of_nat (S (List.length pre))) m
  = set_mergedUrl None (set_files (pre ++ b :: a :: post) m).
Proof.
  intros Hf. unfold moveFileUp. rewrite Hf.
  replace ((Z.of_nat (S (List.length pre)) <=? 0)%Z) with false
    by (symmetry; apply Z.leb_gt; lia).
  replace ((Z.of_nat (S (List.length pre))
            >=? Z.of_nat (List.length (pre ++ a :: b :: post)))%Z) with false
    by (symmetry; rewrite Z.geb_leb; apply Z.leb_gt; rewrite length_app;
        simpl; lia).
  cbn [orb]. rewrite Nat2Z.id.
  replace (S (List.length pre) - 1) with (List.length pre) by lia.
  rewrite nth_error_at.
  replace (pre ++ a :: b :: post)%list with ((pre ++ [a]) ++ b :: post)%list
    by (rewrite <- app_assoc; reflexivity).
  replace (S (List.length pre)) with (List.length (pre ++ [a]))
    by (rewrite length_app; simpl; lia).
  rewrite nth_error_at, array_set_at. rewrite <- app_assoc. simpl.
  now rewrite array_set_at.
Qed.

Lemma moveFileDown_at (m : Model) (pre : list BrowserFile) (a b : BrowserFile)
  (post : list BrowserFile) :
  files m = (pre ++ a :: b :: post)%list ->
  moveFileDown (Z.of_nat (List.length pre)) m
  = set_mergedUrl None (set_files (pre ++ b :: a :: post) m).
Proof.
  intros Hf. unfold moveFileDown. rewrite Hf.
  replace ((Z.of_nat (List.length pre) <? 0)%Z) with false
    by (symmetry; apply Z.ltb_ge; lia).
  replace ((Z.of_nat (List.length pre)
            >=? Z.of_nat (List.length (pre ++ a :: b :: post)) - 1)%Z)
    with false
    by (symmetry; rewrite Z.geb_leb; apply Z.leb_gt; rewrite length_app;
        simpl; lia).
  cbn [orb]. rewrite Nat2Z.id. rewrite nth_error_at.
  replace (pre ++ a :: b :: post)%list with ((pre ++ [a]) ++ b :: post)%list
    by (rewrite <- app_assoc; reflexivity).
  replace (List.length pre + 1) with (List.length (pre ++ [a]))
    by (rewrite length_app; simpl; lia).
  rewrite nth_error_at.
  rewrite <- app_assoc. simpl. rewrite array_set_at.
  replace (pre ++ b :: b :: post)%list with ((pre ++ [b]) ++ b :: post)%list
    by (rewrite <- app_assoc; reflexivity).
  replace (List.length (pre ++ [a])) with (List.length (pre ++ [b]))
    by (rewrite !length_app; reflexivity).
  rewrite array_set_at. now rewrite <- app_assoc.
Qed.

Lemma moveFileUp_outside (m : Model) (index : Z) :
  (index <= 0 \/ Z.of_nat (List.length (files m)) <= index)%Z ->
  moveFileUp index m = m.
Proof.
  intros H. unfold moveFileUp.
  destruct H as [H|H].
  - replace (index <=? 0)%Z with true by (symmetry; now apply Z.leb_le).
    reflexivity.
  - replace (index >=? Z.of_nat (List.length (files m)))%Z with true
      by (symmetry; rewrite Z.geb_leb; now apply Z.leb_le).
    now rewrite orb_true_r.
Qed.

Lemma moveFileDown_outside (m : Model) (index : Z) :
  (index < 0 \/ Z.of_nat (List.length (files m)) - 1 <= index)%Z ->
  moveFileDown index m = m.
Proof.
  intros H. unfold moveFileDown.
  destruct H as [H|H].
  - replace (index <? 0)%Z with true by (symmetry; now apply Z.ltb_lt).
    reflexivity.
  - replace (index >=? Z.of_nat (List.length (files m)) - 1)%Z with true
      by (symmetry; rewrite Z.geb_leb; now apply Z.leb_le).
    now rewrite orb_true_r.
Qed.

(** An index that passes the guard of [moveFileUp] names the second of
    two neighbours. *)
Lemma neighbours_at (l : list BrowserFile) (index : Z) :
  (0 < index < Z.of_nat (List.length l))%Z ->
  exists pre a b post,
    l = (pre ++ a :: b :: post)%list
    /\ index = Z.of_nat (S (List.length pre)).
Proof.
  intros H.
  destruct (split_at l (Z.to_nat index - 1)) as (pre & a & post & -> & Hlen);
    [lia|].
  destruct post as [|b post].
  - rewrite length_app in H. simpl in H. lia.
  - exists pre, a, b, post. split; [reflexivity|]. lia.
Qed.

End Reordering.


(** X10.  [moveFileUp] does nothing for the first file and for an index
    outside the list; for any other index it exchanges the file with
    the one before it, leaves every other file where it is, and forgets
    the merged result.  [moveFileDown] on the index before does exactly
    the same. *)
Theorem move_up_exchanges_neighbours :
  forall (m : Home.Model) (index : Z),
    ((index <= 0 \/ Z.of_nat (List.length (Home.files m)) <= index)%Z ->
     Home.moveFileUp index m = m)
    /\ (forall pre a b post,
           Home.files m = (pre ++ a :: b :: post)%list ->
           index = Z.of_nat (S (List.length pre)) ->
           Home.moveFileUp index m
           = Home.mkModel (pre ++ b :: a :: post) None (Home.isMerging m)
               (Home.isDragging m) (Home.compressionLevel m)
           /\ Home.moveFileDown (index - 1) m = Home.moveFileUp index m).
Proof.
  intros m index. split.
  - apply moveFileUp_outside.
  - intros pre a b post Hf ->. rewrite (moveFileUp_at m pre a b post Hf).
    split; [reflexivity|].
    replace (Z.of_nat (S (List.length pre)) - 1)%Z
      with (Z.of_nat (List.length pre)) by lia.
    apply (moveFileDown_at m pre a b post Hf).
Qed.

(** X11.  Moving a file up and then moving the file above it down
    gives back the list as it was, for every index; and a move never
    loses or duplicates a file. *)
Theorem move_down_undoes_move_up :
  forall (m : Home.Model) (index : Z),
    Home.files (Home.moveFileDown (index - 1) (Home.moveFileUp index m))
    = Home.files m
    /\ Permutation (Home.files m) (Home.files (Home.moveFileUp index m))
    /\ Permutation (Home.files m) (Home.files (Home.moveFileDown index m)).
Proof.
  intros m index.
  assert (Hup : (index <= 0 \/ Z.of_nat (List.length (Home.files m)) <= index)%Z
                \/ (0 < index < Z.of_nat (List.length (Home.files m)))%Z)
    by lia.
  split; [|split].
  - destruct Hup as [Hout|Hin].
    + rewrite (moveFileUp_outside m index Hout).
      rewrite moveFileDown_outside; [reflexivity|lia].
    + destruct (neighbours_at _ _ Hin) as (pre & a & b & post & Hf & ->).
      rewrite (moveFileUp_at m pre a b post Hf).
      replace (Z.of_nat (S (List.length pre)) - 1)%Z
        with (Z.of_nat (List.length pre)) by lia.
      rewrite (moveFileDown_at
                 (Home.set_mergedUrl None
                    (Home.set_files (pre ++ b :: a :: post) m))
                 pre b a post eq_refl).
      simpl. now rewrite Hf.
  - destruct Hup as [Hout|Hin].
    + now rewrite (moveFileUp_outside m index Hout).
    + destruct (neighbours_at _ _ Hin) as (pre & a & b & post & Hf & ->).
      rewrite (moveFileUp_at m pre a b post Hf), Hf. simpl.
      apply Permutation_app_head, perm_swap.
  - assert (Hdown : (index < 0
                     \/ Z.of_nat (List.length (Home.files m)) - 1 <= index)%Z
                    \/ (0 < index + 1
                        < Z.of_nat (List.length (Home.files m)))%Z) by lia.
    destruct Hdown as [Hout|Hin].
    + now rewrite (moveFileDown_outside m index Hout).
    + destruct (neighbours_at _ _ Hin) as (pre & a & b & post & Hf & Hi).
      replace index with (Z.of_nat (List.length pre)) by lia.
      rewrite (moveFileDown_at m pre a b post Hf), Hf. simpl.
      apply Permutation_app_head, perm_swap.
Qed.

(** X12.  [removeFile] takes out exactly the file at the index and
    keeps the others in order; an index outside the list removes
    nothing.  The merged result is forgotten exactly when the list held
    one file. *)
Theorem remove_file_takes_one :
  forall (m : Home.Model) (index : Z),
    (forall pre x post,
        Home.files m = (pre ++ x :: post)%list ->
        index = Z.of_nat (List.length pre) ->
        Home.files (Home.removeFile index m) = (pre ++ post)%list)
    /\ ((index < 0 \/ Z.of_nat (List.length (Home.files m)) <= index)%Z ->
        Home.files (Home.removeFile index m) = Home.files m)
    /\ Home.mergedUrl (Home.removeFile index m)
       = (if (List.length (Home.files m) =? 1)%nat then None
          else Home.mergedUrl m).
Proof.
  intros m index.
  assert (Hfiles : Home.files (Home.removeFile index m)
                   = filter_index (fun i => negb (Z.of_nat i =? index)%Z) 0
                       (Home.files m)).
  { unfold Home.removeFile.
    destruct (List.length (Home.files m) =? 1)%nat; reflexivity. }
  split; [|split].
  - intros pre x post Hf Hi. rewrite Hfiles, Hf.
    apply filter_index_drop. simpl. exact Hi.
  - intros Hout. rewrite Hfiles. apply filter_index_outside. simpl. lia.
  - unfold Home.removeFile.
    destruct (List.length (Home.files m) =? 1)%nat; reflexivity.
Qed.

(** X10 on the second of three files. *)
Lemma move_up_exchanges_neighbours_witness :
  Home.moveFileUp 1 Desk.listed
  = Home.mkModel [Desk.b_pdf; Desk.a_pdf; Desk.c_pdf] None false false
      (Num 0%Z)
  /\ Home.moveFileDown (1 - 1) Desk.listed = Home.moveFileUp 1 Desk.listed.
Proof.
  destruct (move_up_exchanges_neighbours Desk.listed 1) as [_ H].
  exact (H [] Desk.a_pdf Desk.b_pdf [Desk.c_pdf] eq_refl eq_refl).
Defined.

(** X12 on the second of three files. *)
Lemma remove_file_takes_one_witness :
  Home.files (Home.removeFile 1 Desk.listed) = [Desk.a_pdf; Desk.c_pdf].
Proof.
  destruct (remove_file_takes_one Desk.listed 1) as [H _].
  exact (H [Desk.a_pdf] Desk.b_pdf [Desk.c_pdf] eq_refl eq_refl).
Defined.

(** ** Reordering by drag and drop *)

Section DragAndDrop.

Context {A : Type}.

Lemma firstn_at (pre l : list A) : firstn (List.length pre) (pre ++ l) = pre.
Proof. induction pre as [|x pre IH]; simpl; [now destruct l|now rewrite IH]. Qed.

Lemma skipn_at (pre l : list A) : skipn (List.length pre) (pre ++ l) = l.
Proof. induction pre as [|x pre IH]; simpl; auto. Qed.

(** [splice(start, 0, x)] puts [x] before the element at [start], or
    at the end when [start] is past it. *)
Lemma splice_in_spec (start : nat) (x : A) (l : list A) :
  splice_in start x l = (firstn start l ++ x :: skipn start l)%list.
Proof.
  unfold splice_in.
  destruct (Nat.le_gt_cases start (List.length l)) as [H|H].
  - now rewrite Nat.min_l by exact H.
  - rewrite Nat.min_r by lia.
    rewrite !firstn_all2 by lia. rewrite !skipn_all2 by lia. reflexivity.
Qed.

(** [splice(i, 1)] at an index inside the array. *)
Lemma splice_one_at (pre : list A) (x : A) (post : list A) :
  splice_one (Num (Z.of_nat (List.length pre))) (pre ++ x :: post)
  = ([x], (pre ++ post)%list).
Proof.
  unfold splice_one, splice_start. cbv zeta.
  replace (Z.of_nat (List.length pre) <? 0)%Z with false
    by (symmetry; apply Z.ltb_ge; lia).
  rewrite Z.min_l by (rewrite length_app; simpl; lia).
  rewrite Nat2Z.id. rewrite (skipn_at pre (x :: post)), firstn_at.
  cbn [firstn].
  replace (pre ++ x :: post)%list with ((pre ++ [x]) ++ post)%list
    by (rewrite <- app_assoc; reflexivity).
  replace (S (List.length pre)) with (List.length (pre ++ [x]))
    by (rewrite length_app; simpl; lia).
  now rewrite skipn_at.
Qed.

End DragAndDrop.

(** X13.  Dragging the file at index [i] onto the file at index [j]
    of the same list: nothing happens for [i = j]; otherwise the file
    is taken out and put back at index [j], the other files keep their
    order, no slot of the new array is [undefined], and no file is lost
    or duplicated. *)
Theorem drop_item_moves_file :
  forall (fs : list Home.BrowserFile) (i j : nat),
    i < List.length fs ->
    j < List.length fs ->
    (i = j -> Home.handleDropItem (Home.handleDragStart i) j fs = None)
    /\ (i <> j ->
        exists pre x post,
          fs = (pre ++ x :: post)%list
          /\ List.length pre = i
          /\ let others := (pre ++ post)%list in
             let moved := (firstn j others ++ x :: skipn j others)%list in
             Home.handleDropItem (Home.handleDragStart i) j fs
             = Some (map Some moved)
             /\ nth_error moved j = Some x
             /\ Permutation fs moved).
Proof.
  intros fs i j Hi Hj.
  assert (Hdrag : parseInt (Home.handleDragStart i) = Num (Z.of_nat i))
    by apply parseInt_js_toString.
  split.
  - intros ->. unfold Home.handleDropItem. rewrite Hdrag. simpl.
    now rewrite Z.eqb_refl.
  - intros Hij.
    destruct (split_at fs i Hi) as (pre & x & post & -> & Hlen).
    exists pre, x, post. split; [reflexivity|]. split; [exact Hlen|].
    cbv zeta.
    assert (Hj' : j <= List.length (pre ++ post)).
    { rewrite length_app in *. simpl in Hj. lia. }
    split; [|split].
    + unfold Home.handleDropItem. rewrite Hdrag. simpl js_eq.
      replace (Z.of_nat i =? Z.of_nat j)%Z with false
        by (symmetry; apply Z.eqb_neq; lia).
      rewrite map_app. simpl map. rewrite <- Hlen.
      replace (List.length pre) with (List.length (map Some pre))
        by apply length_map.
      rewrite splice_one_at. rewrite splice_in_spec.
      rewrite <- map_app, firstn_map, skipn_map.
      change (Some x :: map Some (skipn j (pre ++ post)))
        with (map Some (x :: skipn j (pre ++ post))).
      now rewrite <- map_app.
    + rewrite nth_error_app2 by (rewrite length_firstn; lia).
      rewrite length_firstn, Nat.min_l by exact Hj'.
      now rewrite Nat.sub_diag.
    + transitivity (x :: pre ++ post)%list.
      * symmetry. apply Permutation_middle.
      * rewrite <- (firstn_skipn j (pre ++ post)) at 1.
        apply Permutation_middle.
Qed.

(** X13 on the first of three files, dropped on the last. *)
Lemma drop_item_moves_file_witness :
  Home.handleDropItem (Home.handleDragStart 0) 2 (Home.files Desk.listed)
  = Some [Some Desk.b_pdf; Some Desk.c_pdf; Some Desk.a_pdf].
Proof.
  destruct (drop_item_moves_file (Home.files Desk.listed) 0 2)
    as [_ H]; [simpl; lia|simpl; lia|].
  destruct (H ltac:(discriminate)) as (pre & x & post & Hfs & Hlen & Hdrop & _).
  destruct pre; [|discriminate].
  injection Hfs as <- <-. exact Hdrop.
Defined.

(** X14.  Drag data that [parseInt] reads as [NaN] (text dragged in
    from elsewhere) is taken for index 0: the first file of the list is
    moved to the drop index. *)
Theorem drop_item_with_foreign_data :
  forall (data : string) (j : nat) (x : Home.BrowserFile)
         (rest : list Home.BrowserFile),
    parseInt data = NaN ->
    Home.handleDropItem data j (x :: rest)
    = Some (map Some (firstn j rest ++ x :: skipn j rest)).
Proof.
  intros data j x rest Hdata. unfold Home.handleDropItem. rewrite Hdata.
  simpl js_eq. cbv iota. unfold splice_one. simpl splice_start.
  simpl. rewrite splice_in_spec.
  rewrite firstn_map, skipn_map.
  change (Some x :: map Some (skipn j rest))
    with (map Some (x :: skipn j rest)).
  now rewrite <- map_app.
Qed.

(** X14 on a drop of the text ["hello"] on the second item. *)
Lemma drop_item_with_foreign_data_witness :
  Home.handleDropItem "hello" 1 [Desk.a_pdf; Desk.b_pdf; Desk.c_pdf]
  = Some [Some Desk.b_pdf; Some Desk.a_pdf; Some Desk.c_pdf].
Proof.
  exact (drop_item_with_foreign_data "hello" 1 Desk.a_pdf
           [Desk.b_pdf; Desk.c_pdf] eq_refl).
Defined.


(** ** Merging from the page *)

Section PageAndHandler.

Context {Page : Type} {lib : PdfLib Page}.
Variable env : Env.

(** Every response of route.ts is [success] or a JSON error with
    status 400 or 500. *)
Lemma Route_POST_cases (P : Response -> Prop) (req : Request) (s : State) :
  (forall l b, P (Route.success l b)) ->
  (forall e d st, st = 400 \/ st = 500 -> P (NextResponse_json e d st)) ->
  exists resp, fst (Route.POST env req s) = Returned resp /\ P resp.
Proof.
  intros Hok Herr.
  destruct (form_files req) as [|f fs] eqn:Efs.
  { rewrite (Route_POST_no_files env req s Efs). eexists.
    split; [reflexivity|]. apply Herr. now left. }
  assert (Hne : form_files req <> []) by (rewrite Efs; discriminate).
  destruct (level_accepted (level_of req)) eqn:Hacc.
  2:{ rewrite (Route_POST_rejected env req s Hne Hacc). eexists.
      split; [reflexivity|]. apply Herr. now left. }
  destruct (parse_split (form_files req))
    as [(docs & Hp)|(good & docs & bad & rest & message & Hfs & Hg & Hb)].
  - rewrite (Route_POST_merged env req docs s Hne Hacc Hp).
    destruct (Route.save_with_level env (level_of req) _ _) as [[b|m] s'].
    + eexists. split; [reflexivity|]. apply Hok.
    + eexists. split; [reflexivity|]. apply Herr. now right.
  - rewrite (Route_POST_unparseable env req good docs bad rest message s
               Hfs Hacc Hg Hb).
    eexists. split; [reflexivity|]. apply Herr. now right.
Qed.

(** Every response of the Ghostscript variant is a PDF response with
    the three common headers, alone or followed by the two Ghostscript
    headers, or a JSON error with status 400 or 500. *)
Lemma GsRoute_POST_cases (P : Response -> Prop) (req : Request) (s : State) :
  (forall name b,
      P (mkResponse 200 (GsRoute.pdf_headers name (List.length b))
           (PdfBody b))) ->
  (forall name b l,
      P (mkResponse 200
           (GsRoute.pdf_headers name (List.length b)
            ++ [("X-Compression-Method", "ghostscript");
                ("X-Compression-Level", js_toString l)])
           (PdfBody b))) ->
  (forall e d st, st = 400 \/ st = 500 -> P (NextResponse_json e d st)) ->
  exists resp, fst (GsRoute.POST env req s) = Returned resp /\ P resp.
Proof.
  intros Hplain Hgs Herr. rewrite GsRoute_POST_response.
  destruct (form_files req) as [|f fs] eqn:Efs.
  { unfold try_catch. rewrite (try_block_no_files env req (entered s) Efs).
    eexists. split; [reflexivity|]. apply Herr. now left. }
  assert (Hne : form_files req <> []) by (rewrite Efs; discriminate).
  destruct (level_accepted (level_of req)) eqn:Hacc.
  2:{ unfold try_catch.
      rewrite (try_block_rejected env req (entered s) Hne Hacc).
      eexists. split; [reflexivity|]. apply Herr. now left. }
  destruct (parse_split (form_files req))
    as [(docs & Hp)|(good & docs & bad & rest & message & Hfs & Hg & Hb)].
  2:{ rewrite (guarded_unparseable env req good docs bad rest message
                 (entered s) Hfs Hacc Hg Hb).
      eexists. split; [reflexivity|]. apply Herr. now right. }
  rewrite (guarded_merged env req docs (entered s) Hne Hacc Hp).
  unfold try_catch. destruct (js_eq (level_of req) (Num 0%Z)) eqn:H0.
  { apply js_eq_true in H0. rewrite H0. rewrite compress_and_respond_0.
    eexists. split; [reflexivity|]. apply Hplain. }
  rewrite (compress_and_respond_run env (level_of req) _ _ H0). cbv zeta.
  unfold GsRoute.catch_block, bind, log, ret.
  destruct (mkdtemp_outcome env) as [err|suffix].
  { eexists. split; [reflexivity|]. apply Herr. now right. }
  destruct (writeFile_error env _) as [err|].
  { eexists. split; [reflexivity|]. apply Herr. now right. }
  destruct (exec_outcome env "gs --version" _) as [dk [err|]].
  { eexists. split; [reflexivity|]. apply Hplain. }
  destruct (exec_outcome env _ dk) as [dk' [err|]].
  { eexists. split; [reflexivity|]. apply Herr. now right. }
  destruct (lookup_file _ (files dk')) as [c|].
  - eexists. split; [reflexivity|]. apply Hgs.
  - eexists. split; [reflexivity|]. apply Herr. now right.
Qed.

Lemma json_readable (e : string) (d : option string) (st : nat) :
  st = 400 \/ st = 500 -> page_readable (NextResponse_json e d st).
Proof. intros [-> | ->]; reflexivity. Qed.

(** Whatever a handler answers, the page can read it. *)
Lemma POST_readable (POST : Request -> M Response) (req : Request)
  (s : State) :
  POST = Route.POST env \/ POST = GsRoute.POST env ->
  exists resp, fst (POST req s) = Returned resp /\ page_readable resp.
Proof.
  intros [-> | ->].
  - apply Route_POST_cases.
    + intros l b. split; reflexivity.
    + apply json_readable.
  - apply GsRoute_POST_cases.
    + intros name b. split; reflexivity.
    + intros name b l. split; reflexivity.
    + apply json_readable.
Qed.

End PageAndHandler.

Section Merging.

Import Home.

Lemma nat_to_string_nonempty (n : nat) :
  exists c r, nat_to_string n = String c r.
Proof.
  unfold nat_to_string.
  destruct (numeral_head n n EmptyString) as (k & r & _ & H & _).
  eauto.
Qed.

Lemma or_default_js_toString (x : JSNumber) (d : string) :
  or_default (Some (js_toString x)) d = js_toString x.
Proof.
  destruct x as [|z]; [reflexivity|]. unfold js_toString.
  destruct (z <? 0)%Z; [reflexivity|].
  destruct (nat_to_string_nonempty (Z.to_nat z)) as (c & r & ->).
  reflexivity.
Qed.

Lemma level_of_form (m : Model) : level_of (form_of m) = compressionLevel m.
Proof.
  unfold level_of, form_of. cbn [form_compressionLevel].
  rewrite or_default_js_toString. apply parseInt_js_toString.
Qed.

Lemma files_nonempty (m : Model) :
  files m <> [] -> (List.length (files m) =? 0)%nat = false.
Proof. destruct (files m); [congruence|reflexivity]. Qed.

End Merging.

(** ** The level field, from the page to the handlers *)

Section LevelField.

Context {Page : Type} {lib : PdfLib Page}.
Variable env : Env.

Lemma or_default_numeral (ws rest d : string) (n : nat) :
  or_default (Some (ws ++ nat_to_string n ++ rest)) d
  = ws ++ nat_to_string n ++ rest.
Proof.
  destruct ws as [|c ws]; [|reflexivity].
  destruct (nat_to_string_nonempty n) as (c & r & ->). reflexivity.
Qed.

(** Both handlers read a request through its files and its level. *)
Lemma POST_by_level (req1 req2 : Request) (s : State) :
  form_files req1 = form_files req2 ->
  level_of req1 = level_of req2 ->
  Route.POST env req1 s = Route.POST env req2 s
  /\ GsRoute.POST env req1 s = GsRoute.POST env req2 s.
Proof.
  intros Hf Hl. unfold level_of in Hl.
  unfold Route.POST, GsRoute.POST, GsRoute.try_block.
  rewrite Hf, Hl. split; reflexivity.
Qed.

End LevelField.

(** X8.  In the [compressionLevel] field both handlers read a leading
    decimal numeral and ignore what follows it: white space before the
    numeral is skipped and reading stops at the first character that
    cannot continue it.  A request with such a field is handled exactly
    as the request with the bare numeral, so the fields ["1.5"],
    ["2abc"] and [" 1"] are the levels 1, 2 and 1.  Stated for numerals
    up to 2^53 - 1, where numbers are exact. *)
Theorem parseInt_reads_leading_numeral :
  forall (Page : Type) (lib : PdfLib Page) (env : Env) (fs : list File)
         (ws rest : string) (n : nat) (s : State),
    let sloppy := mkRequest fs (Some (ws ++ nat_to_string n ++ rest)) in
    let clean := mkRequest fs (Some (nat_to_string n)) in
    all_space ws = true ->
    ends_numeral rest = true ->
    js_exact (Num (Z.of_nat n)) = true ->
    parseInt (ws ++ nat_to_string n ++ rest) = Num (Z.of_nat n)
    /\ level_of sloppy = Num (Z.of_nat n)
    /\ level_of clean = Num (Z.of_nat n)
    /\ Route.POST env sloppy s = Route.POST env clean s
    /\ GsRoute.POST env sloppy s = GsRoute.POST env clean s.
Proof.
  intros Page lib env fs ws rest n s sloppy clean Hws Hrest _.
  assert (Hread : parseInt (ws ++ nat_to_string n ++ rest)
                  = Num (Z.of_nat n)).
  { destruct (numeral_stages n rest Hrest) as (Hsp & Hsign & Hhex & Hread).
    unfold parseInt.
    rewrite (skip_space_prefix _ _ Hws), Hsp, Hsign, Hhex, Hread.
    f_equal. lia. }
  assert (Hsloppy : level_of sloppy = Num (Z.of_nat n)).
  { unfold level_of, sloppy. cbn [form_compressionLevel].
    now rewrite or_default_numeral. }
  assert (Hclean : level_of clean = Num (Z.of_nat n)).
  { unfold level_of, clean. cbn [form_compressionLevel].
    destruct (nat_to_string_nonempty n) as (c & r & E). rewrite E.
    cbn [or_default]. rewrite <- E. apply parseInt_nat_to_string. }
  split; [exact Hread|]. split; [exact Hsloppy|]. split; [exact Hclean|].
  apply POST_by_level; [reflexivity|]. now rewrite Hsloppy, Hclean.
Qed.

(** X8 on the field [" 2abc"]. *)
Lemma parseInt_reads_leading_numeral_witness :
  let env := Fixture.os Fixture.gs_missing Fixture.rm_works in
  level_of (mkRequest [Fixture.two_pages] (Some " 2abc")) = Num 2%Z
  /\ Route.POST (lib := Fixture.toy) env
       (mkRequest [Fixture.two_pages] (Some " 2abc")) Fixture.idle
     = Route.POST (lib := Fixture.toy) env
         (mkRequest [Fixture.two_pages] (Some "2")) Fixture.idle
  /\ GsRoute.POST (lib := Fixture.toy) env
       (mkRequest [Fixture.two_pages] (Some " 2abc")) Fixture.idle
     = GsRoute.POST (lib := Fixture.toy) env
         (mkRequest [Fixture.two_pages] (Some "2")) Fixture.idle.
Proof.
  intros env.
  destruct (parseInt_reads_leading_numeral byte Fixture.toy env
              [Fixture.two_pages] " " "abc" 2 Fixture.idle
              eq_refl eq_refl eq_refl) as (_ & Hl & _ & Hr & Hg).
  split; [exact Hl|]. split; [exact Hr|exact Hg].
Defined.

(** X9.  What the page writes with [toString] the code reads back
    with [parseInt], for [NaN] and for the integers up to 2^53 - 1 in
    magnitude, where numbers are exact: the level the handlers compute
    from the form of [handleMerge] is the [compressionLevel] of the
    page; the index [handleDropItem] reads is the index
    [handleDragStart] stored; and the [Content-Length] that route.ts
    writes is read back as the length of the body. *)
Theorem parseInt_toString :
  forall (m : Home.Model) (index : nat) (l : JSNumber) (b : bytes),
    js_exact (Home.compressionLevel m) = true ->
    js_exact (Num (Z.of_nat index)) = true ->
    js_exact (Num (Z.of_nat (List.length b))) = true ->
    parseInt (js_toString (Home.compressionLevel m)) = Home.compressionLevel m
    /\ level_of (form_of m) = Home.compressionLevel m
    /\ parseInt (Home.handleDragStart index) = Num (Z.of_nat index)
    /\ option_map parseInt (header "Content-Length" (Route.success l b))
       = Some (Num (Z.of_nat (List.length b))).
Proof.
  intros m index l b _ _ _.
  split; [apply parseInt_js_toString|].
  split.
  { unfold level_of, form_of. cbn [form_compressionLevel].
    rewrite or_default_js_toString. apply parseInt_js_toString. }
  split.
  { unfold Home.handleDragStart. apply parseInt_js_toString. }
  unfold Route.success, header. cbn [headers find fst snd].
  change (String.eqb "Content-Type" "Content-Length") with false.
  change (String.eqb "Content-Disposition" "Content-Length") with false.
  change (String.eqb "Content-Length" "Content-Length") with true.
  cbn [option_map snd]. now rewrite parseInt_nat_to_string.
Qed.

(** X9 on the page at level 2, the third list item and a body of two
    bytes. *)
Lemma parseInt_toString_witness :
  let m := Home.mkModel [] None false false (Num 2%Z) in
  level_of (form_of m) = Num 2%Z
  /\ parseInt (Home.handleDragStart 3) = Num 3%Z
  /\ option_map parseInt
       (header "Content-Length" (Route.success (Num 2%Z) ["a"; "b"]%byte))
     = Some (Num 2%Z).
Proof.
  intros m.
  destruct (parseInt_toString m 3 (Num 2%Z) ["a"; "b"]%byte
              eq_refl eq_refl eq_refl) as (_ & Hl & Hd & Hc).
  split; [exact Hl|]. split; [exact Hd|exact Hc].
Defined.


(** X15.  [handleMerge] with an empty list only shows an alert: nothing
    is posted and the state stays as it is.  With files it posts once:
    the files in the order of the list and the level as text, which the
    handler reads back as the level chosen on the page; whatever comes
    back, the list is kept and [isMerging] ends [false]. *)
Theorem merge_posts_the_list_once :
  forall (createObjectURL : Body -> string) (syntax_error : string)
         (fetch : Request -> FetchOutcome) (m : Home.Model),
    let result := Home.handleMerge createObjectURL syntax_error fetch m in
    (Home.files m = [] ->
     result = (m, [Home.Alert "Please upload at least 1 PDF file"]))
    /\ (Home.files m <> [] ->
        exists rest,
          snd result = Home.Fetch (form_of m) :: rest
          /\ (forall e, In e rest -> is_fetch e = false)
          /\ form_files (form_of m) = map Home.upload (Home.files m)
          /\ level_of (form_of m) = Home.compressionLevel m
          /\ Home.files (fst result) = Home.files m
          /\ Home.isMerging (fst result) = false).
Proof.
  intros createObjectURL syntax_error fetch m result. subst result. split.
  - intros Hf. unfold Home.handleMerge. now rewrite Hf.
  - intros Hne. unfold Home.handleMerge.
    rewrite (files_nonempty m Hne). fold (form_of m).
    assert (Hcatch : forall message e,
               In e (Home.catch_block message) -> is_fetch e = false).
    { intros message e [<-|[<-|[]]]; reflexivity. }
    destruct (fetch (form_of m)) as [message|res].
    + eexists. cbn [fst snd]. split; [reflexivity|].
      split; [apply Hcatch|]. split; [reflexivity|].
      split; [apply level_of_form|]. split; reflexivity.
    + destruct (negb (res_ok res)).
      * destruct (res_json syntax_error (body res)) as [message|error];
          eexists; cbn [fst snd]; (split; [reflexivity|]);
          (split; [apply Hcatch|]); (split; [reflexivity|]);
          (split; [apply level_of_form|]); split; reflexivity.
      * eexists. cbn [fst snd]. split; [reflexivity|]. split.
        { intros e He.
          destruct (headers_get "content-length" (headers res)) as [[|c r]|];
            simpl in He; try contradiction.
          destruct He as [<-|[]]. reflexivity. }
        split; [reflexivity|]. split; [apply level_of_form|].
        split; reflexivity.
Qed.

(** X16.  When a handler turns the request down or fails (any status
    but 200), the page alerts "Failed to merge PDFs": it looks for a
    [message] property, and the error object of the handlers has only
    [error] and [details], so neither reaches the user.  The earlier
    result and the list stay as they are. *)
Theorem merge_failure_shows_fixed_text :
  forall (Page : Type) (lib : PdfLib Page) (env : Env) (s : State)
         (POST : Request -> M Response)
         (createObjectURL : Body -> string) (syntax_error : string)
         (m : Home.Model) (resp : Response),
    POST = Route.POST env \/ POST = GsRoute.POST env ->
    Home.files m <> [] ->
    fst (POST (form_of m) s) = Returned resp ->
    status resp <> 200 ->
    Home.handleMerge createObjectURL syntax_error (served POST s) m
    = (Home.set_isMerging false m,
       [Home.Fetch (form_of m); Home.Alert "Failed to merge PDFs";
        Home.ConsoleError "Failed to merge PDFs"]).
Proof.
  intros Page lib env s POST createObjectURL syntax_error m resp HPOST Hne
    Hr Hst.
  assert (exists r, fst (POST (form_of m) s) = Returned r /\ well_formed r)
    as (r & Hr' & Hwf).
  { destruct HPOST as [-> | ->];
      [apply Route_POST_shape|apply GsRoute_POST_shape]. }
  rewrite Hr in Hr'. injection Hr' as <-.
  unfold Home.handleMerge. rewrite (files_nonempty m Hne). fold (form_of m).
  unfold served. rewrite Hr. unfold well_formed in Hwf.
  destruct resp as [st hs [b|e d]]; cbn [body status] in *.
  - destruct Hwf as [H200 _]. contradiction.
  - assert (Hok : res_ok (mkResponse st hs (JsonBody e d)) = false)
      by (destruct Hwf as [-> | ->]; reflexivity).
    rewrite Hok. cbn [negb res_json body].
    destruct d; reflexivity.
Qed.

(** X16 on an upload that is no PDF, against route.ts. *)
Lemma merge_failure_shows_fixed_text_witness :
  let env := Fixture.os Fixture.gs_missing Fixture.rm_works in
  let m :=
    Home.mkModel [Desk.a_pdf; Desk.notes] None false false (Num 1%Z) in
  snd (Home.handleMerge Desk.object_url "Unexpected token"
         (served (Route.POST (lib := Fixture.toy) env) Fixture.idle) m)
  = [Home.Fetch (form_of m); Home.Alert "Failed to merge PDFs";
     Home.ConsoleError "Failed to merge PDFs"].
Proof.
  intros env m.
  rewrite (merge_failure_shows_fixed_text byte Fixture.toy env Fixture.idle
             (Route.POST (lib := Fixture.toy) env) Desk.object_url
             "Unexpected token" m
             (NextResponse_json "Failed to merge PDFs"
                (Some "Failed to parse PDF document") 500)).
  - reflexivity.
  - left. reflexivity.
  - discriminate.
  - reflexivity.
  - discriminate.
Defined.

(** X17.  When a handler answers 200, the page keeps an object URL of
    the returned bytes as the merged result and sets the shown size to
    the exact byte length of those bytes, read back from
    [content-length]. *)
Theorem merge_success_sets_url_and_size :
  forall (Page : Type) (lib : PdfLib Page) (env : Env) (s : State)
         (POST : Request -> M Response)
         (createObjectURL : Body -> string) (syntax_error : string)
         (m : Home.Model) (resp : Response),
    POST = Route.POST env \/ POST = GsRoute.POST env ->
    Home.files m <> [] ->
    fst (POST (form_of m) s) = Returned resp ->
    status resp = 200 ->
    exists b,
      body resp = PdfBody b
      /\ Home.handleMerge createObjectURL syntax_error (served POST s) m
         = (Home.set_isMerging false
              (Home.set_mergedUrl (Some (createObjectURL (PdfBody b))) m),
            [Home.Fetch (form_of m);
             Home.SetCompressedSize (Num (Z.of_nat (List.length b)))]).
Proof.
  intros Page lib env s POST createObjectURL syntax_error m resp HPOST Hne
    Hr Hst.
  destruct (POST_readable env POST (form_of m) s HPOST) as (r & Hr' & Hread).
  rewrite Hr in Hr'. injection Hr' as <-.
  unfold page_readable in Hread.
  destruct (body resp) as [b|e d] eqn:Hbody.
  2:{ unfold res_ok in Hread. rewrite Hst in Hread. discriminate. }
  destruct Hread as [Hok Hlen]. exists b. split; [reflexivity|].
  unfold Home.handleMerge. rewrite (files_nonempty m Hne). fold (form_of m).
  unfold served. rewrite Hr, Hok, Hlen, Hbody. cbn [negb].
  destruct (nat_to_string_nonempty (List.length b)) as (c & r & Hs).
  rewrite Hs, <- Hs. now rewrite parseInt_nat_to_string.
Qed.

(** X17 on two uploads at level 2 without Ghostscript. *)
Lemma merge_success_sets_url_and_size_witness :
  let env := Fixture.os Fixture.gs_missing Fixture.rm_works in
  let m :=
    Home.mkModel [Desk.a_pdf; Desk.b_pdf] None false false (Num 2%Z) in
  exists b : bytes,
    Home.handleMerge Desk.object_url "Unexpected token"
      (served (GsRoute.POST (lib := Fixture.toy) env) Fixture.idle) m
    = (Home.set_isMerging false (Home.set_mergedUrl (Some "blob:pdf") m),
       [Home.Fetch (form_of m);
        Home.SetCompressedSize (Num (Z.of_nat (List.length b)))])
    /\ List.length b = 6.
Proof.
  intros env m.
  destruct (merge_success_sets_url_and_size byte Fixture.toy env Fixture.idle
              (GsRoute.POST (lib := Fixture.toy) env) Desk.object_url
              "Unexpected token" m
              (mkResponse 200
                 (GsRoute.pdf_headers "merged_compressed.pdf" 6)
                 (PdfBody ["%"; "a"; "b"; "c"; "d"; "e"]%byte)))
    as (b & Hb & Hrun).
  - right. reflexivity.
  - discriminate.
  - vm_compute. reflexivity.
  - reflexivity.
  - exists b. injection Hb as <-. split; [exact Hrun|reflexivity].
Defined.

(** ** From the list on the page to the pages of the download *)

Section ListToDownload.

Context {Page : Type} {lib : PdfLib Page}.
Variable env : Env.

(** At level 0 the merged result kept by the page is an object URL of
    the default serialization of the inputs' pages, in list order. *)
Lemma merged_url_at_level_0 (s : State) (POST : Request -> M Response)
  (createObjectURL : Body -> string) (syntax_error : string)
  (m : Home.Model) (docs : list (PDFDocument Page)) :
  POST = Route.POST env \/ POST = GsRoute.POST env ->
  Home.files m <> [] ->
  Home.compressionLevel m = Num 0%Z ->
  Forall2 parses (map Home.upload (Home.files m)) docs ->
  Home.mergedUrl
    (fst (Home.handleMerge createObjectURL syntax_error (served POST s) m))
  = Some
      (createObjectURL
         (PdfBody
            (writePdf true 50
               (prepareForSave default_save
                  (merged_document (clock env (ticks s)) (all_pages docs)))))).
Proof.
  intros HPOST Hne Hlevel Hp.
  assert (E : level_of (form_of m) = Num 0%Z)
    by (rewrite level_of_form; exact Hlevel).
  assert (Hacc : level_accepted (level_of (form_of m)) = true)
    by now rewrite E.
  assert (Hne' : form_files (form_of m) <> []).
  { unfold form_of. cbn [form_files]. destruct (Home.files m);
      [congruence|discriminate]. }
  unfold Home.handleMerge. rewrite (files_nonempty m Hne). fold (form_of m).
  unfold served. destruct HPOST as [-> | ->].
  - rewrite (Route_POST_merged env (form_of m) docs s Hne' Hacc Hp), E.
    rewrite save_with_level_0. reflexivity.
  - rewrite GsRoute_POST_response. unfold try_catch.
    rewrite (try_block_merged env (form_of m) docs (entered s) Hne' Hacc Hp).
    rewrite E, compress_and_respond_0. reflexivity.
Qed.

End ListToDownload.

(** X18.  At level 0, with either handler, what the page offers for
    download is the serialization of the pages of the listed files,
    file after file in the order of the list on the page. *)
Theorem download_follows_list_order :
  forall (Page : Type) (lib : PdfLib Page) (env : Env) (s : State)
         (POST : Request -> M Response)
         (createObjectURL : Body -> string) (syntax_error : string)
         (m : Home.Model) (docs : list (PDFDocument Page)),
    POST = Route.POST env \/ POST = GsRoute.POST env ->
    Home.files m <> [] ->
    Home.compressionLevel m = Num 0%Z ->
    Forall2 parses (map Home.upload (Home.files m)) docs ->
    Home.mergedUrl
      (fst (Home.handleMerge createObjectURL syntax_error (served POST s) m))
    = Some
        (createObjectURL
           (PdfBody
              (writePdf true 50
                 (prepareForSave default_save
                    (merged_document (clock env (ticks s))
                       (all_pages docs)))))).
Proof.
  intros Page lib env s POST createObjectURL syntax_error m docs HPOST Hne
    Hlevel Hp.
  assert (E : level_of (form_of m) = Num 0%Z)
    by (rewrite level_of_form; exact Hlevel).
  assert (Hacc : level_accepted (level_of (form_of m)) = true)
    by now rewrite E.
  assert (Hne' : form_files (form_of m) <> []).
  { unfold form_of. cbn [form_files]. destruct (Home.files m);
      [congruence|discriminate]. }
  unfold Home.handleMerge. rewrite (files_nonempty m Hne). fold (form_of m).
  unfold served. destruct HPOST as [-> | ->].
  - rewrite (Route_POST_merged env (form_of m) docs s Hne' Hacc Hp), E.
    rewrite save_with_level_0. reflexivity.
  - rewrite GsRoute_POST_response. unfold try_catch.
    rewrite (try_block_merged env (form_of m) docs (entered s) Hne' Hacc Hp).
    rewrite E, compress_and_respond_0. reflexivity.
Qed.

(** X18 on two listed files against route.ts. *)
Lemma download_follows_list_order_witness :
  let env := Fixture.os Fixture.gs_missing Fixture.rm_works in
  let m :=
    Home.mkModel [Desk.b_pdf; Desk.a_pdf] None false false (Num 0%Z) in
  Home.mergedUrl
    (fst (Home.handleMerge (fun b => match b with
                                     | PdfBody c => string_of_list_byte c
                                     | JsonBody _ _ => EmptyString
                                     end)
            "Unexpected token"
            (served (Route.POST (lib := Fixture.toy) env) Fixture.idle) m))
  = Some "%cdeab".
Proof.
  intros env m.
  rewrite (download_follows_list_order byte Fixture.toy env Fixture.idle
             (Route.POST (lib := Fixture.toy) env) _ "Unexpected token" m
             [mkPDFDocument ["c"; "d"; "e"]%byte None None None None None None;
              mkPDFDocument ["a"; "b"]%byte None None None None None None]).
  - reflexivity.
  - left. reflexivity.
  - discriminate.
  - reflexivity.
  - repeat constructor.
Defined.

(** X19.  Moving a file up changes the download accordingly: after
    [moveFileUp] on the second of two neighbouring files, a merge at
    level 0 returns the pages of the files before them, then the pages
    of the second, then those of the first, then the rest. *)
Theorem move_up_reorders_download :
  forall (Page : Type) (lib : PdfLib Page) (env : Env) (s : State)
         (POST : Request -> M Response)
         (createObjectURL : Body -> string) (syntax_error : string)
         (m : Home.Model) (pre post : list Home.BrowserFile)
         (a b : Home.BrowserFile)
         (dpre dpost : list (PDFDocument Page)) (da db : PDFDocument Page),
    POST = Route.POST env \/ POST = GsRoute.POST env ->
    Home.files m = (pre ++ a :: b :: post)%list ->
    Home.compressionLevel m = Num 0%Z ->
    Forall2 parses (map Home.upload pre) dpre ->
    parses (Home.upload a) da ->
    parses (Home.upload b) db ->
    Forall2 parses (map Home.upload post) dpost ->
    Home.mergedUrl
      (fst (Home.handleMerge createObjectURL syntax_error (served POST s)
              (Home.moveFileUp (Z.of_nat (S (List.length pre))) m)))
    = Some
        (createObjectURL
           (PdfBody
              (writePdf true 50
                 (prepareForSave default_save
                    (merged_document (clock env (ticks s))
                       (all_pages dpre ++ pages db ++ pages da
                        ++ all_pages dpost)))))).
Proof.
  intros Page lib env s POST createObjectURL syntax_error m pre post a b
    dpre dpost da db HPOST Hf Hlevel Hpre Ha Hb Hpost.
  rewrite (moveFileUp_at m pre a b post Hf).
  rewrite (merged_url_at_level_0 env s POST createObjectURL syntax_error _
             (dpre ++ db :: da :: dpost) HPOST).
  - unfold all_pages. rewrite map_app, concat_app. reflexivity.
  - simpl. destruct pre; discriminate.
  - exact Hlevel.
  - simpl. rewrite map_app. apply Forall2_app; [exact Hpre|].
    simpl. constructor; [exact Hb|]. constructor; [exact Ha|exact Hpost].
Qed.

(** X19 on three listed files: the second is moved up. *)
Lemma move_up_reorders_download_witness :
  let env := Fixture.os Fixture.gs_missing Fixture.rm_works in
  Home.mergedUrl
    (fst (Home.handleMerge (fun b => match b with
                                     | PdfBody c => string_of_list_byte c
                                     | JsonBody _ _ => EmptyString
                                     end)
            "Unexpected token"
            (served (Route.POST (lib := Fixture.toy) env) Fixture.idle)
            (Home.moveFileUp 1 Desk.listed)))
  = Some "%cdeab".
Proof.
  intros env.
  rewrite (move_up_reorders_download byte Fixture.toy env Fixture.idle
             (Route.POST (lib := Fixture.toy) env) _ "Unexpected token"
             Desk.listed [] [Desk.c_pdf] Desk.a_pdf Desk.b_pdf
             [] [mkPDFDocument [] None None None None None None]
             (mkPDFDocument ["a"; "b"]%byte None None None None None None)
             (mkPDFDocument ["c"; "d"; "e"]%byte None None None None None None)).
  - reflexivity.
  - left. reflexivity.
  - reflexivity.
  - reflexivity.
  - constructor.
  - reflexivity.
  - reflexivity.
  - repeat constructor.
Defined.

(** ** Adding files *)

(** X20.  Dropping files on the page adds the PDFs among them, in the
    order dropped, after the files already listed, and nothing else;
    when there is no PDF among them the list stays as it is and an
    alert is shown.  Files chosen in the file dialog are all added,
    whatever their type. *)
Theorem drop_adds_only_pdfs :
  forall (dropped : list Home.BrowserFile) (m : Home.Model),
    let pdfs :=
      filter (fun f => String.eqb (Home.type f) "application/pdf") dropped in
    Home.files (fst (Home.handleDrop dropped m))
    = (Home.files m ++ pdfs)%list
    /\ Forall (fun f => Home.type f = "application/pdf") pdfs
    /\ snd (Home.handleDrop dropped m)
       = (if (List.length pdfs =? 0)%nat
          then [Home.Alert "Please drop only PDF files"] else [])
    /\ Home.files (Home.handleFileChange (Some dropped) m)
       = (Home.files m ++ dropped)%list.
Proof.
  intros dropped m pdfs. subst pdfs. unfold Home.handleDrop.
  set (pdfs := filter _ dropped).
  split; [|split; [|split]].
  - destruct pdfs as [|f pdfs'] eqn:E; simpl; [now rewrite app_nil_r|].
    reflexivity.
  - apply Forall_forall. intros f Hf. apply filter_In in Hf.
    destruct Hf as [_ Hf]. now apply String.eqb_eq in Hf.
  - destruct pdfs; reflexivity.
  - reflexivity.
Qed.
